(** * rhinoFOAM: the G-code generator, embedded and verified

    A shallow embedding of [generate_gcode] and its helpers from
    [FOAM_GcodeGenerator.py], followed by the properties the specification
    states about it.

    Numbers.  A Python float is a binary64 number. A finite one is
    modelled by the rational number it denotes ([Q]), and a comparison
    ([<], [>]) is the exact one, as it is in Python. The operations that
    round ([+], [*], [/], [math.sqrt], [round]) belong to the runtime and
    are parameters of the model (class [Float64]): nothing is assumed of
    them unless a theorem says so, and [binary64] further down is the
    arithmetic the examples run on. Infinities and NaN are not modelled.

    Host.  [Point3d.DistanceTo] belongs to Rhino and [ast.literal_eval] to
    the Python library; both are parameters of the model (class [Host]).
    The debug [print] and the Grasshopper runtime warning have no effect on
    what [generate_gcode] returns and are left out.

    Dynamic typing.  A profile arrives untyped; its values are kept as
    [pyval] and an operation Python would refuse raises in the model
    (type [result]).

    Text.  A line of G-code is kept as the f-string that builds it: literal
    text with the interpolated values still in place (type [line]). *)

From Stdlib Require Import String Ascii List Bool ZArith QArith Qround Qabs Qpower Lia Lqa.
From Stdlib Require Import DecimalString Sorted Morphisms.
From Stdlib Require Import Reals Qreals Lra.
Import ListNotations.

Local Open Scope string_scope.
Local Open Scope list_scope.
Local Open Scope Q_scope.

#[local] Set Warnings "-register-all".

(** Linear arithmetic over the rationals; plain [lra] is the one of the
    reals. *)
Ltac qlra := Lqa.lra.

(** * Part I: the program *)

(** ** Numbers *)

(** [a < b] and [a > b] on numbers. *)
Definition Qltb (a b : Q) : bool := negb (Qle_bool b a).
Definition Qgtb (a b : Q) : bool := Qltb b a.

(** The floating-point operations of the runtime, on finite floats. *)
Class Float64 : Type := {
  (** [x + y] *)
  fadd : Q -> Q -> Q;
  (** [x * y] *)
  fmul : Q -> Q -> Q;
  (** [x / y] *)
  fdiv : Q -> Q -> Q;
  (** [math.sqrt(x)] *)
  fsqrt : Q -> Q;
  (** [round(x, ndigits)] *)
  fround : Q -> Z -> Q
}.

(** The float the literals [0.20] and [0.2] denote: the binary64 number
    nearest to 1/5. *)
Definition float_0_2 : Q := 3602879701896397 # 18014398509481984.

(** ** Rhino.Geometry, as far as the generator uses it *)

Module rg.

Record Point3d : Type := mkPoint3d { X : Q; Y : Q; Z : Q }.

(** A raw path handed in by Grasshopper. [TryGetPolyline] of a
    [PolylineCurve] either succeeds with the vertices or fails. *)
Inductive Geometry : Type :=
| Polyline (pts : list Point3d)
| PolylineCurve (TryGetPolyline : option (list Point3d))
| Other.

End rg.

Definition Point3d : Type := rg.Point3d.

(** [rg.Point3d(round(pt.X,3), round(pt.Y,3), round(pt.Z,3))] *)
Definition round_point {float64 : Float64} (pt : Point3d) : Point3d :=
  rg.mkPoint3d (fround (rg.X pt) 3) (fround (rg.Y pt) 3) (fround (rg.Z pt) 3).

(** Extracts Point3d coords from Polyline or PolylineCurve. *)
Definition extract_points {float64 : Float64} (pl : rg.Geometry) : list Point3d :=
  match pl with
  | rg.Polyline pts => map round_point pts
  | rg.PolylineCurve (Some poly) => map round_point poly
  | rg.PolylineCurve None => []
  | rg.Other => []
  end.

(** ** Workspace validator *)

Definition reason_if (b : bool) (code : string) : list string :=
  if b then [code] else [].

Definition in_bounds_cart (x y z bx by_ bz : Q) : bool * list string :=
  let reasons :=
    reason_if (Qltb x 0) "X<0" ++
    reason_if (Qltb y 0) "Y<0" ++
    reason_if (Qltb z 0) "Z<0" ++
    reason_if (Qgtb x bx) "X>BedX" ++
    reason_if (Qgtb y by_) "Y>BedY" ++
    reason_if (Qgtb z bz) "Z>BedZ" in
  (Nat.eqb (length reasons) 0, reasons).

Definition in_bounds_delta {float64 : Float64} (x y z radius bz : Q)
    : bool * list string :=
  let r := fsqrt (fadd (fmul x x) (fmul y y)) in
  let reasons :=
    reason_if (Qgtb r radius) "r>BedRadius" ++
    reason_if (Qltb z 0) "Z<0" ++
    reason_if (Qgtb z bz) "Z>BedZ" in
  (Nat.eqb (length reasons) 0, reasons).

(** ** Python values, exceptions and the host environment *)

(** The dynamically typed values a profile can hold. [PObj] stands for a
    host object the generator never looks into (a Rhino curve, say). A
    dictionary is the list of its items, string keys, the first match
    counts. *)
Inductive pyval : Type :=
| PNone
| PBool (b : bool)
| PInt (n : Z)
| PFloat (q : Q)
| PStr (s : string)
| PList (items : list pyval)
| PDict (items : list (string * pyval))
| PObj (id : nat).

Inductive exn : Type := TypeError | AttributeError.

Inductive result (A : Type) : Type :=
| Ok (a : A)
| Raise (e : exn).

Arguments Ok {A} a.
Arguments Raise {A} e.

Definition bind {A B : Type} (m : result A) (k : A -> result B) : result B :=
  match m with
  | Ok a => k a
  | Raise e => Raise e
  end.

Notation "x <- m ;; k" := (bind m (fun x => k))
  (at level 61, m at next level, right associativity).
Notation "' p <- m ;; k" := (bind m (fun p => k))
  (at level 61, p pattern, m at next level, right associativity).

(** What the generator calls and this repository does not define. *)
Class Host : Type := {
  (** The arithmetic of floats. *)
  host_float64 :: Float64;
  (** [ast.literal_eval]; [None] when it raises. *)
  literal_eval : string -> option pyval;
  (** [Point3d.DistanceTo] of Rhino. *)
  DistanceTo : Point3d -> Point3d -> Q
}.

(** Truth value of a Python object ([if profile:], [if geometry:]). *)
Definition truthy (v : pyval) : bool :=
  match v with
  | PNone => false
  | PBool b => b
  | PInt n => negb (Z.eqb n 0)
  | PFloat q => negb (Qeq_bool q 0)
  | PStr s => negb (String.eqb s "")
  | PList items => negb (Nat.eqb (length items) 0)
  | PDict items => negb (Nat.eqb (length items) 0)
  | PObj _ => true
  end.

(** [v == "s"] *)
Definition eq_str (v : pyval) (s : string) : bool :=
  match v with
  | PStr t => String.eqb t s
  | _ => false
  end.

Definition is_None (v : pyval) : bool :=
  match v with PNone => true | _ => false end.

Definition is_dict (v : pyval) : bool :=
  match v with PDict _ => true | _ => false end.

(** The number behind a value used in arithmetic or in a comparison with a
    float; anything else makes Python raise [TypeError]. *)
Definition as_num (v : pyval) : result Q :=
  match v with
  | PBool b => Ok (if b then 1 else 0)
  | PInt n => Ok (inject_Z n)
  | PFloat q => Ok q
  | _ => Raise TypeError
  end.

Fixpoint lookup (key : string) (items : list (string * pyval)) : option pyval :=
  match items with
  | [] => None
  | (k, v) :: rest => if String.eqb k key then Some v else lookup key rest
  end.

(** [d.get(key, default)] on a dictionary that is known to be one. *)
Definition get (items : list (string * pyval)) (key : string) (default : pyval) : pyval :=
  match lookup key items with
  | Some v => v
  | None => default
  end.

(** [params.get(key, default)] on whatever [params] holds: only a dictionary
    has the method. *)
Definition params_get (params : pyval) (key : string) (default : pyval) : result pyval :=
  match params with
  | PDict items => Ok (get items key default)
  | _ => Raise AttributeError
  end.

(** ** Configuration *)

(** The bed outline returned to the caller. *)
Inductive bed : Type :=
| Supplied (v : pyval)
| Circle (radius : Q)
| Rectangle3d (width height : Q).

Record config : Type := mkConfig {
  mode : pyval;
  printer_type : pyval;
  params : pyval;
  bedX : pyval;
  bedY : pyval;
  bedZ : pyval;
  bedRadius : pyval;
  Bed : bed
}.

Definition default_config : config :=
  mkConfig (PStr "Pen") (PStr "Cartesian") (PDict [])
           (PInt 300) (PInt 300) (PInt 300) (PInt 150) (Supplied PNone).

(** [rg.Circle(rg.Plane.WorldXY, radius).ToNurbsCurve()] *)
Definition make_circle (radius : pyval) : result bed :=
  r <- as_num radius ;; Ok (Circle r).

(** [rg.Rectangle3d(rg.Plane.WorldXY, bx, by).ToNurbsCurve()] *)
Definition make_rectangle (bx by_ : pyval) : result bed :=
  w <- as_num bx ;; h <- as_num by_ ;; Ok (Rectangle3d w h).

(** [profile[i] if len(profile) > i and profile[i] is not None else d] *)
Definition item_or (items : list pyval) (i : nat) (d : pyval) : pyval :=
  match nth_error items i with
  | Some v => if is_None v then d else v
  | None => d
  end.

(** Legacy dict format *)
Definition config_of_dict (items : list (string * pyval)) : result config :=
  let d := default_config in
  let mode := get items "Mode" (PStr "Pen") in
  let printer_type := get items "PrinterType" (PStr "Cartesian") in
  let params := get items "Params" (PDict []) in
  let Bed := get items "BedShape" PNone in
  if eq_str printer_type "Delta" then
    let bedRadius := get items "BedRadius" (bedRadius d) in
    let bedZ := get items "BedZ" (bedZ d) in
    Bed' <- (if is_None Bed then make_circle bedRadius else Ok (Supplied Bed)) ;;
    Ok (mkConfig mode printer_type params (bedX d) (bedY d) bedZ bedRadius Bed')
  else
    let bedX := get items "BedX" (bedX d) in
    let bedY := get items "BedY" (bedY d) in
    let bedZ := get items "BedZ" (bedZ d) in
    Bed' <- (if is_None Bed then make_rectangle bedX bedY else Ok (Supplied Bed)) ;;
    Ok (mkConfig mode printer_type params bedX bedY bedZ (bedRadius d) Bed').

(** List format: [Mode, PrinterType, Params, BedX, BedY, BedZ, BedRadius, BedShape] *)
Definition config_of_list (items : list pyval) : result config :=
  let d := default_config in
  let mode := nth 0 items (PStr "Pen") in
  let printer_type := nth 1 items (PStr "Cartesian") in
  let params :=
    match nth_error items 2 with
    | Some v => if is_dict v then v else PDict []
    | None => PDict []
    end in
  if eq_str printer_type "Delta" then
    let bedZ := item_or items 5 (bedZ d) in
    let bedRadius := item_or items 6 (bedRadius d) in
    Bed' <- match nth_error items 7 with
            | Some v => Ok (Supplied v)
            | None => make_circle bedRadius
            end ;;
    Ok (mkConfig mode printer_type params (bedX d) (bedY d) bedZ bedRadius Bed')
  else
    let bedX := item_or items 3 (bedX d) in
    let bedY := item_or items 4 (bedY d) in
    let bedZ := item_or items 5 (bedZ d) in
    Bed' <- match nth_error items 7 with
            | Some v => Ok (Supplied v)
            | None => make_rectangle bedX bedY
            end ;;
    Ok (mkConfig mode printer_type params bedX bedY bedZ (bedRadius d) Bed').

(** ** Diagnostics, lines and states *)

(** The diagnostics the validation pass accumulates. A [TextDot] is kept as
    its text and its location, a [LineCurve] as its two end points. *)
Record diagnostics : Type := mkDiagnostics {
  violations : nat;
  BadPts : list Point3d;
  BadSegs : list (Point3d * Point3d);
  WarnDots : list (string * Point3d)
}.

Definition no_diagnostics : diagnostics := mkDiagnostics 0 [] [] [].

(** [", ".join(reasons)] *)
Fixpoint join (sep : string) (parts : list string) : string :=
  match parts with
  | [] => ""
  | [s] => s
  | s :: rest => (s ++ sep ++ join sep rest)%string
  end.

Fixpoint foldM {A S : Type} (f : S -> A -> result S) (l : list A) (s : S) : result S :=
  match l with
  | [] => Ok s
  | a :: rest => s' <- f s a ;; foldM f rest s'
  end.

Fixpoint mapM {A B : Type} (f : A -> result B) (l : list A) : result (list B) :=
  match l with
  | [] => Ok []
  | a :: rest => b <- f a ;; bs <- mapM f rest ;; Ok (b :: bs)
  end.

(** One piece of an f-string: literal text, a float written by [{x}], a
    float written by [{x:.4f}], or any other value written by [{v}]. *)
Inductive frag : Type :=
| Txt (s : string)
| Num (q : Q)
| Num4 (q : Q)
| Val (v : pyval).

Definition line : Type := list frag.

Definition text (s : string) : line := [Txt s].

(** What the kernel carries from point to point and from path to path. *)
Record kernel_state : Type := mkKernel {
  gcode : list line;
  preview_paths : list (list Point3d);
  extrusion : Q
}.

Definition emit (st : kernel_state) (lines : list line) : kernel_state :=
  mkKernel (gcode st ++ lines) (preview_paths st) (extrusion st).

(** [enumerate(coords)] *)
Definition enumerate {A : Type} (l : list A) : list (nat * A) :=
  combine (seq 0 (length l)) l.

(** What [generate_gcode] returns:
    [gcode, preview_paths, status, Bed, BadPts, BadSegs, WarnDots]. *)
Record output : Type := mkOutput {
  out_gcode : list line;
  out_preview : list (list Point3d);
  out_status : string;
  out_Bed : bed;
  out_BadPts : list Point3d;
  out_BadSegs : list (Point3d * Point3d);
  out_WarnDots : list (string * Point3d)
}.

Section Generator.

Context {host : Host}.

(** Handle string input (from GH sometimes) *)
Definition decode_string (profile : pyval) : pyval :=
  match profile with
  | PStr s =>
      match literal_eval s with
      | Some v => v
      | None => PNone
      end
  | _ => profile
  end.

(** Defaults, then the profile if there is one. *)
Definition read_profile (profile : pyval) : result config :=
  let profile := decode_string profile in
  if truthy profile then
    match profile with
    | PDict items => config_of_dict items
    | PList items => config_of_list items
    | _ => Ok default_config
    end
  else Ok default_config.

(** ** Safety checks *)

(** The bounds test of the active printer type on one point. The bed sizes
    come out of the profile untyped and meet the coordinates in a
    comparison. *)
Definition in_bounds (cfg : config) (pt : Point3d) : result (bool * list string) :=
  let x := rg.X pt in
  let y := rg.Y pt in
  let z := rg.Z pt in
  if eq_str (printer_type cfg) "Delta" then
    radius <- as_num (bedRadius cfg) ;;
    bz <- as_num (bedZ cfg) ;;
    Ok (in_bounds_delta x y z radius bz)
  else
    bx <- as_num (bedX cfg) ;;
    by_ <- as_num (bedY cfg) ;;
    bz <- as_num (bedZ cfg) ;;
    Ok (in_bounds_cart x y z bx by_ bz).

(** check each point *)
Definition check_point (cfg : config) (d : diagnostics) (pt : Point3d) : result diagnostics :=
  '(ok, reasons) <- in_bounds cfg pt ;;
  if ok then Ok d
  else Ok (mkDiagnostics (S (violations d))
                         (BadPts d ++ [pt])
                         (BadSegs d)
                         (WarnDots d ++ [(join ", " reasons, pt)])).

(** [rg.Point3d((a.X+b.X)/2, (a.Y+b.Y)/2, (a.Z+b.Z)/2)] *)
Definition midpoint (a b : Point3d) : Point3d :=
  rg.mkPoint3d (fdiv (fadd (rg.X a) (rg.X b)) 2) (fdiv (fadd (rg.Y a) (rg.Y b)) 2)
               (fdiv (fadd (rg.Z a) (rg.Z b)) 2).

(** The points a segment hands to the bounds test: [okA], [okB] and, on a
    Delta printer, [okM]. *)
Definition segment_checks (cfg : config) (a b : Point3d) : list Point3d :=
  if eq_str (printer_type cfg) "Delta" then [a; b; midpoint a b] else [a; b].

(** [okA and okB and okM], respectively [okA and okB]. *)
Definition segment_ok (cfg : config) (a b : Point3d) : result bool :=
  oks <- mapM (fun p => '(ok, _) <- in_bounds cfg p ;; Ok ok) (segment_checks cfg a b) ;;
  Ok (forallb (fun ok => ok) oks).

Definition check_segment (cfg : config) (d : diagnostics) (ab : Point3d * Point3d) : result diagnostics :=
  let '(a, b) := ab in
  ok <- segment_ok cfg a b ;;
  if ok then Ok d
  else Ok (mkDiagnostics (violations d) (BadPts d) (BadSegs d ++ [(a, b)]) (WarnDots d)).

(** [(coords[i-1], coords[i]) for i in range(1, len(coords))] *)
Definition segments (coords : list Point3d) : list (Point3d * Point3d) :=
  combine coords (tl coords).

Definition check_path (cfg : config) (d : diagnostics) (pl : rg.Geometry) : result diagnostics :=
  let coords := extract_points pl in
  match coords with
  | [] => Ok d
  | _ :: _ =>
      d1 <- foldM (check_point cfg) coords d ;;
      foldM (check_segment cfg) (segments coords) d1
  end.

(** [if geometry:] guards the whole pass: [None] and the empty list skip it. *)
Definition safety_checks (cfg : config) (geometry : option (list rg.Geometry)) : result diagnostics :=
  match geometry with
  | Some (pl :: rest) => foldM (check_path cfg) (pl :: rest) no_diagnostics
  | _ => Ok no_diagnostics
  end.

Definition str_nat (n : nat) : string := NilEmpty.string_of_uint (Nat.to_uint n).

Definition status_of (violations : nat) : string :=
  if Nat.ltb 0 violations
  then ("⚠ Out of bounds: " ++ str_nat violations ++ " point(s)")%string
  else "OK".

(** ** Base G-code header *)

Definition header (cfg : config) (base_code : option (list string)) : result (list line) :=
  match base_code with
  | Some (l :: rest) => Ok (map text (l :: rest))
  | _ =>
      temps <- (if eq_str (mode cfg) "Hot" then
                  nozzle <- params_get (params cfg) "NozzleTemp" (PInt 210) ;;
                  bedtemp <- params_get (params cfg) "BedTemp" (PInt 30) ;;
                  Ok [ [Txt "M104 S"; Val nozzle; Txt " ; set nozzle temp"];
                       [Txt "M140 S"; Val bedtemp; Txt " ; set bed temp"] ]
                else Ok []) ;;
      Ok ([text "; FOAM G-code Generator"; text "G28 ; Home all axes"]
            ++ temps ++ [text "G92 E0 ; Reset extrusion"])
  end.

(** ** Motion kernel *)

(** The body of [for j, pt in enumerate(coords)]. *)
Definition emit_point (cfg : config) (clearance feedrate : pyval) (coords : list Point3d)
    (st : kernel_state) (jpt : nat * Point3d) : result kernel_state :=
  let '(j, pt) := jpt in
  let x := rg.X pt in
  let y := rg.Y pt in
  let z := rg.Z pt in
  st1 <- (if Nat.eqb j 0 then
            c <- as_num clearance ;;
            Ok (emit st
                  [ text "; Start path";
                    [Txt "G1 X"; Num x; Txt " Y"; Num y; Txt " Z"; Num (fadd z c);
                     Txt " F2000 ; move above start"];
                    [Txt "G1 X"; Num x; Txt " Y"; Num y; Txt " Z"; Num z;
                     Txt " F"; Val feedrate; Txt " ; descend to start"] ])
          else
            let dist := DistanceTo (nth (j - 1) coords pt) pt in
            if eq_str (mode cfg) "Hot" then
              mult <- params_get (params cfg) "ExtrusionMultiplier" (PFloat float_0_2) ;;
              m <- as_num mult ;;
              let e := fadd (extrusion st) (fmul dist m) in
              Ok (mkKernel
                    (gcode st ++
                       [ [Txt "G1 X"; Num x; Txt " Y"; Num y; Txt " Z"; Num z;
                          Txt " E"; Num4 e; Txt " F"; Val feedrate] ])
                    (preview_paths st) e)
            else
              Ok (emit st
                    [ [Txt "G1 X"; Num x; Txt " Y"; Num y; Txt " Z"; Num z;
                       Txt " F"; Val feedrate] ])) ;;
  if Nat.eqb j (length coords - 1) then
    c <- as_num clearance ;;
    Ok (emit st1
          [ text "; End path";
            [Txt "G1 Z"; Num (fadd z c); Txt " F2000 ; lift tool"] ])
  else Ok st1.

(** The body of [for pl in geometry]. *)
Definition emit_path (cfg : config) (clearance feedrate : pyval)
    (st : kernel_state) (pl : rg.Geometry) : result kernel_state :=
  let coords := extract_points pl in
  match coords with
  | [] => Ok st
  | _ :: _ =>
      let st0 := mkKernel (gcode st) (preview_paths st ++ [coords]) (extrusion st) in
      foldM (emit_point cfg clearance feedrate coords) (enumerate coords) st0
  end.

(** The loop runs over [geometry] whatever it is: [None] is not iterable. *)
Definition motion_kernel (cfg : config) (geometry : option (list rg.Geometry))
    : result kernel_state :=
  clearance <- params_get (params cfg) "ClearanceHeight" (PInt 5) ;;
  feedrate <- params_get (params cfg) "FeedRate" (PInt 1500) ;;
  match geometry with
  | Some paths => foldM (emit_path cfg clearance feedrate) paths (mkKernel [] [] 0)
  | None => Raise TypeError
  end.

(** ** Footer *)

Definition footer (cfg : config) : list line :=
  [text "; End of FOAM print"]
    ++ (if eq_str (mode cfg) "Hot"
        then [text "M104 S0 ; turn off hotend"; text "M140 S0 ; turn off bed"]
        else [])
    ++ [text "M107 ; fans off"; text "G28 X0 ; home X"; text "M84 ; disable motors"].

(** ** Main *)

Definition generate_gcode (geometry : option (list rg.Geometry)) (profile : pyval)
    (base_code : option (list string)) : result output :=
  cfg <- read_profile profile ;;
  diag <- safety_checks cfg geometry ;;
  let status := status_of (violations diag) in
  head <- header cfg base_code ;;
  kernel <- motion_kernel cfg geometry ;;
  Ok (mkOutput (head ++ gcode kernel ++ footer cfg)
               (preview_paths kernel)
               status
               (Bed cfg)
               (BadPts diag) (BadSegs diag) (WarnDots diag)).

End Generator.

(** * Part II: the vocabulary of the specification *)

(** ** Reading a line back

    The grammar of a line: a command token, then space-separated fields
    [LETTER<value>], then an optional comment after [;]. An interpolated
    value is one indivisible symbol of the line. *)

Inductive symbol : Type :=
| Ch (c : ascii)
| Hole (f : frag).

Fixpoint symbols (l : line) : list symbol :=
  match l with
  | [] => []
  | Txt s :: rest => map Ch (list_ascii_of_string s) ++ symbols rest
  | f :: rest => Hole f :: symbols rest
  end.

Definition is_ch (c : ascii) (s : symbol) : bool :=
  match s with
  | Ch d => Ascii.eqb c d
  | Hole _ => false
  end.

(** Everything before the comment. *)
Fixpoint code_part (ss : list symbol) : list symbol :=
  match ss with
  | [] => []
  | s :: rest => if is_ch ";" s then [] else s :: code_part rest
  end.

Fixpoint split_words (ss cur : list symbol) : list (list symbol) :=
  match ss with
  | [] => [rev cur]
  | s :: rest =>
      if is_ch " " s then rev cur :: split_words rest []
      else split_words rest (s :: cur)
  end.

Definition words (l : line) : list (list symbol) :=
  filter (fun w => negb (Nat.eqb (length w) 0)) (split_words (code_part (symbols l)) []).

Definition command (l : line) : list symbol := hd [] (words l).

(** The value of the field with the given letter, if the line has one. *)
Definition field (letter : ascii) (l : line) : option (list symbol) :=
  match find (fun w => is_ch letter (hd (Ch " ") w)) (tl (words l)) with
  | Some w => Some (tl w)
  | None => None
  end.

Definition has_field (letter : ascii) (l : line) : bool :=
  match field letter l with Some _ => true | None => false end.

(** A field written from a float. *)
Definition field_num (letter : ascii) (l : line) : option Q :=
  match field letter l with
  | Some [Hole (Num q)] => Some q
  | Some [Hole (Num4 q)] => Some q
  | _ => None
  end.

(** A field written from a configuration value. *)
Definition field_val (letter : ascii) (l : line) : option pyval :=
  match field letter l with
  | Some [Hole (Val v)] => Some v
  | _ => None
  end.

(** A positioning instruction is a [G1]. *)
Definition positioning (l : line) : bool :=
  match command l with
  | [Ch c1; Ch c2] => Ascii.eqb c1 "G" && Ascii.eqb c2 "1"
  | _ => false
  end.

(** Where a positioning instruction sends the tool: the axes it names. *)
Definition target (l : line) : option Q * option Q * option Q :=
  (field_num "X" l, field_num "Y" l, field_num "Z" l).

(** ** Writing a float with four decimals: [{e:.4f}] *)

(** The integer nearest to a number, ties to the even one. *)
Definition round_half_even (q : Q) : Z :=
  let n := Qfloor q in
  let r := q - inject_Z n in
  if Qltb r (1 # 2) then n
  else if Qltb (1 # 2) r then (n + 1)%Z
  else if Z.even n then n else (n + 1)%Z.

Definition str_Z (n : Z) : string := NilEmpty.string_of_uint (N.to_uint (Z.to_N n)).

Definition pad4 (s : string) : string :=
  match String.length s with
  | 0%nat => "0000" ++ s
  | 1%nat => "000" ++ s
  | 2%nat => "00" ++ s
  | 3%nat => "0" ++ s
  | _ => s
  end%string.

Definition format_4f (q : Q) : string :=
  let n := round_half_even (Qabs q * 10000) in
  ((if Qltb q 0 then "-" else "")
     ++ str_Z (n / 10000) ++ "." ++ pad4 (str_Z (n mod 10000)))%string.

(** ** What a program says *)

(** The targets of the positioning instructions of a program, in order. *)
Definition targets (ls : list line) : list (option Q * option Q * option Q) :=
  map target (filter positioning ls).

(** The point a positioning instruction moves to at the configured feed
    rate. The approach above the start and the final lift run at the fixed
    rapid rate and are no such visit. *)
Definition visit (l : line) : option Point3d :=
  match positioning l, field_val "F" l, target l with
  | true, Some _, (Some x, Some y, Some z) => Some (rg.mkPoint3d x y z)
  | _, _, _ => None
  end.

Definition somes {A : Type} (l : list (option A)) : list A :=
  flat_map (fun o => match o with Some a => [a] | None => [] end) l.

Definition visits (ls : list line) : list Point3d := somes (map visit ls).

(** The extrusion values written by [E{extrusion:.4f}], in order. *)
Definition extrusions (ls : list line) : list Q := somes (map (field_num "E") ls).

(** The feed rates written by [F{feedrate}], in order. *)
Definition feeds (ls : list line) : list pyval := somes (map (field_val "F") ls).

Definition no_E (l : line) : Prop := has_field "E" l = false.

Definition full_target (p : Point3d) : option Q * option Q * option Q :=
  (Some (rg.X p), Some (rg.Y p), Some (rg.Z p)).

(** The positioning instructions one path asks for: the approach above its
    first point, its points one after the other, the lift off its last. *)
Definition expected_targets {float64 : Float64} (c : Q) (coords : list Point3d)
    : list (option Q * option Q * option Q) :=
  match coords with
  | [] => []
  | p0 :: rest =>
      (Some (rg.X p0), Some (rg.Y p0), Some (fadd (rg.Z p0) c))
        :: map full_target (p0 :: rest)
        ++ [(None, None, Some (fadd (rg.Z (last rest p0)) c))]
  end.

(** ** The lines of a path, by recursion on the path

    [emit_point] walks a path by index; these are the same lines by
    recursion on the list of points (lemma [motion_kernel_spec]). *)

Section KernelLines.

Context {host : Host}.
Variables (feedrate : pyval) (c m : Q).

Definition move_above (pt : Point3d) : line :=
  [Txt "G1 X"; Num (rg.X pt); Txt " Y"; Num (rg.Y pt); Txt " Z"; Num (fadd (rg.Z pt) c);
   Txt " F2000 ; move above start"].

Definition descend (pt : Point3d) : line :=
  [Txt "G1 X"; Num (rg.X pt); Txt " Y"; Num (rg.Y pt); Txt " Z"; Num (rg.Z pt);
   Txt " F"; Val feedrate; Txt " ; descend to start"].

Definition extrude_to (pt : Point3d) (e : Q) : line :=
  [Txt "G1 X"; Num (rg.X pt); Txt " Y"; Num (rg.Y pt); Txt " Z"; Num (rg.Z pt);
   Txt " E"; Num4 e; Txt " F"; Val feedrate].

Definition move_to (pt : Point3d) : line :=
  [Txt "G1 X"; Num (rg.X pt); Txt " Y"; Num (rg.Y pt); Txt " Z"; Num (rg.Z pt);
   Txt " F"; Val feedrate].

Definition lift (pt : Point3d) : line :=
  [Txt "G1 Z"; Num (fadd (rg.Z pt) c); Txt " F2000 ; lift tool"].

(** The moves from the second point of a path on, with the extrusion
    counter they leave behind. *)
Fixpoint steps (hot : bool) (prev : Point3d) (rest : list Point3d) (e : Q) : list line * Q :=
  match rest with
  | [] => ([], e)
  | pt :: rest' =>
      if hot then
        let e' := fadd e (fmul (DistanceTo prev pt) m) in
        let '(ls, ef) := steps hot pt rest' e' in
        (extrude_to pt e' :: ls, ef)
      else
        let '(ls, ef) := steps hot pt rest' e in
        (move_to pt :: ls, ef)
  end.

Definition path_lines (hot : bool) (coords : list Point3d) (e : Q) : list line * Q :=
  match coords with
  | [] => ([], e)
  | p0 :: rest =>
      let '(ls, ef) := steps hot p0 rest e in
      ([text "; Start path"; move_above p0; descend p0]
         ++ ls ++ [text "; End path"; lift (last rest p0)], ef)
  end.

Fixpoint body_lines (hot : bool) (paths : list (list Point3d)) (e : Q) : list line * Q :=
  match paths with
  | [] => ([], e)
  | coords :: rest =>
      let '(l1, e1) := path_lines hot coords e in
      let '(l2, e2) := body_lines hot rest e1 in
      (l1 ++ l2, e2)
  end.

End KernelLines.

Definition nonempty (coords : list Point3d) : bool :=
  match coords with [] => false | _ :: _ => true end.

(** ** Envelopes *)







(** ** Well-formed runs *)

(** The bed sizes the bounds test of the printer type reads are numbers. *)
Definition bed_numeric (cfg : config) : Prop :=
  if eq_str (printer_type cfg) "Delta"
  then exists radius bz, as_num (bedRadius cfg) = Ok radius /\ as_num (bedZ cfg) = Ok bz
  else exists bx by_ bz,
      as_num (bedX cfg) = Ok bx /\ as_num (bedY cfg) = Ok by_ /\ as_num (bedZ cfg) = Ok bz.

(** A parameter mapping the kernel can compute with: a dictionary whose
    clearance is a number and, in Hot mode, whose extrusion multiplier is
    one. *)
Definition typed_params (cfg : config) (items : list (string * pyval)) (c m : Q) : Prop :=
  params cfg = PDict items
  /\ as_num (get items "ClearanceHeight" (PInt 5)) = Ok c
  /\ (eq_str (mode cfg) "Hot" = true ->
      as_num (get items "ExtrusionMultiplier" (PFloat float_0_2)) = Ok m).

(** The number a parameter stands for; where it stands for none the kernel
    raises as soon as it computes with it, and the value here is never
    looked at. *)
Definition number_or_zero (v : pyval) : Q :=
  match as_num v with
  | Ok q => q
  | Raise _ => 0
  end.

(** The header is the synthesized one: no override, or an empty one. *)
Definition synthesized (base_code : option (list string)) : Prop :=
  base_code = None \/ base_code = Some [].

(** ** Running sums *)

(** The lengths of the segments of a path, first to last. *)
Definition segment_lengths {host : Host} (coords : list Point3d) : list Q :=
  map (fun ab => DistanceTo (fst ab) (snd ab)) (segments coords).

(** Running sums, added up as the runtime adds: each value is the one
    before plus the next increment. *)
Fixpoint running {float64 : Float64} (acc : Q) (incs : list Q) : list Q :=
  match incs with
  | [] => []
  | i :: rest => fadd acc i :: running (fadd acc i) rest
  end.

Definition total {float64 : Float64} (acc : Q) (incs : list Q) : Q :=
  fold_left fadd incs acc.

(** The amounts by which the extrusion counter grows along a path: the
    length of each segment times the multiplier. *)
Definition increments {host : Host} (m : Q) (coords : list Point3d) : list Q :=
  map (fun d => fmul d m) (segment_lengths coords).

(** What rounding to the nearest float keeps of the order: adding a
    number that is not negative to a sum does not make the sum smaller,
    and the product of two such numbers is not negative. *)
Definition rounding_keeps_order {float64 : Float64} : Prop :=
  (forall d, 0 <= d -> 0 <= fadd 0 d)
  /\ (forall x y d, 0 <= fadd x y -> 0 <= d -> fadd x y <= fadd (fadd x y) d)
  /\ (forall a b, 0 <= a -> 0 <= b -> 0 <= fmul a b).

(** ** The binary64 arithmetic, and inputs to run the generator on

    Rounding to the nearest float, ties to even, on finite results: what
    IEEE 754 prescribes for [+], [*], [/] and the square root, and what
    Python's [round] does (the exact value rounded to [ndigits] decimals,
    ties to even, then the nearest float). Overflow is not modelled. *)

Definition pow2 (k : Z) : Q := 2 ^ k.

(** For [0 < q], the [e] with [2^e <= q < 2^(e+1)]. *)
Definition binade (q : Q) : Z :=
  let e0 := (Z.log2 (Qnum q) - Z.log2 (Zpos (Qden q)))%Z in
  if Qle_bool (pow2 e0) q then e0 else (e0 - 1)%Z.

(** The exponent of the last bit of a float of that binade: 53 bits, and
    no further down than [2^-1074]. *)
Definition quantum (e : Z) : Z := (Z.max e (-1022) - 52)%Z.

(** The multiple of [2^k] nearest to a number. *)
Definition grid (k : Z) (q : Q) : Q := inject_Z (round_half_even (q / pow2 k)) * pow2 k.

(** The float nearest to a number. *)
Definition fl (q : Q) : Q :=
  if Qeq_bool q 0 then 0
  else
    Qred (grid (quantum (binade (Qabs q))) q).

(** The float nearest to the square root of a number. *)
Definition fl_sqrt (s : Q) : Q :=
  if Qle_bool s 0 then 0
  else
    let k := quantum (binade s / 2) in
    let t := s / pow2 (2 * k) in
    let m := Z.sqrt (Qfloor t) in
    let h := inject_Z m + (1 # 2) in
    let m' := if Qltb (h * h) t then (m + 1)%Z
              else if Qltb t (h * h) then m
              else if Z.even m then m else (m + 1)%Z in
    Qred (inject_Z m' * pow2 k).

Definition binary64 : Float64 :=
  {| fadd := fun x y => fl (x + y);
     fmul := fun x y => fl (x * y);
     fdiv := fun x y => fl (x / y);
     fsqrt := fl_sqrt;
     fround := fun v ndigits =>
                 fl (inject_Z (round_half_even (v * 10 ^ ndigits)) / 10 ^ ndigits) |}.

(** The float a decimal literal denotes. *)
Definition double (q : Q) : Q := fl q.

(** A distance computed the plain way, in binary64 (Rhino's own formula is
    not part of this repository); no profile string decodes. *)
Definition binary64_distance (a b : Point3d) : Q :=
  let dx := fl (rg.X a - rg.X b) in
  let dy := fl (rg.Y a - rg.Y b) in
  let dz := fl (rg.Z a - rg.Z b) in
  fl_sqrt (fl (fl (fl (dx * dx) + fl (dy * dy)) + fl (dz * dz))).

Definition binary64_host : Host :=
  {| host_float64 := binary64;
     literal_eval := fun _ => None;
     DistanceTo := binary64_distance |}.

(** The same arithmetic under any [literal_eval] and [DistanceTo]. *)
Definition binary64_with (lit : string -> option pyval)
    (dist : Point3d -> Point3d -> Q) : Host :=
  {| host_float64 := binary64; literal_eval := lit; DistanceTo := dist |}.

Definition pt (x y z : Q) : Point3d := rg.mkPoint3d x y z.

Definition delta_config : config :=
  mkConfig (PStr "Pen") (PStr "Delta") (PDict [])
           (PInt 300) (PInt 300) (PInt 300) (PInt 150) (Circle 150).

(** A Delta bed of radius 522962.4546655884 and two points near its rim. *)
Definition wide_delta_config : config :=
  mkConfig (PStr "Pen") (PStr "Delta") (PDict [])
           (PInt 300) (PInt 300) (PInt 300) (PFloat (double 522962.4546655884))
           (Supplied (PObj 0)).

Definition wide_delta_profile : pyval :=
  PList [PStr "Pen"; PStr "Delta"; PDict []; PNone; PNone; PInt 300;
         PFloat (double 522962.4546655884); PObj 0].

Definition corner_a : Point3d := pt (double 369790.299) (double 369790.297) 0.
Definition corner_b : Point3d := pt (double 369790.297) (double 369790.299) 0.

Definition hot_profile : pyval :=
  PList [PStr "Hot"; PStr "Cartesian"; PDict [("ExtrusionMultiplier", PFloat float_0_2)]].

Definition hot_config : config :=
  mkConfig (PStr "Hot") (PStr "Cartesian")
           (PDict [("ExtrusionMultiplier", PFloat float_0_2)])
           (PInt 300) (PInt 300) (PInt 300) (PInt 150) (Rectangle3d 300 300).

Definition clay_profile : pyval := PList [PStr "Clay"; PStr "Cartesian"; PDict []].

Definition clay_config : config :=
  mkConfig (PStr "Clay") (PStr "Cartesian") (PDict [])
           (PInt 300) (PInt 300) (PInt 300) (PInt 150) (Rectangle3d 300 300).

Definition two_paths : list rg.Geometry :=
  [rg.Polyline [pt 0 0 0; pt 3 4 0; pt 3 4 12];
   rg.PolylineCurve None;
   rg.PolylineCurve (Some [pt 10 0 0; pt 10 5 0])].

(** * Part I, continued: the profile builders and the scripts *)

(** ** What the builders and the scripts call beyond [Host] *)

Class Runtime : Type := {
  (** [float(s)] of a string; [None] when it raises. *)
  float_of_string : string -> option Q;
  (** [int(s)] of a string; [None] when it raises. *)
  int_of_string : string -> option Z;
  (** The Python object [....ToNurbsCurve()] hands back for an outline. *)
  ToNurbsCurve : bed -> pyval;
  (** [f"{x}"] of a float. *)
  str_float : Q -> string;
  (** [f"{v}"] of any other value. *)
  str_value : pyval -> string;
  (** [open(path, "w")] and [f.write(text)]: the message of the exception,
      if one is raised. *)
  write_file : string -> string -> option string
}.

(** [v if v is not None else d] *)
Definition or_default (v d : pyval) : pyval := if is_None v then d else v.

(** [v == n] for an integer literal [n]. *)
Definition eq_int (v : pyval) (n : Z) : bool :=
  match v with
  | PBool b => Z.eqb (if b then 1 else 0) n
  | PInt k => Z.eqb k n
  | PFloat q => Qeq_bool q (inject_Z n)
  | _ => false
  end.

Section Builders.

Context {runtime : Runtime}.

(** [float(v)]; [None] when Python raises. *)
Definition float_ (v : pyval) : option Q :=
  match v with
  | PBool b => Some (if b then 1 else 0)
  | PInt n => Some (inject_Z n)
  | PFloat q => Some q
  | PStr s => float_of_string s
  | _ => None
  end.

(** [int(v)]: a float is cut off towards zero; [None] when Python raises. *)
Definition int_ (v : pyval) : option Z :=
  match v with
  | PBool b => Some (if b then 1 else 0)%Z
  | PInt n => Some n
  | PFloat q => Some (Z.quot (Qnum q) (Zpos (Qden q)))
  | PStr s => int_of_string s
  | _ => None
  end.

(** The tail of the three builders: the profile list of the printer type. *)
Definition profile_list (mode : string) (printer_type : pyval) (params : pyval)
    (bx by_ bz radius : pyval) : option pyval :=
  if eq_str printer_type "Delta" then
    match float_ radius, float_ bz with
    | Some r, Some z =>
        let bedshape := ToNurbsCurve (Circle r) in
        Some (PList [PStr mode; PStr "Delta"; params; PNone; PNone;
                     PFloat z; PFloat r; bedshape])
    | _, _ => None
    end
  else
    match float_ bx, float_ by_, float_ bz with
    | Some x, Some y, Some z =>
        let bedshape := ToNurbsCurve (Rectangle3d x y) in
        Some (PList [PStr mode; PStr "Cartesian"; params; PFloat x; PFloat y;
                     PFloat z; PNone; bedshape])
    | _, _, _ => None
    end.

Definition make_hot_profile (printer_type bx by_ bz radius nozzle bed_ mult fr clr : pyval)
    : option pyval :=
  let bx := or_default bx (PInt 300) in
  let by_ := or_default by_ (PInt 300) in
  let bz := or_default bz (PInt 300) in
  let radius := or_default radius (PInt 150) in
  let nozzle := or_default nozzle (PInt 210) in
  let bed_ := or_default bed_ (PInt 30) in
  let mult := or_default mult (PFloat float_0_2) in
  let fr := or_default fr (PInt 1500) in
  let clr := or_default clr (PInt 5) in
  let params :=
    PDict [("NozzleTemp", nozzle); ("BedTemp", bed_); ("ExtrusionMultiplier", mult);
           ("FeedRate", fr); ("ClearanceHeight", clr)] in
  profile_list "Hot" printer_type params bx by_ bz radius.

Definition make_clay_profile
    (printer_type bx by_ bz radius pressure flow retract cure fr clr : pyval)
    : option pyval :=
  let bx := or_default bx (PInt 300) in
  let by_ := or_default by_ (PInt 300) in
  let bz := or_default bz (PInt 300) in
  let radius := or_default radius (PInt 150) in
  let pressure := or_default pressure (PFloat 4) in
  let flow := or_default flow (PFloat 10) in
  let retract := or_default retract (PFloat (5 # 10)) in
  let cure := or_default cure (PFloat 0) in
  let fr := or_default fr (PInt 800) in
  let clr := or_default clr (PInt 5) in
  let params :=
    PDict [("ExtrusionPressure", pressure); ("FlowRate", flow);
           ("RetractionDelay", retract); ("CurePause", cure);
           ("FeedRate", fr); ("ClearanceHeight", clr)] in
  profile_list "Clay" printer_type params bx by_ bz radius.

Definition make_pen_profile (printer_type bx by_ bz radius up down delay fr : pyval)
    : option pyval :=
  let bx := or_default bx (PInt 300) in
  let by_ := or_default by_ (PInt 300) in
  let bz := or_default bz (PInt 300) in
  let radius := or_default radius (PInt 150) in
  let up := or_default up (PInt 5) in
  let down := or_default down (PFloat float_0_2) in
  let delay := or_default delay (PInt 100) in
  let fr := or_default fr (PInt 1000) in
  let params :=
    PDict [("PenUpHeight", up); ("PenDownOffset", down); ("PenDownDelay", delay);
           ("FeedRate", fr)] in
  profile_list "Pen" printer_type params bx by_ bz radius.

(** Convert numeric toggle into string if coming from GH
    (0 = Cartesian, 1 = Delta) *)
Definition toggle (PrinterType : pyval) : pyval :=
  if eq_int PrinterType 1 then PStr "Delta"
  else if eq_int PrinterType 0 then PStr "Cartesian"
  else PrinterType.

(** Grasshopper I/O of [FOAM_PrinterSetupHot.py] *)
Definition PrinterSetupHot
    (PrinterType BedX BedY BedZ BedRadius NozzleTemp BedTemp ExtrusionMultiplier
       FeedRate ClearanceHeight : pyval) : option pyval :=
  make_hot_profile (toggle PrinterType) BedX BedY BedZ BedRadius
                   NozzleTemp BedTemp ExtrusionMultiplier FeedRate ClearanceHeight.

(** Grasshopper I/O of [FOAM_PrinterSetupClay.py] *)
Definition PrinterSetupClay
    (PrinterType BedX BedY BedZ BedRadius ExtrusionPressure FlowRate RetractionDelay
       CurePause FeedRate ClearanceHeight : pyval) : option pyval :=
  make_clay_profile (toggle PrinterType) BedX BedY BedZ BedRadius
                    ExtrusionPressure FlowRate RetractionDelay CurePause
                    FeedRate ClearanceHeight.

(** Grasshopper I/O of [FOAM_PrinterSetupPen.py]: here the toggle goes
    through [int] first. *)
Definition PrinterSetupPen
    (PrinterType BedX BedY BedZ BedRadius PenUpHeight PenDownOffset PenDownDelay
       FeedRate : pyval) : option pyval :=
  match int_ PrinterType with
  | Some n =>
      make_pen_profile (toggle (PInt n)) BedX BedY BedZ BedRadius
                       PenUpHeight PenDownOffset PenDownDelay FeedRate
  | None => None
  end.

End Builders.

(** ** Grasshopper I/O of [FOAM_GcodeGenerator.py] *)

(** What the script hands to Grasshopper. *)
Record panel : Type := mkPanel {
  Gcode : list line;
  PreviewText : string;
  Preview : list (list Point3d);
  Report : string;
  panel_Bed : bed;
  panel_BadPts : list Point3d;
  panel_BadSegs : list (Point3d * Point3d);
  panel_WarnDots : list (string * Point3d)
}.

Definition newline : string := String (ascii_of_nat 10) "".

Section Script.

Context {host : Host} {runtime : Runtime}.

Definition render_frag (f : frag) : string :=
  match f with
  | Txt s => s
  | Num q => str_float q
  | Num4 q => format_4f q
  | Val v => str_value v
  end.

(** The text of a line. *)
Definition render (l : line) : string := String.concat "" (map render_frag l).

(** [len(Geometry) if Geometry else 0] *)
Definition geometry_count (Geometry : option (list rg.Geometry)) : nat :=
  match Geometry with
  | Some g => length g
  | None => 0
  end.

Definition GcodeGenerator (Geometry : option (list rg.Geometry)) (Profile : pyval)
    (BaseCode : option (list string)) (FilePath : option string) : result panel :=
  r <- generate_gcode Geometry Profile BaseCode ;;
  let gcode := out_gcode r in
  let preview_text :=
    match gcode with
    | _ :: _ =>
        (join newline (map render (firstn 30 gcode))
           ++ newline ++ "... (" ++ str_nat (length gcode) ++ " lines total)")%string
    | [] => "⚠ No G-code generated"
    end in
  let report :=
    ("Geometry: " ++ str_nat (geometry_count Geometry)
       ++ ", Paths: " ++ str_nat (length (out_preview r))
       ++ ", G-code lines: " ++ str_nat (length gcode)
       ++ ", Status: " ++ out_status r)%string in
  let report :=
    match FilePath with
    | Some (String c path) =>
        match write_file (String c path) (join newline (map render gcode)) with
        | Some e => ("⚠ Failed to save G-code: " ++ e)%string
        | None => report
        end
    | _ => report
    end in
  Ok (mkPanel gcode preview_text (out_preview r) report
              (out_Bed r) (out_BadPts r) (out_BadSegs r) (out_WarnDots r)).

End Script.

(** * Part II, continued: further vocabulary *)

(** The lines the kernel writes for one path: none for a path without
    points, otherwise the start marker, the approach, one move per point,
    the end marker and the lift. *)
Definition path_line_count (coords : list Point3d) : nat :=
  match coords with
  | [] => 0
  | _ :: _ => length coords + 4
  end.

(** The lines of the header in front of the kernel's. *)
Definition header_line_count (cfg : config) (base_code : option (list string)) : nat :=
  match base_code with
  | Some (l :: rest) => length (l :: rest)
  | _ => if eq_str (mode cfg) "Hot" then 5 else 3
  end.

(** ** Verdicts *)

(** The answer of the bounds test of the printer type on a point, read
    off bed sizes that are numbers. *)
Definition verdict {float64 : Float64} (cfg : config) (p : Point3d)
    : bool * list string :=
  if eq_str (printer_type cfg) "Delta" then
    in_bounds_delta (rg.X p) (rg.Y p) (rg.Z p)
                    (number_or_zero (bedRadius cfg)) (number_or_zero (bedZ cfg))
  else
    in_bounds_cart (rg.X p) (rg.Y p) (rg.Z p)
                   (number_or_zero (bedX cfg)) (number_or_zero (bedY cfg))
                   (number_or_zero (bedZ cfg)).

Definition outside {float64 : Float64} (cfg : config) (p : Point3d) : bool :=
  negb (fst (verdict cfg p)).

(** The text dot put on a bad point. *)
Definition warning {float64 : Float64} (cfg : config) (p : Point3d)
    : string * Point3d :=
  (join ", " (snd (verdict cfg p)), p).

(** A segment one of whose tested points is out of bounds: an end point,
    or on a Delta printer the midpoint. *)
Definition bad_segment {host : Host} (cfg : config) (ab : Point3d * Point3d) : bool :=
  existsb (outside cfg) (segment_checks cfg (fst ab) (snd ab)).

(** ** What a run reads of a configuration *)

(** The parameter keys the generator asks for. *)
Definition keys_read (cfg : config) : list string :=
  if eq_str (mode cfg) "Hot"
  then ["NozzleTemp"; "BedTemp"; "ExtrusionMultiplier"; "ClearanceHeight"; "FeedRate"]
  else ["ClearanceHeight"; "FeedRate"].

(** Two configurations that differ in their parameters at most. *)
Definition same_machine (cfg cfg' : config) : Prop :=
  mode cfg = mode cfg' /\ printer_type cfg = printer_type cfg'
  /\ bedX cfg = bedX cfg' /\ bedY cfg = bedY cfg' /\ bedZ cfg = bedZ cfg'
  /\ bedRadius cfg = bedRadius cfg' /\ Bed cfg = Bed cfg'.

(** ** Heater instructions *)

(** The word is spelled by these characters. *)
Fixpoint spells (cs : list ascii) (w : list symbol) : bool :=
  match cs, w with
  | [], [] => true
  | c :: cs', s :: w' => is_ch c s && spells cs' w'
  | _, _ => false
  end.

(** An instruction to a heater: [M104] (hot end) or [M140] (bed). *)
Definition heater (l : line) : bool :=
  spells (list_ascii_of_string "M104") (command l)
  || spells (list_ascii_of_string "M140") (command l).

(** The two lines that set the temperatures. *)
Definition set_temperatures (nozzle bedtemp : pyval) : list line :=
  [ [Txt "M104 S"; Val nozzle; Txt " ; set nozzle temp"];
    [Txt "M140 S"; Val bedtemp; Txt " ; set bed temp"] ].

(** The two lines that turn the heaters off. *)
Definition heaters_off : list line :=
  [text "M104 S0 ; turn off hotend"; text "M140 S0 ; turn off bed"].

(** ** Profiles made by the builders *)

Section BuilderVocabulary.

Context {runtime : Runtime}.

(** The configuration a builder's profile stands for: the mode and the
    parameters as given, the sizes of the printer type as floats, the
    sizes of the other type at the generator's defaults, and the outline
    the builder drew. *)
Definition built (mode : string) (printer_type : pyval) (items : list (string * pyval))
    (bx by_ bz radius : pyval) : option config :=
  if eq_str printer_type "Delta" then
    match float_ radius, float_ bz with
    | Some r, Some z =>
        Some (mkConfig (PStr mode) (PStr "Delta") (PDict items)
                       (PInt 300) (PInt 300) (PFloat z) (PFloat r)
                       (Supplied (ToNurbsCurve (Circle r))))
    | _, _ => None
    end
  else
    match float_ bx, float_ by_, float_ bz with
    | Some x, Some y, Some z =>
        Some (mkConfig (PStr mode) (PStr "Cartesian") (PDict items)
                       (PFloat x) (PFloat y) (PFloat z) (PInt 150)
                       (Supplied (ToNurbsCurve (Rectangle3d x y))))
    | _, _, _ => None
    end.

(** The parameter mappings of the three builders. *)
Definition hot_params (nozzle bed_ mult fr clr : pyval) : list (string * pyval) :=
  [("NozzleTemp", or_default nozzle (PInt 210));
   ("BedTemp", or_default bed_ (PInt 30));
   ("ExtrusionMultiplier", or_default mult (PFloat float_0_2));
   ("FeedRate", or_default fr (PInt 1500));
   ("ClearanceHeight", or_default clr (PInt 5))].

Definition clay_params (pressure flow retract cure fr clr : pyval) : list (string * pyval) :=
  [("ExtrusionPressure", or_default pressure (PFloat 4));
   ("FlowRate", or_default flow (PFloat 10));
   ("RetractionDelay", or_default retract (PFloat (5 # 10)));
   ("CurePause", or_default cure (PFloat 0));
   ("FeedRate", or_default fr (PInt 800));
   ("ClearanceHeight", or_default clr (PInt 5))].

Definition pen_params (up down delay fr : pyval) : list (string * pyval) :=
  [("PenUpHeight", or_default up (PInt 5));
   ("PenDownOffset", or_default down (PFloat float_0_2));
   ("PenDownDelay", or_default delay (PInt 100));
   ("FeedRate", or_default fr (PInt 1000))].

End BuilderVocabulary.

(** A runtime to run the builders and the script on: no string is a
    number, every outline is the same opaque object, nothing is written. *)
Definition sample_runtime : Runtime :=
  {| float_of_string := fun _ => None;
     int_of_string := fun _ => None;
     ToNurbsCurve := fun _ => PObj 0;
     str_float := fun q => format_4f q;
     str_value := fun _ => "?";
     write_file := fun _ _ => None |}.

(** * Part III: verification *)

(** ** Arithmetic facts *)

Lemma Qltb_lt (a b : Q) : Qltb a b = true <-> a < b.
Proof.
  unfold Qltb. rewrite negb_true_iff.
  split; intro H.
  - apply Qnot_le_lt. intro L. apply Qle_bool_iff in L. congruence.
  - destruct (Qle_bool b a) eqn:E; [|reflexivity].
    apply Qle_bool_iff in E. exfalso. apply (Qlt_not_le _ _ H E).
Qed.

Lemma Qltb_ge (a b : Q) : Qltb a b = false <-> b <= a.
Proof.
  unfold Qltb. rewrite negb_false_iff. apply Qle_bool_iff.
Qed.

Lemma Qgtb_gt (a b : Q) : Qgtb a b = true <-> b < a.
Proof. apply Qltb_lt. Qed.

Lemma Qgtb_le (a b : Q) : Qgtb a b = false <-> a <= b.
Proof. apply Qltb_ge. Qed.



(** Turn the outcomes of the comparisons in the context into order facts. *)
Ltac order_facts :=
  repeat match goal with
  | E : Qltb _ _ = true |- _ => apply Qltb_lt in E
  | E : Qltb _ _ = false |- _ => apply Qltb_ge in E
  | E : Qgtb _ _ = true |- _ => apply Qgtb_gt in E
  | E : Qgtb _ _ = false |- _ => apply Qgtb_le in E
  end.

Global Instance Qltb_comp : Proper (Qeq ==> Qeq ==> eq) Qltb.
Proof.
  intros a a' Ha b b' Hb. unfold Qltb. now rewrite Ha, Hb.
Qed.

Global Instance round_half_even_comp : Proper (Qeq ==> eq) round_half_even.
Proof.
  intros q q' H. unfold round_half_even.
  assert (En : Qfloor q = Qfloor q') by (apply Qfloor_comp; exact H).
  rewrite <- En.
  assert (Er : q - inject_Z (Qfloor q) == q' - inject_Z (Qfloor q))
    by (apply Qplus_comp; [exact H | reflexivity]).
  now rewrite !(Qltb_comp _ _ Er _ _ (Qeq_refl _)), !(Qltb_comp _ _ (Qeq_refl _) _ _ Er).
Qed.

Global Instance format_4f_comp : Proper (Qeq ==> eq) format_4f.
Proof.
  intros q q' H. unfold format_4f.
  assert (En : round_half_even (Qabs q * 10000) = round_half_even (Qabs q' * 10000)).
  { apply round_half_even_comp. apply Qmult_comp; [|reflexivity].
    apply Qabs_wd. exact H. }
  assert (Es : Qltb q 0 = Qltb q' 0) by (apply Qltb_comp; [exact H | reflexivity]).
  now rewrite En, Es.
Qed.

(** ** Rounding to the nearest integer *)

Lemma round_half_even_near (q : Q) :
  Qabs (inject_Z (round_half_even q) - q) <= 1 # 2.
Proof.
  unfold round_half_even.
  pose proof (Qfloor_le q) as Hlo. pose proof (Qlt_floor q) as Hhi.
  rewrite inject_Z_plus in Hhi. change (inject_Z 1) with 1 in Hhi.
  apply Qabs_Qle_condition.
  destruct (Qltb (q - inject_Z (Qfloor q)) (1 # 2)) eqn:E1;
    [|destruct (Qltb (1 # 2) (q - inject_Z (Qfloor q))) eqn:E2;
      [|destruct (Z.even (Qfloor q))]];
    order_facts; rewrite ?inject_Z_plus; change (inject_Z 1) with 1; split; qlra.
Qed.

Lemma round_half_even_Z (n : Z) : round_half_even (inject_Z n) = n.
Proof.
  unfold round_half_even. rewrite Qfloor_Z.
  assert (E : Qltb (inject_Z n - inject_Z n) (1 # 2) = true)
    by (apply Qltb_lt; qlra).
  now rewrite E.
Qed.

(** ** Rounding to the nearest float keeps the order *)

Lemma round_half_even_mono (a b : Q) : a <= b -> (round_half_even a <= round_half_even b)%Z.
Proof.
  intros Hab.
  destruct (Z_le_gt_dec (round_half_even a) (round_half_even b)) as [H | H]; [exact H|].
  exfalso.
  pose proof (round_half_even_near a) as Ha. pose proof (round_half_even_near b) as Hb.
  apply Qabs_Qle_condition in Ha, Hb.
  assert (H1 : inject_Z (round_half_even b) + 1 <= inject_Z (round_half_even a)).
  { rewrite <- (inject_Z_plus _ 1). rewrite <- Zle_Qle. lia. }
  assert (E : a == b) by qlra.
  rewrite (round_half_even_comp _ _ E) in H. lia.
Qed.

Lemma round_half_even_nonneg (q : Q) : 0 <= q -> (0 <= round_half_even q)%Z.
Proof.
  intros H. change 0%Z with (round_half_even (inject_Z 0)) at 1.
  - apply round_half_even_mono. exact H.
Qed.

Lemma pow2_pos (k : Z) : 0 < pow2 k.
Proof. apply Qpower_0_lt. reflexivity. Qed.

Lemma pow2_add (a b : Z) : pow2 (a + b) == pow2 a * pow2 b.
Proof. apply Qpower_plus. discriminate. Qed.

Lemma pow2_le (a b : Z) : (a <= b)%Z -> pow2 a <= pow2 b.
Proof. intros H. apply Qpower_le_compat_l; [exact H | discriminate]. Qed.

Lemma pow2_lt (a b : Z) : (a < b)%Z -> pow2 a < pow2 b.
Proof. intros H. apply Qpower_lt_compat_l; [exact H | reflexivity]. Qed.

Lemma pow2_lt_inv (a b : Z) : pow2 a < pow2 b -> (a < b)%Z.
Proof. intros H. apply (Qpower_lt_compat_l_inv 2); [exact H | reflexivity]. Qed.

Lemma pow2_Z (j : Z) : (0 <= j)%Z -> pow2 j == inject_Z (2 ^ j).
Proof. intros H. unfold pow2. now rewrite Zpower_Qpower. Qed.

Lemma binade_spec (q : Q) : 0 < q -> pow2 (binade q) <= q /\ q < pow2 (binade q + 1).
Proof.
  intros Hq. destruct q as [n d]. unfold binade. cbn [Qnum Qden].
  assert (Hn : (0 < n)%Z) by (unfold Qlt in Hq; simpl in Hq; lia).
  pose proof (Z.log2_spec n Hn) as [Hn1 Hn2].
  pose proof (Z.log2_spec (Zpos d) (Pos2Z.is_pos d)) as [Hd1 Hd2].
  pose proof (Z.log2_nonneg n) as Ln. pose proof (Z.log2_nonneg (Zpos d)) as Ld.
  set (ln := Z.log2 n) in *. set (ld := Z.log2 (Zpos d)) in *.
  assert (Qn1 : pow2 ln <= inject_Z n) by (rewrite pow2_Z by exact Ln; now rewrite <- Zle_Qle).
  assert (Qn2 : inject_Z n < pow2 (ln + 1))
    by (rewrite pow2_Z by lia; rewrite <- Zlt_Qlt; now rewrite <- Z.add_1_r in Hn2).
  assert (Qd1 : pow2 ld <= inject_Z (Zpos d))
    by (rewrite pow2_Z by exact Ld; now rewrite <- Zle_Qle).
  assert (Qd2 : inject_Z (Zpos d) < pow2 (ld + 1))
    by (rewrite pow2_Z by lia; rewrite <- Zlt_Qlt; now rewrite <- Z.add_1_r in Hd2).
  assert (Dpos : 0 < inject_Z (Zpos d)) by reflexivity.
  assert (Eq : n # d == inject_Z n / inject_Z (Zpos d)) by apply Qmake_Qdiv.
  assert (Hup : (n # d) * inject_Z (Zpos d) == inject_Z n).
  { rewrite Eq. field. intros E. rewrite E in Dpos. discriminate. }
  destruct (Qle_bool (pow2 (ln - ld)) (n # d)) eqn:E.
  - apply Qle_bool_iff in E. split; [exact E|].
    (* n/d < 2^(ln+1)/2^ld *)
    apply Qmult_lt_r with (z := inject_Z (Zpos d)); [exact Dpos|]. rewrite Hup.
    apply Qlt_le_trans with (pow2 (ln + 1)); [exact Qn2|].
    replace (ln + 1)%Z with ((ln - ld + 1) + ld)%Z by lia. rewrite pow2_add.
    apply Qmult_le_l; [apply pow2_pos | exact Qd1].
  - assert (E' : n # d < pow2 (ln - ld)).
    { apply Qnot_le_lt. intros H. apply Qle_bool_iff in H. congruence. }
    split.
    + apply Qmult_le_r with (z := inject_Z (Zpos d)); [exact Dpos|]. rewrite Hup.
      apply Qle_trans with (pow2 ln); [|exact Qn1].
      replace ln with ((ln - ld - 1) + (ld + 1))%Z at 2 by lia. rewrite pow2_add.
      apply Qmult_le_l; [apply pow2_pos | apply Qlt_le_weak; exact Qd2].
    + now replace (ln - ld - 1 + 1)%Z with (ln - ld)%Z by lia.
Qed.

Lemma binade_unique (q : Q) (e : Z) :
  pow2 e <= q -> q < pow2 (e + 1) -> binade q = e.
Proof.
  intros H1 H2.
  assert (Hq : 0 < q) by (eapply Qlt_le_trans; [apply (pow2_pos e) | exact H1]).
  destruct (binade_spec q Hq) as [B1 B2].
  assert (A : (e < binade q + 1)%Z) by (apply pow2_lt_inv; eapply Qle_lt_trans; eassumption).
  assert (B : (binade q < e + 1)%Z) by (apply pow2_lt_inv; eapply Qle_lt_trans; eassumption).
  lia.
Qed.

Lemma binade_comp (q q' : Q) : 0 < q -> q == q' -> binade q = binade q'.
Proof.
  intros Hq E. symmetry. destruct (binade_spec q Hq) as [B1 B2].
  apply binade_unique; rewrite <- E; assumption.
Qed.

Lemma binade_mono (a b : Q) : 0 < a -> a <= b -> (binade a <= binade b)%Z.
Proof.
  intros Ha Hab. assert (Hb : 0 < b) by (eapply Qlt_le_trans; eassumption).
  destruct (binade_spec a Ha) as [A1 A2]. destruct (binade_spec b Hb) as [B1 B2].
  assert (H : (binade a < binade b + 1)%Z).
  { apply pow2_lt_inv. eapply Qle_lt_trans; [exact A1|]. eapply Qle_lt_trans; eassumption. }
  lia.
Qed.

Lemma pow2_nonzero (k : Z) : ~ pow2 k == 0.
Proof. intros E. pose proof (pow2_pos k) as H. rewrite E in H. discriminate. Qed.

Lemma grid_mono (k : Z) (a b : Q) : a <= b -> grid k a <= grid k b.
Proof.
  intros Hab. unfold grid. apply Qmult_le_compat_r; [|apply Qlt_le_weak, pow2_pos].
  rewrite <- Zle_Qle. apply round_half_even_mono.
  unfold Qdiv. apply Qmult_le_compat_r; [exact Hab|].
  apply Qlt_le_weak, Qinv_lt_0_compat, pow2_pos.
Qed.

Lemma grid_fix (k k' : Z) (m : Z) :
  (k' <= k)%Z -> grid k' (inject_Z m * pow2 k) == inject_Z m * pow2 k.
Proof.
  intros Hk. unfold grid.
  assert (E : inject_Z m * pow2 k / pow2 k' == inject_Z (m * 2 ^ (k - k'))).
  { rewrite inject_Z_mult, <- pow2_Z by lia.
    replace k with ((k - k') + k')%Z at 1 by lia. rewrite pow2_add.
    field. apply pow2_nonzero. }
  rewrite (round_half_even_comp _ _ E), round_half_even_Z.
  rewrite inject_Z_mult, <- pow2_Z by lia.
  replace k with ((k - k') + k')%Z at 2 by lia. rewrite pow2_add. ring.
Qed.

Lemma grid_comp (k : Z) (q q' : Q) : q == q' -> grid k q == grid k q'.
Proof.
  intros E. unfold grid.
  assert (E' : q / pow2 k == q' / pow2 k) by (rewrite E; reflexivity).
  now rewrite (round_half_even_comp _ _ E').
Qed.

Lemma fl_pos (q : Q) : 0 < q -> fl q == grid (quantum (binade q)) q.
Proof.
  intros Hq. unfold fl.
  destruct (Qeq_bool q 0) eqn:E.
  - apply Qeq_bool_iff in E. rewrite E in Hq. discriminate.
  - rewrite Qred_correct.
    assert (Ea : binade (Qabs q) = binade q).
    { symmetry. apply binade_comp; [exact Hq|]. symmetry. apply Qabs_pos. now apply Qlt_le_weak. }
    rewrite Ea. reflexivity.
Qed.

Lemma fl_zero (q : Q) : q == 0 -> fl q = 0.
Proof. intros E. unfold fl. apply Qeq_bool_iff in E. now rewrite E. Qed.

Lemma fl_nonneg (q : Q) : 0 <= q -> 0 <= fl q.
Proof.
  intros Hq. unfold fl. destruct (Qeq_bool q 0); [apply Qle_refl|].
  rewrite Qred_correct. apply Qmult_le_0_compat; [|apply Qlt_le_weak, pow2_pos].
  change 0 with (inject_Z 0). rewrite <- Zle_Qle. apply round_half_even_nonneg.
  unfold Qdiv. apply Qmult_le_0_compat; [exact Hq|].
  apply Qlt_le_weak, Qinv_lt_0_compat, pow2_pos.
Qed.

Lemma fl_nonpos (q : Q) : q <= 0 -> fl q <= 0.
Proof.
  intros Hq. unfold fl. destruct (Qeq_bool q 0); [apply Qle_refl|].
  rewrite Qred_correct.
  assert (H : inject_Z (round_half_even (q / pow2 (quantum (binade (Qabs q))))) <= 0).
  { change 0 with (inject_Z 0). rewrite <- Zle_Qle.
    change 0%Z with (round_half_even (inject_Z 0)). apply round_half_even_mono.
    unfold Qdiv.
    pose proof (Qinv_lt_0_compat _ (pow2_pos (quantum (binade (Qabs q))))) as Hi.
    change (inject_Z 0) with 0.
    setoid_replace 0 with (0 * / pow2 (quantum (binade (Qabs q)))) by ring.
    apply Qmult_le_compat_r; [exact Hq | now apply Qlt_le_weak]. }
  pose proof (pow2_pos (quantum (binade (Qabs q)))) as Hp.
  setoid_replace 0 with (0 * pow2 (quantum (binade (Qabs q)))) by ring.
  apply Qmult_le_compat_r; [exact H | now apply Qlt_le_weak].
Qed.

Lemma quantum_mono (e e' : Z) : (e <= e')%Z -> (quantum e <= quantum e')%Z.
Proof. unfold quantum. lia. Qed.

(** A positive number of binade [e] is rounded into
    [[0, 2^(max e (-1022) + 1)]], and not below [2^e] when [-1022 <= e]. *)
Lemma fl_upper (q : Q) :
  0 < q -> fl q <= pow2 (Z.max (binade q) (-1022) + 1).
Proof.
  intros Hq. rewrite (fl_pos q Hq). destruct (binade_spec q Hq) as [_ B2].
  set (E := Z.max (binade q) (-1022)).
  assert (Hk : quantum (binade q) = (E - 52)%Z) by reflexivity.
  rewrite Hk.
  assert (Hle : q <= pow2 (E + 1)).
  { apply Qlt_le_weak. eapply Qlt_le_trans; [exact B2|]. apply pow2_le. unfold E. lia. }
  eapply Qle_trans; [apply grid_mono; exact Hle|].
  assert (Eg : pow2 (E + 1) == inject_Z (2 ^ 53) * pow2 (E - 52)).
  { rewrite <- pow2_Z by lia. rewrite <- pow2_add. now replace (53 + (E - 52))%Z with (E + 1)%Z by lia. }
  rewrite (grid_comp _ _ _ Eg), grid_fix by lia. rewrite Eg. apply Qle_refl.
Qed.

Lemma fl_lower (q : Q) :
  0 < q -> (-1022 <= binade q)%Z -> pow2 (binade q) <= fl q.
Proof.
  intros Hq He. rewrite (fl_pos q Hq). destruct (binade_spec q Hq) as [B1 _].
  assert (Hk : quantum (binade q) = (binade q - 52)%Z) by (unfold quantum; lia).
  rewrite Hk.
  assert (Eg : pow2 (binade q) == inject_Z (2 ^ 52) * pow2 (binade q - 52)).
  { rewrite <- pow2_Z by lia. rewrite <- pow2_add.
    now replace (52 + (binade q - 52))%Z with (binade q) by lia. }
  eapply Qle_trans; [|apply grid_mono; exact B1].
  rewrite (grid_comp _ _ _ Eg), grid_fix by lia. rewrite Eg. apply Qle_refl.
Qed.

Lemma fl_mono_pos (a b : Q) : 0 < a -> a <= b -> fl a <= fl b.
Proof.
  intros Ha Hab. assert (Hb : 0 < b) by (eapply Qlt_le_trans; eassumption).
  pose proof (binade_mono a b Ha Hab) as He.
  destruct (Z.eq_dec (quantum (binade a)) (quantum (binade b))) as [Ek | Nk].
  - rewrite (fl_pos a Ha), (fl_pos b Hb), Ek. now apply grid_mono.
  - assert (H1 : (Z.max (binade a) (-1022) + 1 <= binade b)%Z) by (unfold quantum in Nk; lia).
    assert (H2 : (-1022 <= binade b)%Z) by lia.
    eapply Qle_trans; [apply (fl_upper a Ha)|].
    eapply Qle_trans; [|apply (fl_lower b Hb H2)].
    now apply pow2_le.
Qed.

Lemma fl_mono_nonneg (a b : Q) : 0 <= a -> a <= b -> fl a <= fl b.
Proof.
  intros Ha Hab. destruct (Qlt_le_dec 0 a) as [Hp | Hz].
  - now apply fl_mono_pos.
  - assert (E : a == 0) by qlra. rewrite (fl_zero a E). apply fl_nonneg. qlra.
Qed.

Lemma fl_comp (q q' : Q) : 0 < q -> q == q' -> fl q == fl q'.
Proof.
  intros Hq E. assert (Hq' : 0 < q') by (rewrite <- E; exact Hq).
  rewrite (fl_pos q Hq), (fl_pos q' Hq'), (binade_comp q q' Hq E). now apply grid_comp.
Qed.

(** A float is rounded to itself. *)
Lemma fl_idempotent (q : Q) : 0 <= q -> fl (fl q) == fl q.
Proof.
  intros Hq0. destruct (Qlt_le_dec 0 q) as [Hq | Hz].
  2:{ assert (E : q == 0) by qlra. rewrite (fl_zero q E). reflexivity. }
  destruct (Qlt_le_dec 0 (fl q)) as [Hf | Hf].
  2:{ pose proof (fl_nonneg q Hq0) as H0. assert (E : fl q == 0) by qlra.
      rewrite (fl_zero _ E). symmetry. exact E. }
  set (E := Z.max (binade q) (-1022)).
  pose proof (fl_upper q Hq) as Hup. fold E in Hup.
  assert (Eq : fl q == inject_Z (round_half_even (q / pow2 (E - 52))) * pow2 (E - 52))
    by (rewrite (fl_pos q Hq); reflexivity).
  destruct (Qlt_le_dec (fl q) (pow2 (E + 1))) as [Hlt | Hge].
  - (* the quantum does not grow *)
    destruct (binade_spec (fl q) Hf) as [B1 _].
    assert (He : (binade (fl q) < E + 1)%Z)
      by (apply pow2_lt_inv; eapply Qle_lt_trans; eassumption).
    assert (Hk : (quantum (binade (fl q)) <= E - 52)%Z) by (unfold quantum, E in *; lia).
    rewrite (fl_pos (fl q) Hf).
    rewrite (grid_comp _ _ _ Eq), grid_fix by exact Hk. symmetry. exact Eq.
  - (* the float is the next power of two *)
    assert (Ep : fl q == pow2 (E + 1)) by qlra.
    rewrite (fl_comp _ _ Hf Ep).
    assert (Hb : binade (pow2 (E + 1)) = (E + 1)%Z).
    { apply binade_unique; [apply Qle_refl | apply pow2_lt; lia]. }
    rewrite (fl_pos _ (pow2_pos _)), Hb.
    assert (Hk : quantum (E + 1) = (E + 1 - 52)%Z) by (unfold quantum, E; lia).
    rewrite Hk.
    assert (Eg : pow2 (E + 1) == inject_Z (2 ^ 52) * pow2 (E + 1 - 52)).
    { rewrite <- pow2_Z by lia. rewrite <- pow2_add.
      now replace (52 + (E + 1 - 52))%Z with (E + 1)%Z by lia. }
    rewrite (grid_comp _ _ _ Eg), grid_fix by lia. rewrite Ep. symmetry. exact Eg.
Qed.

Lemma fl_sqrt_nonneg (s : Q) : 0 <= fl_sqrt s.
Proof.
  unfold fl_sqrt. destruct (Qle_bool s 0); [apply Qle_refl|].
  rewrite Qred_correct. apply Qmult_le_0_compat; [|apply Qlt_le_weak, pow2_pos].
  change 0 with (inject_Z 0). rewrite <- Zle_Qle.
  pose proof (Z.sqrt_nonneg (Qfloor (s / pow2 (2 * quantum (binade s / 2))))) as H.
  repeat match goal with |- context [if ?b then _ else _] => destruct b end; lia.
Qed.

(** Adding to a float *)
Lemma fl_sum_grows (x y d : Q) :
  0 <= fl (x + y) -> 0 <= d -> fl (x + y) <= fl (fl (x + y) + d).
Proof.
  intros He Hd.
  destruct (Qlt_le_dec 0 (x + y)) as [Hs | Hs].
  - rewrite <- (fl_idempotent (x + y)) at 1 by now apply Qlt_le_weak.
    apply fl_mono_nonneg; [exact He | qlra].
  - pose proof (fl_nonpos _ Hs) as Hn.
    apply Qle_trans with 0; [exact Hn|]. apply fl_nonneg. qlra.
Qed.

Lemma binary64_keeps_order : @rounding_keeps_order binary64.
Proof.
  split; [|split].
  - intros d Hd. apply fl_nonneg. qlra.
  - intros x y d. apply fl_sum_grows.
  - intros a b Ha Hb. apply fl_nonneg. now apply Qmult_le_0_compat.
Qed.

Lemma binary64_distance_nonneg (a b : Point3d) : 0 <= binary64_distance a b.
Proof. apply fl_sqrt_nonneg. Qed.

(** ** The error monad, loops and lists *)

Lemma bind_Ok {A B : Type} (m : result A) (k : A -> result B) (b : B) :
  bind m k = Ok b -> exists a, m = Ok a /\ k a = Ok b.
Proof.
  destruct m as [a | e]; simpl; intros H; [eauto | discriminate].
Qed.

Lemma Ok_fst {A B : Type} (x : A * B) (a : A) (b : B) :
  Ok x = Ok (a, b) -> fst x = a.
Proof.
  intros H. injection H as ->. reflexivity.
Qed.

Lemma foldM_app {A S : Type} (f : S -> A -> result S) (l1 l2 : list A) (s : S) :
  foldM f (l1 ++ l2) s = (s' <- foldM f l1 s ;; foldM f l2 s').
Proof.
  revert s. induction l1 as [| a l1 IH]; intros s; simpl; [reflexivity|].
  destruct (f s a) as [s' | e]; simpl; [apply IH | reflexivity].
Qed.

Lemma foldM_invariant {A S : Type} (P : S -> Prop) (f : S -> A -> result S)
    (l : list A) (s r : S) :
  (forall s a s', P s -> f s a = Ok s' -> P s') ->
  P s -> foldM f l s = Ok r -> P r.
Proof.
  intros Hstep. revert s. induction l as [| a l IH]; intros s Hs H.
  - simpl in H. injection H as <-. exact Hs.
  - simpl in H. apply bind_Ok in H. destruct H as [s' [Hf H]].
    apply (IH s'); [eapply Hstep; eassumption | exact H].
Qed.

Lemma foldM_total {A S : Type} (f : S -> A -> result S) (l : list A) (s : S) :
  (forall s a, exists s', f s a = Ok s') -> exists r, foldM f l s = Ok r.
Proof.
  intros Hf. revert s. induction l as [| a l IH]; intros s; simpl; [eauto|].
  destruct (Hf s a) as [s' ->]. simpl. apply IH.
Qed.

Lemma nth_pred_length {A : Type} (l : list A) (d : A) :
  nth (length l - 1) l d = last l d.
Proof.
  induction l as [| a l IH]; [reflexivity|].
  destruct l as [| b l]; [reflexivity|].
  change (nth (length l) (b :: l) d = last (b :: l) d).
  rewrite <- IH. simpl length.
  now replace (S (length l) - 1)%nat with (length l) by lia.
Qed.

Lemma last_cons {A : Type} (a : A) (l : list A) (d d' : A) :
  last (a :: l) d = last (a :: l) d'.
Proof.
  revert a. induction l as [| b l IH]; intros a; [reflexivity|].
  change (last (b :: l) d = last (b :: l) d'). apply IH.
Qed.

Lemma filter_none {A : Type} (f : A -> bool) (l : list A) :
  Forall (fun a => f a = false) l -> filter f l = [].
Proof.
  induction 1 as [| a l Ha _ IH]; [reflexivity|]. simpl. now rewrite Ha.
Qed.

Lemma somes_app {A : Type} (l1 l2 : list (option A)) :
  somes (l1 ++ l2) = somes l1 ++ somes l2.
Proof. apply flat_map_app. Qed.

Lemma targets_app (l1 l2 : list line) : targets (l1 ++ l2) = targets l1 ++ targets l2.
Proof. unfold targets. now rewrite filter_app, map_app. Qed.


Lemma extrusions_app (l1 l2 : list line) :
  extrusions (l1 ++ l2) = extrusions l1 ++ extrusions l2.
Proof. unfold extrusions. now rewrite map_app, somes_app. Qed.

Lemma feeds_app (l1 l2 : list line) : feeds (l1 ++ l2) = feeds l1 ++ feeds l2.
Proof. unfold feeds. now rewrite map_app, somes_app. Qed.

Lemma running_app {float64 : Float64} (acc : Q) (l1 l2 : list Q) :
  running acc (l1 ++ l2) = running acc l1 ++ running (total acc l1) l2.
Proof.
  revert acc. induction l1 as [| i l1 IH]; intros acc; [reflexivity|].
  simpl. now rewrite IH.
Qed.

Lemma total_app {float64 : Float64} (acc : Q) (l1 l2 : list Q) :
  total acc (l1 ++ l2) = total (total acc l1) l2.
Proof. apply fold_left_app. Qed.

(** ** Scenarios of the specification, run *)

Example scenario_A_point :
  in_bounds_cart 350 10 10 300 300 300 = (false, ["X>BedX"]).
Proof. reflexivity. Qed.

Example scenario_A_run :
  exists r,
    @generate_gcode binary64_host (Some [rg.Polyline [pt 350 10 10]]) PNone None = Ok r
    /\ out_BadPts r = [@round_point binary64 (pt 350 10 10)]
    /\ map fst (out_WarnDots r) = ["X>BedX"]
    /\ out_BadSegs r = []
    /\ out_status r = "⚠ Out of bounds: 1 point(s)".
Proof.
  eexists. split; [vm_compute; reflexivity|]. repeat split.
Qed.

Example several_reasons :
  in_bounds_cart (-1) 400 (-5) 300 300 300 = (false, ["X<0"; "Z<0"; "Y>BedY"]).
Proof. reflexivity. Qed.

Example scenario_B :
  @in_bounds_delta binary64 200 0 10 150 300 = (false, ["r>BedRadius"])
  /\ @in_bounds_delta binary64 100 0 10 150 300 = (true, []).
Proof. split; reflexivity. Qed.

Example scenario_D :
  @generate_gcode binary64_host (Some []) PNone None
  = Ok (mkOutput
          [text "; FOAM G-code Generator"; text "G28 ; Home all axes";
           text "G92 E0 ; Reset extrusion"; text "; End of FOAM print";
           text "M107 ; fans off"; text "G28 X0 ; home X"; text "M84 ; disable motors"]
          [] "OK" (Supplied PNone) [] [] []).
Proof. reflexivity. Qed.

Example scenario_E :
  config_of_list [PStr "Pen"; PStr "Cartesian"; PDict [];
                  PFloat 200; PFloat 100; PFloat 50; PNone]
  = Ok (mkConfig (PStr "Pen") (PStr "Cartesian") (PDict [])
                 (PFloat 200) (PFloat 100) (PFloat 50) (PInt 150) (Rectangle3d 200 100)).
Proof. reflexivity. Qed.

Example rounding_to_three_decimals :
  @fround binary64 (double 1.2345) 3 = double 1.234
  /\ @fround binary64 (double 1.2355) 3 = double 1.236
  /\ @fround binary64 (double (-0.0025)) 3 = double (-0.003)
  /\ @fround binary64 (double (-0.0005)) 3 = double (-0.001).
Proof. vm_compute. repeat split; reflexivity. Qed.

Example hot_program :
  option_map
    (fun r => map (fun l => (positioning l, has_field "E" l,
                             option_map format_4f (field_num "E" l),
                             field_val "F" l))
                  (out_gcode r))
    (match @generate_gcode binary64_host (Some [rg.Polyline [pt 0 0 0; pt 10 0 0]])
             hot_profile None with
     | Ok r => Some r
     | Raise _ => None
     end)
  = Some [ (false, false, None, None);            (* ; FOAM G-code Generator *)
           (false, false, None, None);            (* G28 ; Home all axes *)
           (false, false, None, None);            (* M104 S210 *)
           (false, false, None, None);            (* M140 S30 *)
           (false, true, None, None);             (* G92 E0 *)
           (false, false, None, None);            (* ; Start path *)
           (true, false, None, None);             (* G1 X Y Z F2000 *)
           (true, false, None, Some (PInt 1500)); (* G1 X Y Z F1500 *)
           (true, true, Some "2.0000", Some (PInt 1500));
           (false, false, None, None);            (* ; End path *)
           (true, false, None, None);             (* G1 Z F2000 *)
           (false, false, None, None);            (* ; End of FOAM print *)
           (false, false, None, None);            (* M104 S0 *)
           (false, false, None, None);            (* M140 S0 *)
           (false, false, None, None);            (* M107 *)
           (false, false, None, None);            (* G28 X0 *)
           (false, false, None, None) ].          (* M84 *)
Proof. vm_compute. reflexivity. Qed.

(** ** The motion kernel, path by path *)

Section KernelSpec.

Context {host : Host}.

Variable cfg : config.
Variable feedrate : pyval.
Variable c : Q.
Variable m : Q.
Variable clearance : pyval.
Variable items : list (string * pyval).

Hypothesis params_dict : params cfg = PDict items.
Hypothesis clearance_num : as_num clearance = Ok c.
Hypothesis mult_num :
  eq_str (mode cfg) "Hot" = true ->
  as_num (get items "ExtrusionMultiplier" (PFloat float_0_2)) = Ok m.

Let hot : bool := eq_str (mode cfg) "Hot".

Lemma emit_rest (suf pre : list Point3d) (prev : Point3d) (st : kernel_state) :
  pre <> [] ->
  (forall d, last pre d = prev) ->
  foldM (emit_point cfg clearance feedrate (pre ++ suf))
        (combine (seq (length pre) (length suf)) suf) st
  = Ok (match suf with
        | [] => st
        | _ :: _ =>
            mkKernel (gcode st ++ fst (steps feedrate m hot prev suf (extrusion st))
                        ++ [text "; End path"; lift c (last suf prev)])
                     (preview_paths st)
                     (snd (steps feedrate m hot prev suf (extrusion st)))
        end).
Proof.
  revert pre prev st.
  induction suf as [| pt suf IH]; intros pre prev st Hpre Hlast; [reflexivity|].
  cbn [length seq combine foldM].
  assert (Hj : Nat.eqb (length pre) 0 = false).
  { destruct pre; [congruence | reflexivity]. }
  assert (Hprev : nth (length pre - 1) (pre ++ pt :: suf) pt = prev).
  { rewrite app_nth1 by (destruct pre; [congruence | simpl; lia]).
    rewrite nth_pred_length. apply Hlast. }
  unfold emit_point at 1. rewrite Hj, Hprev. fold hot.
  assert (Hend : Nat.eqb (length pre) (length (pre ++ pt :: suf) - 1)
                 = match suf with [] => true | _ => false end).
  { rewrite length_app. simpl length.
    destruct suf; [apply Nat.eqb_eq | apply Nat.eqb_neq]; simpl; lia. }
  rewrite Hend.
  specialize (IH (pre ++ [pt]) pt).
  rewrite <- app_assoc in IH. simpl app in IH.
  rewrite length_app in IH. simpl length in IH.
  replace (length pre + 1)%nat with (S (length pre)) in IH by lia.
  assert (Hne : pre ++ [pt] <> []) by (destruct pre; discriminate).
  assert (Hl : forall d, last (pre ++ [pt]) d = pt) by (intros d; apply last_last).
  destruct hot eqn:Hhot.
  - rewrite params_dict. cbn [params_get bind].
    rewrite (mult_num Hhot). cbn [bind].
    destruct suf as [| pt' suf'].
    + rewrite clearance_num.
      cbn [bind length seq combine foldM steps fst snd last]. unfold emit.
      cbn [gcode preview_paths extrusion]. rewrite <- app_assoc. reflexivity.
    + cbn [bind].
      rewrite IH by assumption.
      cbn [gcode preview_paths extrusion].
      set (e1 := fadd (extrusion st) (fmul (DistanceTo prev pt) m)).
      change (steps feedrate m true prev (pt :: pt' :: suf') (extrusion st))
        with (let '(ls, ef) := steps feedrate m true pt (pt' :: suf') e1 in (extrude_to feedrate pt e1 :: ls, ef)).
      destruct (steps feedrate m true pt (pt' :: suf') e1) as [ls1 ef1].
      cbn [fst snd]. rewrite <- !app_assoc.
      change (last (pt :: pt' :: suf') prev) with (last (pt' :: suf') prev).
      rewrite (last_cons pt' suf' prev pt). reflexivity.
  - destruct suf as [| pt' suf'].
    + cbn [bind]. rewrite clearance_num.
      cbn [bind length seq combine foldM steps fst snd last]. unfold emit.
      cbn [gcode preview_paths extrusion]. rewrite <- app_assoc. reflexivity.
    + cbn [bind]. rewrite IH by assumption.
      unfold emit. cbn [gcode preview_paths extrusion].
      change (steps feedrate m false prev (pt :: pt' :: suf') (extrusion st))
        with (let '(ls, ef) := steps feedrate m false pt (pt' :: suf') (extrusion st) in (move_to feedrate pt :: ls, ef)).
      destruct (steps feedrate m false pt (pt' :: suf') (extrusion st)) as [ls1 ef1].
      cbn [fst snd]. rewrite <- !app_assoc.
      change (last (pt :: pt' :: suf') prev) with (last (pt' :: suf') prev).
      rewrite (last_cons pt' suf' prev pt). reflexivity.
Qed.

Lemma emit_path_spec (st : kernel_state) (pl : rg.Geometry) :
  emit_path cfg clearance feedrate st pl
  = Ok (mkKernel
          (gcode st ++ fst (path_lines feedrate c m hot (extract_points pl) (extrusion st)))
          (preview_paths st ++ filter nonempty [extract_points pl])
          (snd (path_lines feedrate c m hot (extract_points pl) (extrusion st)))).
Proof.
  unfold emit_path. destruct (extract_points pl) as [| p0 rest].
  - destruct st. simpl. now rewrite !app_nil_r.
  - unfold enumerate. cbn [length seq combine foldM filter nonempty].
    unfold emit_point at 1. unfold emit.
    destruct rest as [| p1 rest].
    + cbn [Nat.eqb length Nat.sub]. rewrite clearance_num.
      cbn [bind foldM length seq combine path_lines steps fst snd last
           gcode preview_paths extrusion].
      rewrite <- app_assoc. reflexivity.
    + cbn [Nat.eqb length Nat.sub]. rewrite clearance_num. cbn [bind].
      rewrite (emit_rest (p1 :: rest) [p0] p0) by (try discriminate; intros d; reflexivity).
      cbn [gcode preview_paths extrusion path_lines].
      destruct (steps feedrate m hot p0 (p1 :: rest) (extrusion st)) as [ls ef].
      cbn [fst snd]. rewrite <- !app_assoc. reflexivity.
Qed.

Lemma emit_paths_spec (paths : list rg.Geometry) (st : kernel_state) :
  foldM (emit_path cfg clearance feedrate) paths st
  = Ok (mkKernel
          (gcode st ++ fst (body_lines feedrate c m hot (map extract_points paths) (extrusion st)))
          (preview_paths st ++ filter nonempty (map extract_points paths))
          (snd (body_lines feedrate c m hot (map extract_points paths) (extrusion st)))).
Proof.
  revert st. induction paths as [| pl paths IH]; intros st.
  - destruct st. simpl. now rewrite !app_nil_r.
  - cbn [foldM map]. rewrite emit_path_spec. cbn [bind]. rewrite IH.
    cbn [gcode preview_paths extrusion body_lines].
    destruct (path_lines feedrate c m hot (extract_points pl) (extrusion st)) as [l1 e1].
    cbn [fst snd].
    destruct (body_lines feedrate c m hot (map extract_points paths) e1) as [l2 e2].
    cbn [fst snd]. rewrite <- !app_assoc.
    cbn [filter]. destruct (nonempty (extract_points pl)); reflexivity.
Qed.

End KernelSpec.

(** For a well-typed parameter mapping the kernel returns, and its output is
    the one [body_lines] describes. *)
Lemma motion_kernel_spec {host : Host} (cfg : config) (items : list (string * pyval))
    (c m : Q) (paths : list rg.Geometry) :
  params cfg = PDict items ->
  as_num (get items "ClearanceHeight" (PInt 5)) = Ok c ->
  (eq_str (mode cfg) "Hot" = true ->
   as_num (get items "ExtrusionMultiplier" (PFloat float_0_2)) = Ok m) ->
  motion_kernel cfg (Some paths)
  = Ok (mkKernel
          (fst (body_lines (get items "FeedRate" (PInt 1500)) c m
                           (eq_str (mode cfg) "Hot") (map extract_points paths) 0))
          (filter nonempty (map extract_points paths))
          (snd (body_lines (get items "FeedRate" (PInt 1500)) c m
                           (eq_str (mode cfg) "Hot") (map extract_points paths) 0))).
Proof.
  intros Hp Hc Hm. unfold motion_kernel. rewrite Hp. cbn [params_get bind].
  rewrite (emit_paths_spec cfg _ c m _ items Hp Hc Hm). reflexivity.
Qed.

(** Conversely, whenever the kernel returns its output is the one
    [body_lines] describes: a clearance or a multiplier that is no number
    is survived only by paths that never compute with it. *)
Section KernelInversion.

Context {host : Host}.

Variable cfg : config.
Variable feedrate : pyval.
Variable clearance : pyval.
Variable items : list (string * pyval).

Hypothesis params_dict : params cfg = PDict items.

Let hot : bool := eq_str (mode cfg) "Hot".
Let c0 : Q := number_or_zero clearance.
Let m0 : Q := number_or_zero (get items "ExtrusionMultiplier" (PFloat float_0_2)).

Lemma emit_path_inv (st st' : kernel_state) (pl : rg.Geometry) :
  emit_path cfg clearance feedrate st pl = Ok st' ->
  st' = mkKernel
          (gcode st ++ fst (path_lines feedrate c0 m0 hot (extract_points pl) (extrusion st)))
          (preview_paths st ++ filter nonempty [extract_points pl])
          (snd (path_lines feedrate c0 m0 hot (extract_points pl) (extrusion st))).
Proof.
  intros H.
  assert (Typed : forall c m,
             as_num clearance = Ok c ->
             (eq_str (mode cfg) "Hot" = true ->
              as_num (get items "ExtrusionMultiplier" (PFloat float_0_2)) = Ok m) ->
             st' = mkKernel
                     (gcode st ++ fst (path_lines feedrate c m hot (extract_points pl)
                                                  (extrusion st)))
                     (preview_paths st ++ filter nonempty [extract_points pl])
                     (snd (path_lines feedrate c m hot (extract_points pl) (extrusion st)))).
  { intros c m Hc Hm.
    rewrite (emit_path_spec cfg feedrate c m clearance items params_dict Hc Hm) in H.
    now injection H as <-. }
  unfold c0, m0, number_or_zero.
  destruct (as_num clearance) as [c | e] eqn:Hc.
  - destruct (as_num (get items "ExtrusionMultiplier" (PFloat float_0_2))) as [m | e] eqn:Hm.
    + apply Typed; [reflexivity | intros _; reflexivity].
    + destruct hot eqn:Hhot.
      * unfold emit_path in H.
        destruct (extract_points pl) as [| p0 [| p1 rest]].
        -- injection H as <-. destruct st. simpl. now rewrite !app_nil_r.
        -- unfold enumerate in H. cbn [length seq combine foldM] in H.
           unfold emit_point in H. cbn [Nat.eqb length Nat.sub] in H.
           rewrite Hc in H. cbn [bind] in H. injection H as <-.
           unfold emit. cbn [gcode preview_paths extrusion path_lines steps fst snd last
                            filter nonempty].
           now rewrite <- app_assoc.
        -- exfalso. unfold enumerate in H. cbn [length seq combine foldM] in H.
           unfold emit_point at 1 in H. cbn [Nat.eqb length Nat.sub] in H.
           rewrite Hc in H. cbn [bind] in H.
           unfold emit_point at 1 in H. cbn [Nat.eqb] in H. fold hot in H.
           rewrite Hhot, params_dict in H. cbn [params_get bind] in H.
           rewrite Hm in H. discriminate.
      * apply Typed; [reflexivity|]. fold hot. rewrite Hhot. discriminate.
  - unfold emit_path in H. destruct (extract_points pl) as [| p0 rest].
    + injection H as <-. destruct st. simpl. now rewrite !app_nil_r.
    + exfalso. unfold enumerate in H. cbn [length seq combine foldM] in H.
      unfold emit_point at 1 in H. cbn [Nat.eqb] in H.
      rewrite Hc in H. discriminate.
Qed.

Lemma emit_paths_inv (paths : list rg.Geometry) (st st' : kernel_state) :
  foldM (emit_path cfg clearance feedrate) paths st = Ok st' ->
  st' = mkKernel
          (gcode st ++ fst (body_lines feedrate c0 m0 hot (map extract_points paths)
                                       (extrusion st)))
          (preview_paths st ++ filter nonempty (map extract_points paths))
          (snd (body_lines feedrate c0 m0 hot (map extract_points paths) (extrusion st))).
Proof.
  revert st. induction paths as [| pl paths IH]; intros st H.
  - injection H as <-. destruct st. simpl. now rewrite !app_nil_r.
  - cbn [foldM] in H. apply bind_Ok in H. destruct H as [st1 [H1 H]].
    apply emit_path_inv in H1. apply IH in H. subst st' st1.
    cbn [gcode preview_paths extrusion map body_lines].
    destruct (path_lines feedrate c0 m0 hot (extract_points pl) (extrusion st)) as [l1 e1].
    cbn [fst snd].
    destruct (body_lines feedrate c0 m0 hot (map extract_points paths) e1) as [l2 e2].
    cbn [fst snd]. rewrite <- !app_assoc.
    cbn [filter]. destruct (nonempty (extract_points pl)); reflexivity.
Qed.

End KernelInversion.

Lemma motion_kernel_inv {host : Host} (cfg : config) (paths : list rg.Geometry)
    (kernel : kernel_state) :
  motion_kernel cfg (Some paths) = Ok kernel ->
  exists items,
    params cfg = PDict items
    /\ gcode kernel
       = fst (body_lines (get items "FeedRate" (PInt 1500))
                         (number_or_zero (get items "ClearanceHeight" (PInt 5)))
                         (number_or_zero (get items "ExtrusionMultiplier" (PFloat float_0_2)))
                         (eq_str (mode cfg) "Hot") (map extract_points paths) 0).
Proof.
  unfold motion_kernel. intros H.
  destruct (params cfg) as [| | | | | | items |] eqn:Hp; try discriminate.
  cbn [params_get bind] in H. exists items. split; [reflexivity|].
  apply (emit_paths_inv cfg _ _ items Hp) in H. now subst kernel.
Qed.

(** ** What the lines of the kernel say *)

Section Lines.

Context {host : Host}.
Variables (feedrate : pyval) (c m : Q).

Lemma steps_targets (hot : bool) (rest : list Point3d) (prev : Point3d) (e : Q) :
  targets (fst (steps feedrate m hot prev rest e)) = map full_target rest.
Proof.
  revert prev e. induction rest as [| p rest IH]; intros prev e; [reflexivity|].
  cbn [steps]. destruct hot.
  - specialize (IH p (fadd e (fmul (DistanceTo prev p) m))).
    destruct (steps feedrate m true p rest _) as [ls ef].
    cbn [fst] in *. change (targets (extrude_to feedrate p (fadd e (fmul (DistanceTo prev p) m)) :: ls))
      with (full_target p :: targets ls). now rewrite IH.
  - specialize (IH p e).
    destruct (steps feedrate m false p rest e) as [ls ef].
    cbn [fst] in *. change (targets (move_to feedrate p :: ls))
      with (full_target p :: targets ls). now rewrite IH.
Qed.


Lemma steps_feeds (hot : bool) (rest : list Point3d) (prev : Point3d) (e : Q) :
  feeds (fst (steps feedrate m hot prev rest e)) = map (fun _ => feedrate) rest.
Proof.
  revert prev e. induction rest as [| p rest IH]; intros prev e; [reflexivity|].
  cbn [steps]. destruct hot.
  - specialize (IH p (fadd e (fmul (DistanceTo prev p) m))).
    destruct (steps feedrate m true p rest _) as [ls ef].
    cbn [fst] in *. change (feeds (extrude_to feedrate p (fadd e (fmul (DistanceTo prev p) m)) :: ls))
      with (feedrate :: feeds ls). now rewrite IH.
  - specialize (IH p e).
    destruct (steps feedrate m false p rest e) as [ls ef].
    cbn [fst] in *. change (feeds (move_to feedrate p :: ls))
      with (feedrate :: feeds ls). now rewrite IH.
Qed.

Lemma path_targets (hot : bool) (coords : list Point3d) (e : Q) :
  targets (fst (path_lines feedrate c m hot coords e)) = expected_targets c coords.
Proof.
  destruct coords as [| p0 rest]; [reflexivity|].
  cbn [path_lines expected_targets].
  pose proof (steps_targets hot rest p0 e) as Hs.
  destruct (steps feedrate m hot p0 rest e) as [ls ef]. cbn [fst] in *.
  change (targets ([text "; Start path"; move_above c p0; descend feedrate p0]
                     ++ ls ++ [text "; End path"; lift c (last rest p0)]))
    with ((Some (rg.X p0), Some (rg.Y p0), Some (fadd (rg.Z p0) c))
            :: full_target p0
            :: targets (ls ++ [text "; End path"; lift c (last rest p0)])).
  rewrite targets_app, Hs. reflexivity.
Qed.


Lemma path_feeds (hot : bool) (coords : list Point3d) (e : Q) :
  feeds (fst (path_lines feedrate c m hot coords e)) = map (fun _ => feedrate) coords.
Proof.
  destruct coords as [| p0 rest]; [reflexivity|].
  cbn [path_lines].
  pose proof (steps_feeds hot rest p0 e) as Hs.
  destruct (steps feedrate m hot p0 rest e) as [ls ef]. cbn [fst] in *.
  change (feeds ([text "; Start path"; move_above c p0; descend feedrate p0]
                   ++ ls ++ [text "; End path"; lift c (last rest p0)]))
    with (feedrate :: feeds (ls ++ [text "; End path"; lift c (last rest p0)])).
  rewrite feeds_app, Hs. cbn. now rewrite app_nil_r.
Qed.

Lemma body_targets (hot : bool) (paths : list (list Point3d)) (e : Q) :
  targets (fst (body_lines feedrate c m hot paths e)) = flat_map (expected_targets c) paths.
Proof.
  revert e. induction paths as [| coords paths IH]; intros e; [reflexivity|].
  cbn [body_lines flat_map].
  pose proof (path_targets hot coords e) as Hp.
  destruct (path_lines feedrate c m hot coords e) as [l1 e1].
  specialize (IH e1). destruct (body_lines feedrate c m hot paths e1) as [l2 e2].
  cbn [fst] in *. now rewrite targets_app, Hp, IH.
Qed.


Lemma body_feeds (hot : bool) (paths : list (list Point3d)) (e : Q) :
  feeds (fst (body_lines feedrate c m hot paths e))
  = map (fun _ => feedrate) (concat paths).
Proof.
  revert e. induction paths as [| coords paths IH]; intros e; [reflexivity|].
  cbn [body_lines concat].
  pose proof (path_feeds hot coords e) as Hp.
  destruct (path_lines feedrate c m hot coords e) as [l1 e1].
  specialize (IH e1). destruct (body_lines feedrate c m hot paths e1) as [l2 e2].
  cbn [fst] in *. now rewrite feeds_app, Hp, IH, map_app.
Qed.

Lemma steps_extrusions (rest : list Point3d) (prev : Point3d) (e : Q) :
  extrusions (fst (steps feedrate m true prev rest e)) = running e (increments m (prev :: rest))
  /\ snd (steps feedrate m true prev rest e) = total e (increments m (prev :: rest)).
Proof.
  revert prev e. induction rest as [| p rest IH]; intros prev e; [split; reflexivity|].
  cbn [steps]. specialize (IH p (fadd e (fmul (DistanceTo prev p) m))).
  destruct (steps feedrate m true p rest _) as [ls ef]. cbn [fst snd] in *.
  destruct IH as [IH1 IH2].
  change (extrusions (extrude_to feedrate p (fadd e (fmul (DistanceTo prev p) m)) :: ls))
    with ((fadd e (fmul (DistanceTo prev p) m)) :: extrusions ls).
  change (increments m (prev :: p :: rest))
    with (fmul (DistanceTo prev p) m :: increments m (p :: rest)).
  cbn [running total fold_left]. now rewrite IH1, IH2.
Qed.

Lemma path_extrusions (coords : list Point3d) (e : Q) :
  extrusions (fst (path_lines feedrate c m true coords e)) = running e (increments m coords)
  /\ snd (path_lines feedrate c m true coords e) = total e (increments m coords).
Proof.
  destruct coords as [| p0 rest]; [split; reflexivity|].
  cbn [path_lines]. destruct (steps_extrusions rest p0 e) as [H1 H2].
  destruct (steps feedrate m true p0 rest e) as [ls ef]. cbn [fst snd] in *.
  split; [|exact H2].
  change (extrusions ([text "; Start path"; move_above c p0; descend feedrate p0]
                        ++ ls ++ [text "; End path"; lift c (last rest p0)]))
    with (extrusions (ls ++ [text "; End path"; lift c (last rest p0)])).
  rewrite extrusions_app, H1. cbn. now rewrite app_nil_r.
Qed.

Lemma body_extrusions (paths : list (list Point3d)) (e : Q) :
  extrusions (fst (body_lines feedrate c m true paths e))
  = running e (flat_map (increments m) paths).
Proof.
  revert e. induction paths as [| coords paths IH]; intros e; [reflexivity|].
  cbn [body_lines flat_map]. destruct (path_extrusions coords e) as [H1 H2].
  destruct (path_lines feedrate c m true coords e) as [l1 e1].
  specialize (IH e1). destruct (body_lines feedrate c m true paths e1) as [l2 e2].
  cbn [fst snd] in *. rewrite extrusions_app, H1, IH, running_app. now rewrite H2.
Qed.

Lemma increments_flat_map (paths : list (list Point3d)) :
  flat_map (increments m) paths = map (fun d => fmul d m) (flat_map segment_lengths paths).
Proof.
  induction paths as [| coords paths IH]; [reflexivity|].
  simpl. now rewrite IH, map_app.
Qed.

(** With an arithmetic that keeps the order, running sums of increments
    that are not negative never fall. *)
Lemma running_sorted_from (incs : list Q) (acc : Q) :
  rounding_keeps_order ->
  0 <= acc ->
  acc = 0 \/ (exists x y, acc = fadd x y) ->
  Forall (fun i => 0 <= i) incs -> StronglySorted Qle (acc :: running acc incs).
Proof.
  intros [L1 [L2 _]] Hacc Hsum H. revert acc Hacc Hsum.
  induction H as [| i incs Hi _ IH]; intros acc Hacc Hsum.
  - repeat constructor.
  - cbn [running].
    assert (Hstep : acc <= fadd acc i).
    { destruct Hsum as [-> | [x [y ->]]]; [now apply L1 | now apply L2]. }
    assert (Hacc' : 0 <= fadd acc i) by (eapply Qle_trans; eassumption).
    specialize (IH (fadd acc i) Hacc' (or_intror (ex_intro _ acc (ex_intro _ i eq_refl)))).
    constructor; [exact IH|].
    apply StronglySorted_inv in IH. destruct IH as [_ IH].
    constructor; [exact Hstep|].
    eapply Forall_impl; [|exact IH]. intros q Hq. cbn beta in Hq.
    eapply Qle_trans; eassumption.
Qed.

Lemma running_sorted (incs : list Q) :
  rounding_keeps_order ->
  Forall (fun i => 0 <= i) incs -> StronglySorted Qle (0 :: running 0 incs).
Proof.
  intros L H. apply running_sorted_from; [exact L | apply Qle_refl | now left | exact H].
Qed.

End Lines.

(** ** Runs *)

(** Every run that returns went through the four phases, and its program is
    header, kernel output and footer, in this order. *)
Lemma generate_gcode_phases {host : Host} (geometry : option (list rg.Geometry))
    (profile : pyval) (base_code : option (list string)) (r : output) :
  generate_gcode geometry profile base_code = Ok r ->
  exists cfg diag head kernel,
    read_profile profile = Ok cfg
    /\ safety_checks cfg geometry = Ok diag
    /\ header cfg base_code = Ok head
    /\ motion_kernel cfg geometry = Ok kernel
    /\ r = mkOutput (head ++ gcode kernel ++ footer cfg) (preview_paths kernel)
                    (status_of (violations diag)) (Bed cfg)
                    (BadPts diag) (BadSegs diag) (WarnDots diag).
Proof.
  unfold generate_gcode. intros H.
  apply bind_Ok in H. destruct H as [cfg [Hc H]].
  apply bind_Ok in H. destruct H as [diag [Hd H]].
  apply bind_Ok in H. destruct H as [head [Hh H]].
  apply bind_Ok in H. destruct H as [kernel [Hk H]].
  injection H as <-. exists cfg, diag, head, kernel. repeat split; assumption.
Qed.

Lemma in_bounds_total {host : Host} (cfg : config) (p : Point3d) :
  bed_numeric cfg -> exists v, in_bounds cfg p = Ok v.
Proof.
  unfold bed_numeric, in_bounds.
  destruct (eq_str (printer_type cfg) "Delta").
  - intros [radius [bz [-> ->]]]. simpl. eauto.
  - intros [bx [by_ [bz [-> [-> ->]]]]]. simpl. eauto.
Qed.

Lemma safety_checks_total {host : Host} (cfg : config)
    (geometry : option (list rg.Geometry)) :
  bed_numeric cfg -> exists diag, safety_checks cfg geometry = Ok diag.
Proof.
  intros Hb. unfold safety_checks.
  destruct geometry as [[| pl rest] |]; eauto.
  apply foldM_total. intros d pl'. unfold check_path.
  destruct (extract_points pl') as [| p0 ps]; [eauto|].
  destruct (foldM_total (check_point cfg) (p0 :: ps) d) as [d1 H1].
  { intros s a. unfold check_point.
    destruct (in_bounds_total cfg a Hb) as [[ok reasons] ->]. simpl.
    destruct ok; eauto. }
  rewrite H1. cbn [bind]. apply foldM_total.
  intros s [a b]. unfold check_segment, segment_ok, segment_checks.
  destruct (in_bounds_total cfg a Hb) as [[okA ra] Ha].
  destruct (in_bounds_total cfg b Hb) as [[okB rb] Hb'].
  destruct (in_bounds_total cfg (midpoint a b) Hb) as [[okM rm] Hm].
  destruct (eq_str (printer_type cfg) "Delta");
    cbn [mapM]; rewrite Ha, Hb', ?Hm; cbn [bind];
    match goal with |- context [if ?b then _ else _] => destruct b end; eauto.
Qed.

(** The synthesized header and the footer position nothing, extrude
    nothing and set no feed rate. *)
Lemma header_quiet (cfg : config) (base_code : option (list string)) (head : list line) :
  synthesized base_code ->
  header cfg base_code = Ok head ->
  targets head = [] /\ visits head = [] /\ extrusions head = [] /\ feeds head = [].
Proof.
  intros Hs H.
  assert (H' : header cfg None = Ok head) by (destruct Hs as [-> | ->]; exact H).
  clear H Hs. unfold header in H'.
  destruct (eq_str (mode cfg) "Hot").
  - destruct (params_get (params cfg) "NozzleTemp" (PInt 210)) as [nozzle |]; [|discriminate].
    destruct (params_get (params cfg) "BedTemp" (PInt 30)) as [bedtemp |]; [|discriminate].
    injection H' as <-. repeat split; reflexivity.
  - injection H' as <-. repeat split; reflexivity.
Qed.

Lemma footer_quiet (cfg : config) :
  targets (footer cfg) = [] /\ visits (footer cfg) = []
  /\ extrusions (footer cfg) = [] /\ feeds (footer cfg) = [].
Proof.
  unfold footer. destruct (eq_str (mode cfg) "Hot"); repeat split; reflexivity.
Qed.

(** A run on a list of paths with typed parameters and numeric bed sizes
    returns, and its program is the header, the lines [body_lines]
    describes, and the footer. *)
Lemma generate_gcode_spec {host : Host} (paths : list rg.Geometry) (profile : pyval)
    (base_code : option (list string)) (cfg : config) (items : list (string * pyval))
    (c m : Q) :
  read_profile profile = Ok cfg ->
  typed_params cfg items c m ->
  bed_numeric cfg ->
  exists r head,
    generate_gcode (Some paths) profile base_code = Ok r
    /\ header cfg base_code = Ok head
    /\ out_gcode r
       = head
           ++ fst (body_lines (get items "FeedRate" (PInt 1500)) c m
                              (eq_str (mode cfg) "Hot") (map extract_points paths) 0)
           ++ footer cfg.
Proof.
  intros Hc [Hp [Hcl Hm]] Hb. unfold generate_gcode. rewrite Hc. cbn [bind].
  destruct (safety_checks_total cfg (Some paths) Hb) as [diag ->]. cbn [bind].
  assert (Hh : exists head, header cfg base_code = Ok head).
  { unfold header. destruct base_code as [[| l rest] |]; eauto;
      rewrite Hp; destruct (eq_str (mode cfg) "Hot"); simpl; eauto. }
  destruct Hh as [head Hh]. rewrite Hh. cbn [bind].
  rewrite (motion_kernel_spec cfg items c m paths Hp Hcl Hm). cbn [bind].
  eexists. exists head. split; [reflexivity|]. split; reflexivity.
Qed.

(** Every run on a list of paths that returns has the program the header,
    the lines [body_lines] describes, and the footer. *)
Lemma generate_gcode_inv {host : Host} (paths : list rg.Geometry) (profile : pyval)
    (base_code : option (list string)) (r : output) :
  generate_gcode (Some paths) profile base_code = Ok r ->
  exists cfg items head,
    read_profile profile = Ok cfg
    /\ params cfg = PDict items
    /\ header cfg base_code = Ok head
    /\ out_gcode r
       = head
           ++ fst (body_lines (get items "FeedRate" (PInt 1500))
                     (number_or_zero (get items "ClearanceHeight" (PInt 5)))
                     (number_or_zero (get items "ExtrusionMultiplier" (PFloat float_0_2)))
                     (eq_str (mode cfg) "Hot") (map extract_points paths) 0)
           ++ footer cfg.
Proof.
  intros H. apply generate_gcode_phases in H.
  destruct H as [cfg [diag [head [kernel [Hc [_ [Hh [Hk ->]]]]]]]].
  apply motion_kernel_inv in Hk. destruct Hk as [items [Hp Hg]].
  exists cfg, items, head. cbn [out_gcode]. rewrite Hg. repeat split; assumption.
Qed.

Lemma get_absent (items : list (string * pyval)) (key : string) (d : pyval) :
  lookup key items = None -> get items key d = d.
Proof. unfold get. now intros ->. Qed.

Lemma default_config_typed : typed_params default_config [] 5 0.
Proof.
  repeat split; try reflexivity. discriminate.
Qed.

Lemma default_config_bed : bed_numeric default_config.
Proof.
  exists 300, 300, 300. repeat split; reflexivity.
Qed.

Lemma safety_checks_fold {host : Host} (cfg : config) (paths : list rg.Geometry) :
  safety_checks cfg (Some paths) = foldM (check_path cfg) paths no_diagnostics.
Proof. destruct paths; reflexivity. Qed.

(** A run that returns was given a list of paths, and its program is not
    empty. *)
Lemma generate_gcode_paths {host : Host} (geometry : option (list rg.Geometry))
    (profile : pyval) (base_code : option (list string)) (r : output) :
  generate_gcode geometry profile base_code = Ok r ->
  exists paths, geometry = Some paths /\ out_gcode r <> [].
Proof.
  intros H. apply generate_gcode_phases in H.
  destruct H as [cfg [diag [head [kernel [_ [_ [_ [Hk ->]]]]]]]].
  destruct geometry as [paths |].
  - exists paths. split; [reflexivity|]. cbn [out_gcode]. intros E.
    apply app_eq_nil in E. destruct E as [_ E].
    apply app_eq_nil in E. destruct E as [_ E]. discriminate.
  - unfold motion_kernel in Hk.
    destruct (params_get (params cfg) "ClearanceHeight" (PInt 5)); [|discriminate].
    destruct (params_get (params cfg) "FeedRate" (PInt 1500)); discriminate.
Qed.

(** ** The workspace validator *)








(** ** Segments *)

(** The segment test, written out as the source has it. *)
Lemma segment_ok_literal {host : Host} (cfg : config) (a b : Point3d) :
  segment_ok cfg a b
  = if eq_str (printer_type cfg) "Delta" then
      '(okA, _) <- in_bounds cfg a ;;
      '(okB, _) <- in_bounds cfg b ;;
      '(okM, _) <- in_bounds cfg (midpoint a b) ;;
      Ok (okA && okB && okM)
    else
      '(okA, _) <- in_bounds cfg a ;;
      '(okB, _) <- in_bounds cfg b ;;
      Ok (okA && okB).
Proof.
  unfold segment_ok, segment_checks.
  destruct (eq_str (printer_type cfg) "Delta"); cbn [mapM].
  - destruct (in_bounds cfg a) as [[okA ra] |]; [|reflexivity].
    destruct (in_bounds cfg b) as [[okB rb] |]; [|reflexivity].
    destruct (in_bounds cfg (midpoint a b)) as [[okM rm] |]; [|reflexivity].
    cbn [bind forallb]. now rewrite andb_true_r, andb_assoc.
  - destruct (in_bounds cfg a) as [[okA ra] |]; [|reflexivity].
    destruct (in_bounds cfg b) as [[okB rb] |]; [|reflexivity].
    cbn [bind forallb]. now rewrite andb_true_r.
Qed.

(** C1, as stated, fails: on a cylindrical (Delta) printer the segment test
    does hand the midpoint to the bounds test, next to the two end points,
    and the midpoint decides. On a bed of radius 522962.4546655884 the
    points (369790.299, 369790.297, 0) and (369790.297, 369790.299, 0) are
    both within bounds, their midpoint as computed is not, and the segment
    is reported. *)
Lemma C1_midpoint_is_checked_on_delta :
  @segment_checks binary64_host delta_config (pt 0 0 0) (pt 10 0 0)
    = [pt 0 0 0; pt 10 0 0; @midpoint binary64_host (pt 0 0 0) (pt 10 0 0)]
  /\ @segment_checks binary64_host delta_config (pt 0 0 0) (pt 10 0 0)
     <> [pt 0 0 0; pt 10 0 0]
  /\ @in_bounds binary64_host wide_delta_config corner_a = Ok (true, [])
  /\ @in_bounds binary64_host wide_delta_config corner_b = Ok (true, [])
  /\ @in_bounds binary64_host wide_delta_config
        (@midpoint binary64_host corner_a corner_b) = Ok (false, ["r>BedRadius"])
  /\ @segment_ok binary64_host wide_delta_config corner_a corner_b = Ok false.
Proof.
  split; [reflexivity|]. split; [discriminate|].
  repeat split; vm_compute; reflexivity.
Qed.

(** C1, amended. On a Cartesian printer a segment is reported valid exactly
    when both of its end points are valid: the midpoint is computed and
    not tested. On a cylindrical (Delta) printer it is reported valid
    exactly when both end points and the midpoint are valid. *)
Theorem C1_validateSegment {host : Host} (cfg : config) (a b : Point3d)
    (okA okB : bool) (ra rb : list string) :
  in_bounds cfg a = Ok (okA, ra) ->
  in_bounds cfg b = Ok (okB, rb) ->
  (eq_str (printer_type cfg) "Delta" = false ->
   segment_checks cfg a b = [a; b]
   /\ segment_ok cfg a b = Ok (okA && okB))
  /\ (eq_str (printer_type cfg) "Delta" = true ->
      segment_checks cfg a b = [a; b; midpoint a b]
      /\ exists okM rm,
          in_bounds cfg (midpoint a b) = Ok (okM, rm)
          /\ segment_ok cfg a b = Ok (okA && okB && okM)).
Proof.
  intros Ha Hb. rewrite segment_ok_literal. unfold segment_checks.
  split; intros Hd; rewrite Hd; (split; [reflexivity|]).
  - now rewrite Ha, Hb.
  - assert (Hm : exists v, in_bounds cfg (midpoint a b) = Ok v).
    { unfold in_bounds in Ha |- *. rewrite Hd in Ha |- *.
      destruct (as_num (bedRadius cfg)) as [radius |]; [|discriminate].
      destruct (as_num (bedZ cfg)) as [bz |]; [|discriminate].
      cbn [bind]. eauto. }
    destruct Hm as [[okM rm] Hm]. exists okM, rm.
    split; [exact Hm|]. now rewrite Ha, Hb, Hm.
Qed.

(** ** Diagnostics and status *)

Section Diagnostics.

Context {host : Host}.

Lemma in_bounds_verdict (cfg : config) (p : Point3d) (v : bool * list string) :
  in_bounds cfg p = Ok v -> v = verdict cfg p.
Proof.
  unfold in_bounds, verdict, number_or_zero.
  destruct (eq_str (printer_type cfg) "Delta").
  - destruct (as_num (bedRadius cfg)) as [r |]; [|discriminate].
    destruct (as_num (bedZ cfg)) as [bz |]; [|discriminate].
    cbn [bind]. congruence.
  - destruct (as_num (bedX cfg)) as [bx |]; [|discriminate].
    destruct (as_num (bedY cfg)) as [by_ |]; [|discriminate].
    destruct (as_num (bedZ cfg)) as [bz |]; [|discriminate].
    cbn [bind]. congruence.
Qed.

Lemma check_points_exact (cfg : config) (l : list Point3d) (d d1 : diagnostics) :
  foldM (check_point cfg) l d = Ok d1 ->
  violations d1 = (violations d + length (filter (outside cfg) l))%nat
  /\ BadPts d1 = BadPts d ++ filter (outside cfg) l
  /\ BadSegs d1 = BadSegs d
  /\ WarnDots d1 = WarnDots d ++ map (warning cfg) (filter (outside cfg) l).
Proof.
  revert d. induction l as [| q l IH]; intros d H.
  - injection H as <-. cbn [filter map length]. rewrite !app_nil_r. auto.
  - cbn [foldM] in H. apply bind_Ok in H. destruct H as [d' [Hq H]].
    destruct (IH d' H) as [Hv [Hp [Hs Hw]]]. clear IH H.
    unfold check_point in Hq. apply bind_Ok in Hq.
    destruct Hq as [[ok reasons] [Hb Hq]].
    apply in_bounds_verdict in Hb.
    assert (Ho : outside cfg q = negb ok) by (unfold outside; now rewrite <- Hb).
    assert (Hwq : warning cfg q = (join ", " reasons, q))
      by (unfold warning; now rewrite <- Hb).
    cbn [filter]. rewrite Ho.
    destruct ok; injection Hq as <-; cbn [negb].
    + auto.
    + cbn [violations BadPts BadSegs WarnDots] in *.
      rewrite Hv, Hp, Hs, Hw. cbn [length map]. rewrite Hwq, <- !app_assoc. cbn [app].
      repeat split; lia.
Qed.

Lemma segment_ok_exact (cfg : config) (a b : Point3d) (ok : bool) :
  segment_ok cfg a b = Ok ok -> ok = negb (bad_segment cfg (a, b)).
Proof.
  rewrite segment_ok_literal. unfold bad_segment, segment_checks, outside.
  cbn [fst snd]. intros H.
  destruct (eq_str (printer_type cfg) "Delta").
  - destruct (in_bounds cfg a) as [[okA ra] |] eqn:Ha; [|discriminate].
    destruct (in_bounds cfg b) as [[okB rb] |] eqn:Hb; [|discriminate].
    destruct (in_bounds cfg (midpoint a b)) as [[okM rm] |] eqn:Hm; [|discriminate].
    cbn [bind] in H. injection H as <-.
    apply in_bounds_verdict in Ha, Hb, Hm. cbn [existsb].
    rewrite <- Ha, <- Hb, <- Hm. cbn [fst].
    now destruct okA, okB, okM.
  - destruct (in_bounds cfg a) as [[okA ra] |] eqn:Ha; [|discriminate].
    destruct (in_bounds cfg b) as [[okB rb] |] eqn:Hb; [|discriminate].
    cbn [bind] in H. injection H as <-.
    apply in_bounds_verdict in Ha, Hb. cbn [existsb].
    rewrite <- Ha, <- Hb. cbn [fst].
    now destruct okA, okB.
Qed.

Lemma check_segments_exact (cfg : config) (l : list (Point3d * Point3d))
    (d d2 : diagnostics) :
  foldM (check_segment cfg) l d = Ok d2 ->
  violations d2 = violations d
  /\ BadPts d2 = BadPts d
  /\ BadSegs d2 = BadSegs d ++ filter (bad_segment cfg) l
  /\ WarnDots d2 = WarnDots d.
Proof.
  revert d. induction l as [| [a0 b0] l IH]; intros d H.
  - injection H as <-. cbn [filter]. rewrite app_nil_r. auto.
  - cbn [foldM] in H. apply bind_Ok in H. destruct H as [d' [Hs H]].
    destruct (IH d' H) as [Hv [Hp [Hb Hw]]]. clear IH H.
    unfold check_segment in Hs. apply bind_Ok in Hs. destruct Hs as [ok [Hok Hs]].
    apply segment_ok_exact in Hok. cbn [filter].
    destruct (bad_segment cfg (a0, b0)); cbn [negb] in Hok; subst ok;
      injection Hs as <-; cbn [violations BadPts BadSegs WarnDots] in *.
    + rewrite Hb, <- app_assoc. auto.
    + auto.
Qed.

Lemma check_path_exact (cfg : config) (d d' : diagnostics) (pl : rg.Geometry) :
  check_path cfg d pl = Ok d' ->
  violations d' = (violations d + length (filter (outside cfg) (extract_points pl)))%nat
  /\ BadPts d' = BadPts d ++ filter (outside cfg) (extract_points pl)
  /\ BadSegs d' = BadSegs d ++ filter (bad_segment cfg) (segments (extract_points pl))
  /\ WarnDots d' = WarnDots d ++ map (warning cfg) (filter (outside cfg) (extract_points pl)).
Proof.
  unfold check_path. intros H.
  destruct (extract_points pl) as [| p0 rest]; [injection H as <-|].
  - cbn [filter segments combine map length]. rewrite !app_nil_r. auto.
  - apply bind_Ok in H. destruct H as [d1 [H1 H2]].
    apply check_points_exact in H1. apply check_segments_exact in H2.
    destruct H1 as [Hv1 [Hp1 [Hs1 Hw1]]]. destruct H2 as [Hv2 [Hp2 [Hs2 Hw2]]].
    rewrite Hv2, Hp2, Hs2, Hw2, Hv1, Hp1, Hs1, Hw1. auto.
Qed.

Lemma check_paths_exact (cfg : config) (paths : list rg.Geometry) (d d' : diagnostics) :
  foldM (check_path cfg) paths d = Ok d' ->
  violations d'
  = (violations d + length (filter (outside cfg) (flat_map extract_points paths)))%nat
  /\ BadPts d' = BadPts d ++ filter (outside cfg) (flat_map extract_points paths)
  /\ BadSegs d'
     = BadSegs d
         ++ filter (bad_segment cfg) (flat_map (fun pl => segments (extract_points pl)) paths)
  /\ WarnDots d'
     = WarnDots d ++ map (warning cfg) (filter (outside cfg) (flat_map extract_points paths)).
Proof.
  revert d. induction paths as [| pl paths IH]; intros d H.
  - injection H as <-. cbn [flat_map filter map length]. rewrite !app_nil_r. auto.
  - cbn [foldM] in H. apply bind_Ok in H. destruct H as [d1 [H1 H]].
    apply check_path_exact in H1. destruct H1 as [Hv1 [Hp1 [Hs1 Hw1]]].
    destruct (IH d1 H) as [Hv [Hp [Hs Hw]]].
    cbn [flat_map]. rewrite !filter_app, map_app, length_app, Hv, Hp, Hs, Hw, Hv1, Hp1, Hs1, Hw1.
    rewrite <- !app_assoc. repeat split; lia.
Qed.

End Diagnostics.

Lemma generate_gcode_diagnostics {host : Host} (paths : list rg.Geometry)
    (profile : pyval) (base_code : option (list string)) (r : output) :
  generate_gcode (Some paths) profile base_code = Ok r ->
  exists cfg,
    read_profile profile = Ok cfg
    /\ out_status r
       = status_of (length (filter (outside cfg) (flat_map extract_points paths)))
    /\ out_BadPts r = filter (outside cfg) (flat_map extract_points paths)
    /\ out_BadSegs r
       = filter (bad_segment cfg) (flat_map (fun pl => segments (extract_points pl)) paths)
    /\ out_WarnDots r = map (warning cfg) (out_BadPts r).
Proof.
  intros H. apply generate_gcode_phases in H.
  destruct H as [cfg [diag [head [kernel [Hc [Hd [_ [_ ->]]]]]]]].
  exists cfg. split; [exact Hc|]. cbn [out_status out_BadPts out_BadSegs out_WarnDots].
  rewrite safety_checks_fold in Hd. apply check_paths_exact in Hd.
  destruct Hd as [Hv [Hp [Hs Hw]]]. rewrite Hv, Hp, Hs, Hw. auto.
Qed.

Lemma status_of_OK (n : nat) : status_of n = "OK" <-> n = 0%nat.
Proof.
  unfold status_of. destruct n; simpl; split; intros H;
    try reflexivity; discriminate.
Qed.

Lemma segments_ends (coords : list Point3d) (a b : Point3d) :
  In (a, b) (segments coords) -> In a coords /\ In b coords.
Proof.
  unfold segments. intros H. split; [eapply in_combine_l; exact H|].
  apply in_combine_r in H. destruct coords; [destruct H | now right].
Qed.

(** C4. The status of a run is "OK" exactly when no point of any path is
    out of bounds, and is otherwise the summary carrying the number of the
    points that are, counted with repetitions. It is computed from the
    points alone: the segments reported do not enter it, so a run whose
    points are all within bounds reports "OK" whatever its segments. *)
Theorem C4_status_counts_points_only {host : Host}
    (geometry : option (list rg.Geometry)) (profile : pyval)
    (base_code : option (list string)) (r : output) :
  generate_gcode geometry profile base_code = Ok r ->
  exists cfg paths,
    read_profile profile = Ok cfg
    /\ geometry = Some paths
    /\ length (out_BadPts r)
       = length (filter (outside cfg) (flat_map extract_points paths))
    /\ (out_status r = "OK"
        <-> Forall (fun p => outside cfg p = false) (flat_map extract_points paths))
    /\ (forall n,
          length (filter (outside cfg) (flat_map extract_points paths)) = S n ->
          out_status r = ("⚠ Out of bounds: " ++ str_nat (S n) ++ " point(s)")%string).
Proof.
  intros H. destruct (generate_gcode_paths _ _ _ _ H) as [paths [-> _]].
  apply generate_gcode_diagnostics in H. destruct H as [cfg [Hc [Hst [Hp _]]]].
  exists cfg, paths. split; [exact Hc|]. split; [reflexivity|].
  split; [now rewrite Hp|]. rewrite Hst. split.
  - rewrite status_of_OK. split.
    + intros Hlen. apply length_zero_iff_nil in Hlen. apply Forall_forall.
      intros p Hin. destruct (outside cfg p) eqn:E; [|reflexivity].
      assert (Hf : In p (filter (outside cfg) (flat_map extract_points paths)))
        by (apply filter_In; split; assumption).
      rewrite Hlen in Hf. destruct Hf.
    + intros Hall. now rewrite (filter_none _ _ Hall).
  - intros n ->. reflexivity.
Qed.

(** ** Ordering *)


(** ** Defaults of the motion kernel *)

(** C5, as stated, fails: with no feed rate in the parameters, Paste (Clay)
    and Motion-Only (Pen) programs move at 1500, not at 800 or 1000. *)
Lemma C5_paste_and_pen_default_to_1500 :
  (exists r,
     @generate_gcode binary64_host (Some [rg.Polyline [pt 0 0 0]])
                     (PList [PStr "Clay"; PStr "Cartesian"; PDict []]) None = Ok r
     /\ feeds (out_gcode r) = [PInt 1500]
     /\ feeds (out_gcode r) <> [PInt 800])
  /\
  (exists r,
     @generate_gcode binary64_host (Some [rg.Polyline [pt 0 0 0]])
                     (PList [PStr "Pen"; PStr "Cartesian"; PDict []]) None = Ok r
     /\ feeds (out_gcode r) = [PInt 1500]
     /\ feeds (out_gcode r) <> [PInt 1000]).
Proof.
  split; eexists; (split; [vm_compute; reflexivity|]); split;
    [reflexivity | discriminate | reflexivity | discriminate].
Qed.

(** C5, amended. When the parameters hold no feed rate, every move at the
    configured feed rate is made at 1500, whatever the mode; when they hold
    no clearance height, the approach and the lift of every path stand 5
    above the path, whatever the mode. Each of the two holds whether or not
    the other parameter is present. *)
Theorem C5_kernel_defaults {host : Host} (paths : list rg.Geometry)
    (profile : pyval) (base_code : option (list string)) (cfg : config)
    (items : list (string * pyval)) (r : output) :
  read_profile profile = Ok cfg ->
  params cfg = PDict items ->
  generate_gcode (Some paths) profile base_code = Ok r ->
  exists head rest,
    header cfg base_code = Ok head
    /\ out_gcode r = head ++ rest
    /\ (lookup "FeedRate" items = None ->
        feeds rest = map (fun _ => PInt 1500) (concat (map extract_points paths))
        /\ (synthesized base_code -> feeds (out_gcode r) = feeds rest))
    /\ (lookup "ClearanceHeight" items = None ->
        targets rest = flat_map (expected_targets 5) (map extract_points paths)
        /\ (synthesized base_code -> targets (out_gcode r) = targets rest)).
Proof.
  intros Hc Hp H. apply generate_gcode_inv in H.
  destruct H as [cfg' [items' [head [Hc' [Hp' [Hh Hg]]]]]].
  assert (cfg' = cfg) by congruence. subst cfg'.
  assert (items' = items) by congruence. subst items'.
  destruct (footer_quiet cfg) as [Ht2 [_ [_ Hf2]]].
  eexists head, _. split; [exact Hh|]. split; [exact Hg|]. split.
  - intros Hf. rewrite (get_absent _ _ _ Hf) in *.
    rewrite !feeds_app, Hf2, body_feeds, !app_nil_r.
    split; [reflexivity|].
    intros Hs. destruct (header_quiet cfg base_code head Hs Hh) as [_ [_ [_ Hf1]]].
    rewrite Hg, !feeds_app, Hf1, Hf2, body_feeds. now rewrite !app_nil_r.
  - intros Hcl. rewrite (get_absent _ _ _ Hcl) in *.
    change (number_or_zero (PInt 5)) with 5 in *.
    rewrite !targets_app, Ht2, body_targets, !app_nil_r.
    split; [reflexivity|].
    intros Hs. destruct (header_quiet cfg base_code head Hs Hh) as [Ht1 _].
    rewrite Hg, !targets_app, Ht1, Ht2, body_targets. now rewrite !app_nil_r.
Qed.

(** ** Header override *)

(** C7. When a non-empty override header is supplied, the program begins
    with its lines verbatim in place of the synthesized header, goes on
    with the output of the motion kernel, and still ends with the
    synthesized footer. *)
Theorem C7_override_header_keeps_footer {host : Host}
    (geometry : option (list rg.Geometry)) (profile : pyval)
    (base_code : list string) (r : output) :
  base_code <> [] ->
  generate_gcode geometry profile (Some base_code) = Ok r ->
  exists cfg kernel,
    read_profile profile = Ok cfg
    /\ motion_kernel cfg geometry = Ok kernel
    /\ out_gcode r = map text base_code ++ gcode kernel ++ footer cfg
    /\ firstn (length base_code) (out_gcode r) = map text base_code
    /\ exists before,
        out_gcode r
        = before ++ [text "M107 ; fans off"; text "G28 X0 ; home X";
                     text "M84 ; disable motors"].
Proof.
  intros Hne H.
  apply generate_gcode_phases in H.
  destruct H as [cfg [diag [head [kernel [Hc [_ [Hh [Hk ->]]]]]]]].
  exists cfg, kernel. split; [exact Hc|]. split; [exact Hk|].
  assert (Hhead : head = map text base_code).
  { unfold header in Hh. destruct base_code as [| l rest]; [congruence|].
    now injection Hh as <-. }
  subst head. cbn [out_gcode]. split; [reflexivity|]. split.
  - rewrite <- (length_map text base_code), firstn_app, firstn_all, Nat.sub_diag.
    cbn [firstn]. now rewrite app_nil_r.
  - unfold footer.
    exists (map text base_code ++ gcode kernel ++ [text "; End of FOAM print"]
              ++ (if eq_str (mode cfg) "Hot"
                  then [text "M104 S0 ; turn off hotend"; text "M140 S0 ; turn off bed"]
                  else [])).
    now rewrite <- !app_assoc.
Qed.

(** ** Extrusion fields outside Hot mode *)

Lemma emit_point_no_E {host : Host} (cfg : config) (clearance feedrate : pyval)
    (coords : list Point3d) (st : kernel_state) (jpt : nat * Point3d)
    (st' : kernel_state) :
  eq_str (mode cfg) "Hot" = false ->
  Forall no_E (gcode st) ->
  emit_point cfg clearance feedrate coords st jpt = Ok st' ->
  Forall no_E (gcode st').
Proof.
  intros Hmode Hst. unfold emit_point. destruct jpt as [j p]. rewrite Hmode.
  intros H. apply bind_Ok in H. destruct H as [st1 [H1 H2]].
  assert (Hst1 : Forall no_E (gcode st1)).
  { destruct (Nat.eqb j 0).
    - apply bind_Ok in H1. destruct H1 as [c [_ H1]]. injection H1 as <-.
      unfold emit. cbn [gcode]. apply Forall_app. split; [exact Hst|].
      repeat constructor.
    - injection H1 as <-. unfold emit. cbn [gcode]. apply Forall_app.
      split; [exact Hst|]. repeat constructor. }
  destruct (Nat.eqb j (length coords - 1)).
  - apply bind_Ok in H2. destruct H2 as [c [_ H2]]. injection H2 as <-.
    unfold emit. cbn [gcode]. apply Forall_app. split; [exact Hst1|].
    repeat constructor.
  - now injection H2 as <-.
Qed.

Lemma motion_kernel_no_E {host : Host} (cfg : config)
    (geometry : option (list rg.Geometry)) (kernel : kernel_state) :
  eq_str (mode cfg) "Hot" = false ->
  motion_kernel cfg geometry = Ok kernel ->
  Forall no_E (gcode kernel).
Proof.
  intros Hmode H. unfold motion_kernel in H.
  apply bind_Ok in H. destruct H as [clearance [_ H]].
  apply bind_Ok in H. destruct H as [feedrate [_ H]].
  destruct geometry as [paths |]; [|discriminate].
  apply (foldM_invariant (fun st => Forall no_E (gcode st))
           (emit_path cfg clearance feedrate) paths (mkKernel [] [] 0) kernel);
    [| constructor | exact H].
  intros st pl st' Hst Hpl. unfold emit_path in Hpl.
  destruct (extract_points pl) as [| p0 rest]; [now injection Hpl as <-|].
  eapply (foldM_invariant (fun st => Forall no_E (gcode st)));
    [| | exact Hpl]; [| exact Hst].
  intros s a s'. apply emit_point_no_E. exact Hmode.
Qed.

Lemma footer_no_E (cfg : config) :
  eq_str (mode cfg) "Hot" = false -> Forall no_E (footer cfg).
Proof.
  intros Hmode. unfold footer. rewrite Hmode. repeat constructor.
Qed.

(** C9, as stated, fails: in Motion-Only (Pen) mode the synthesized header
    still resets the extrusion counter with [G92 E0], an instruction that
    carries an E field. *)
Lemma C9_header_reset_carries_E :
  exists r,
    @generate_gcode binary64_host (Some []) (PList [PStr "Pen"]) None = Ok r
    /\ In (text "G92 E0 ; Reset extrusion") (out_gcode r)
    /\ has_field "E" (text "G92 E0 ; Reset extrusion") = true.
Proof.
  eexists. split; [vm_compute; reflexivity|]. split; [|reflexivity].
  simpl. tauto.
Qed.

(** C9, amended. In every mode other than Hot (so in Paste and in
    Motion-Only mode) no instruction after the header carries an E field:
    none written by the motion kernel and none of the footer. The
    synthesized header carries exactly one, the reset [G92 E0]. *)
Theorem C9_no_extrusion_outside_hot {host : Host}
    (geometry : option (list rg.Geometry)) (profile : pyval)
    (base_code : option (list string)) (r : output) :
  generate_gcode geometry profile base_code = Ok r ->
  exists cfg head rest,
    read_profile profile = Ok cfg
    /\ header cfg base_code = Ok head
    /\ out_gcode r = head ++ rest
    /\ (eq_str (mode cfg) "Hot" = false ->
        Forall no_E rest
        /\ (synthesized base_code ->
            filter (has_field "E") (out_gcode r) = [text "G92 E0 ; Reset extrusion"])).
Proof.
  intros H. apply generate_gcode_phases in H.
  destruct H as [cfg [diag [head [kernel [Hc [_ [Hh [Hk ->]]]]]]]].
  exists cfg, head, (gcode kernel ++ footer cfg).
  split; [exact Hc|]. split; [exact Hh|]. split; [reflexivity|].
  intros Hmode.
  assert (Hrest : Forall no_E (gcode kernel ++ footer cfg)).
  { apply Forall_app. split;
      [eapply motion_kernel_no_E; eassumption | now apply footer_no_E]. }
  split; [exact Hrest|].
  intros Hs. cbn [out_gcode]. rewrite filter_app, (filter_none _ _ Hrest), app_nil_r.
  assert (H' : header cfg None = Ok head) by (destruct Hs as [-> | ->]; exact Hh).
  unfold header in H'. rewrite Hmode in H'. injection H' as <-. reflexivity.
Qed.

(** ** Cumulative extrusion *)

(** C3, as stated, fails: the values need not be non-decreasing. Nothing
    keeps the extrusion multiplier from being negative, and then they
    fall. *)
Lemma C3_negative_multiplier_falls :
  exists r,
    @generate_gcode binary64_host
      (Some [rg.Polyline [pt 0 0 0; pt 10 0 0; pt 20 0 0]])
      (PList [PStr "Hot"; PStr "Cartesian";
              PDict [("ExtrusionMultiplier", PFloat (double (-0.2)))]])
      None = Ok r
    /\ map format_4f (extrusions (out_gcode r)) = ["-2.0000"; "-4.0000"]
    /\ ~ StronglySorted Qle (0 :: extrusions (out_gcode r)).
Proof.
  eexists. split; [vm_compute; reflexivity|]. split; [vm_compute; reflexivity|].
  intros H. apply StronglySorted_inv in H. destruct H as [_ H].
  apply Forall_inv in H. vm_compute in H. now apply H.
Qed.

(** C3, amended. In Hot (thermoplastic) mode the extrusion values written
    on the extruding instructions are, in order, the running sums of the
    segment lengths of all paths times the extrusion multiplier, computed
    as the code computes them: each value is the one before plus length
    times multiplier, product and sum rounded as floats are; the sum
    starts at 0 and runs on from path to path. With distances and a
    multiplier that are not negative the values never decrease: under any
    arithmetic whose rounding keeps the order, and so under binary64
    arithmetic. For the two points (0,0,0) and (10,0,0) and multiplier 0.2
    the one extruding instruction carries 2.0000. *)
Theorem C3_cumulative_extrusion {host : Host} :
  (forall (paths : list rg.Geometry) (profile : pyval) (base_code : option (list string))
          (cfg : config) (items : list (string * pyval)) (m : Q) (r : output),
     read_profile profile = Ok cfg ->
     eq_str (mode cfg) "Hot" = true ->
     params cfg = PDict items ->
     as_num (get items "ExtrusionMultiplier" (PFloat float_0_2)) = Ok m ->
     generate_gcode (Some paths) profile base_code = Ok r ->
     exists head rest,
       header cfg base_code = Ok head
       /\ out_gcode r = head ++ rest
       /\ extrusions rest
          = running 0 (map (fun d => fmul d m)
                           (flat_map segment_lengths (map extract_points paths)))
       /\ (rounding_keeps_order -> (forall a b, 0 <= DistanceTo a b) -> 0 <= m ->
           StronglySorted Qle (0 :: extrusions rest))
       /\ (synthesized base_code -> extrusions (out_gcode r) = extrusions rest))
  /\
  (forall (lit : string -> option pyval) (dist : Point3d -> Point3d -> Q)
          (paths : list rg.Geometry) (profile : pyval) (base_code : option (list string))
          (cfg : config) (items : list (string * pyval)) (m : Q) (r : output),
     (forall a b, 0 <= dist a b) ->
     @read_profile (binary64_with lit dist) profile = Ok cfg ->
     eq_str (mode cfg) "Hot" = true ->
     params cfg = PDict items ->
     as_num (get items "ExtrusionMultiplier" (PFloat float_0_2)) = Ok m ->
     0 <= m ->
     @generate_gcode (binary64_with lit dist) (Some paths) profile base_code = Ok r ->
     exists head rest,
       header cfg base_code = Ok head
       /\ out_gcode r = head ++ rest
       /\ StronglySorted Qle (0 :: extrusions rest)
       /\ (synthesized base_code -> StronglySorted Qle (0 :: extrusions (out_gcode r))))
  /\
  (exists r,
     @generate_gcode binary64_host (Some [rg.Polyline [pt 0 0 0; pt 10 0 0]])
                     hot_profile None = Ok r
     /\ map format_4f (extrusions (out_gcode r)) = ["2.0000"]).
Proof.
  revert host.
  match goal with
  | |- forall host, @?General host /\ _ =>
      assert (HG : forall host, General host); cbv beta
  end.
  - intros host paths profile base_code cfg items m r Hc Hhot Hp Hm H.
    apply generate_gcode_inv in H.
    destruct H as [cfg' [items' [head [Hc' [Hp' [Hh Hg]]]]]].
    assert (cfg' = cfg) by congruence. subst cfg'.
    assert (items' = items) by congruence. subst items'.
    unfold number_or_zero at 2 in Hg. rewrite Hm, Hhot in Hg.
    destruct (footer_quiet cfg) as [_ [_ [He2 _]]].
    eexists head, _. split; [exact Hh|]. split; [exact Hg|].
    rewrite !extrusions_app, He2, app_nil_r, body_extrusions, increments_flat_map.
    split; [reflexivity|]. split.
    + intros Hord Hdist Hm0. apply running_sorted; [exact Hord|].
      destruct Hord as [_ [_ L3]].
      apply Forall_forall. intros i Hi. apply in_map_iff in Hi.
      destruct Hi as [d [<- Hd]].
      apply L3; [|exact Hm0].
      apply in_flat_map in Hd. destruct Hd as [coords [_ Hd]].
      unfold segment_lengths in Hd. apply in_map_iff in Hd.
      destruct Hd as [[a b] [<- _]]. apply Hdist.
    + intros Hs. destruct (header_quiet cfg base_code head Hs Hh) as [_ [_ [He1 _]]].
      rewrite Hg, !extrusions_app, He1, He2, app_nil_r, body_extrusions,
        increments_flat_map.
      reflexivity.
  - intros host. split; [apply HG|]. split.
    + intros lit dist paths profile base_code cfg items m r Hdist Hc Hhot Hp Hm Hm0 H.
      destruct (HG (binary64_with lit dist) paths profile base_code cfg items m r
                   Hc Hhot Hp Hm H)
        as [head [rest [Hh [Hg [_ [Hsorted Hwhole]]]]]].
      assert (Hs : StronglySorted Qle (0 :: extrusions rest))
        by (apply Hsorted; [exact binary64_keeps_order | exact Hdist | exact Hm0]).
      exists head, rest. split; [exact Hh|]. split; [exact Hg|]. split; [exact Hs|].
      intros Hsyn. now rewrite (Hwhole Hsyn).
    + eexists. split; vm_compute; reflexivity.
Qed.

(** ** Undecodable profiles and missing geometry *)

(** C8. A profile handed in as a string that does not decode is dropped:
    the run proceeds on the full defaults (mode Pen, a Cartesian printer,
    a bed of 300 x 300 x 300), returns on every list of paths, and is the
    very run made without any profile. *)
Theorem C8_undecodable_profile_falls_back {host : Host} (s : string)
    (paths : list rg.Geometry) (base_code : option (list string)) :
  literal_eval s = None ->
  read_profile (PStr s)
  = Ok (mkConfig (PStr "Pen") (PStr "Cartesian") (PDict [])
                 (PInt 300) (PInt 300) (PInt 300) (PInt 150) (Supplied PNone))
  /\ exists r,
      generate_gcode (Some paths) (PStr s) base_code = Ok r
      /\ generate_gcode (Some paths) PNone base_code = Ok r.
Proof.
  intros Hs.
  assert (Hc : read_profile (PStr s) = Ok default_config).
  { unfold read_profile, decode_string. now rewrite Hs. }
  split; [exact Hc|].
  destruct (generate_gcode_spec paths PNone base_code default_config [] 5 0
              eq_refl default_config_typed default_config_bed)
    as [r [head [Hr _]]].
  exists r. split; [|exact Hr].
  unfold generate_gcode in *. rewrite Hc. exact Hr.
Qed.

(** C10. The validation pass is guarded against a missing geometry list,
    the loop of the motion kernel is not: without a geometry list every
    run raises, a [TypeError] on the defaults, while on the defaults every
    list of paths, the empty one too, returns. *)
Theorem C10_missing_geometry_raises {host : Host} (profile : pyval)
    (base_code : option (list string)) :
  (forall cfg, safety_checks cfg None = Ok no_diagnostics)
  /\ (forall cfg, exists e, motion_kernel cfg None = Raise e)
  /\ (exists e, generate_gcode None profile base_code = Raise e)
  /\ generate_gcode None PNone base_code = Raise TypeError
  /\ (forall paths, exists r, generate_gcode (Some paths) PNone base_code = Ok r).
Proof.
  assert (Hk : forall cfg, exists e, motion_kernel cfg None = Raise e).
  { intros cfg. unfold motion_kernel.
    destruct (params_get (params cfg) "ClearanceHeight" (PInt 5)); cbn [bind]; eauto.
    destruct (params_get (params cfg) "FeedRate" (PInt 1500)); cbn [bind]; eauto. }
  split; [reflexivity|]. split; [exact Hk|]. split; [|split].
  - unfold generate_gcode.
    destruct (read_profile profile) as [cfg |]; cbn [bind]; eauto.
    destruct (header cfg base_code); cbn [bind safety_checks]; eauto.
    destruct (Hk cfg) as [e ->]. cbn [bind]. eauto.
  - destruct base_code as [[| l rest] |]; reflexivity.
  - intros paths.
    destruct (generate_gcode_spec paths PNone base_code default_config [] 5 0
                eq_refl default_config_typed default_config_bed)
      as [r [head [Hr _]]].
    now exists r.
Qed.

(** * Part IV: further properties of the code *)

(** ** Paths without points *)

Lemma foldM_skip {A S : Type} (f : S -> A -> result S) (l1 l2 : list A) (a : A) (s : S) :
  (forall s', f s' a = Ok s') ->
  foldM f (l1 ++ a :: l2) s = foldM f (l1 ++ l2) s.
Proof.
  intros Ha. rewrite !foldM_app. cbn [foldM].
  destruct (foldM f l1 s) as [s' |]; cbn [bind]; [|reflexivity].
  now rewrite Ha.
Qed.

(** X2. A geometry item that yields no points (not a polyline, a curve
    that does not convert, an empty polyline) is skipped without a trace:
    the run is the run on the list without it, in every output and in
    every failure. *)
Theorem degenerate_paths_are_skipped {host : Host} (before after : list rg.Geometry)
    (pl : rg.Geometry) (profile : pyval) (base_code : option (list string)) :
  extract_points pl = [] ->
  generate_gcode (Some (before ++ pl :: after)) profile base_code
  = generate_gcode (Some (before ++ after)) profile base_code.
Proof.
  intros Hpl. unfold generate_gcode.
  destruct (read_profile profile) as [cfg |]; cbn [bind]; [|reflexivity].
  rewrite !safety_checks_fold.
  rewrite (foldM_skip (check_path cfg) before after pl)
    by (intros d; unfold check_path; now rewrite Hpl).
  destruct (foldM (check_path cfg) (before ++ after) no_diagnostics) as [diag |];
    cbn [bind]; [|reflexivity].
  destruct (header cfg base_code) as [head |]; cbn [bind]; [|reflexivity].
  unfold motion_kernel.
  destruct (params_get (params cfg) "ClearanceHeight" (PInt 5)) as [clearance |];
    cbn [bind]; [|reflexivity].
  destruct (params_get (params cfg) "FeedRate" (PInt 1500)) as [feedrate |];
    cbn [bind]; [|reflexivity].
  rewrite (foldM_skip (emit_path cfg clearance feedrate) before after pl)
    by (intros st; unfold emit_path; now rewrite Hpl).
  reflexivity.
Qed.

(** ** Preview polylines and the size of the program *)

Lemma motion_kernel_preview {host : Host} (cfg : config) (paths : list rg.Geometry)
    (kernel : kernel_state) :
  motion_kernel cfg (Some paths) = Ok kernel ->
  preview_paths kernel = filter nonempty (map extract_points paths).
Proof.
  unfold motion_kernel. intros H.
  destruct (params cfg) as [| | | | | | items |] eqn:Hp; try discriminate.
  cbn [params_get bind] in H.
  apply (emit_paths_inv cfg _ _ items Hp) in H. now subst kernel.
Qed.

Lemma filter_length_le {A : Type} (f : A -> bool) (l : list A) :
  (length (filter f l) <= length l)%nat.
Proof.
  induction l as [| a l IH]; simpl; [lia|]. destruct (f a); simpl; lia.
Qed.

(** X3. The preview polylines of a run are the point lists of the paths
    that yield points, rounded, in input order; so there are at most as
    many as geometry items, and as many exactly when no item is skipped. *)
Theorem preview_is_the_paths_with_points {host : Host} (paths : list rg.Geometry)
    (profile : pyval) (base_code : option (list string)) (r : output) :
  generate_gcode (Some paths) profile base_code = Ok r ->
  out_preview r = filter nonempty (map extract_points paths)
  /\ (length (out_preview r) <= length paths)%nat
  /\ (length (out_preview r) = length paths
      <-> Forall (fun pl => extract_points pl <> []) paths).
Proof.
  intros H. apply generate_gcode_phases in H.
  destruct H as [cfg [diag [head [kernel [_ [_ [_ [Hk ->]]]]]]]].
  cbn [out_preview]. rewrite (motion_kernel_preview _ _ _ Hk).
  split; [reflexivity|]. split.
  - rewrite <- (length_map extract_points paths). apply filter_length_le.
  - clear Hk. induction paths as [| pl paths IH]; [split; [constructor | reflexivity]|].
    cbn [map filter length].
    pose proof (filter_length_le nonempty (map extract_points paths)) as Hle.
    rewrite length_map in Hle.
    destruct (extract_points pl) as [| p0 rest] eqn:E; cbn [nonempty length].
    + split; [lia|]. intros HF. inversion HF; subst. congruence.
    + split.
      * intros Hl. constructor; [rewrite E; discriminate|]. apply IH. lia.
      * intros HF. inversion HF; subst. f_equal. now apply IH.
Qed.

Lemma steps_length {host : Host} (feedrate : pyval) (m : Q) (hot : bool)
    (rest : list Point3d) (prev : Point3d) (e : Q) :
  length (fst (steps feedrate m hot prev rest e)) = length rest.
Proof.
  revert prev e. induction rest as [| p rest IH]; intros prev e; [reflexivity|].
  cbn [steps]. destruct hot.
  - specialize (IH p (fadd e (fmul (DistanceTo prev p) m))).
    destruct (steps feedrate m true p rest _) as [ls ef]. cbn [fst length] in *. lia.
  - specialize (IH p e).
    destruct (steps feedrate m false p rest e) as [ls ef]. cbn [fst length] in *. lia.
Qed.

Lemma body_lines_length {host : Host} (feedrate : pyval) (c m : Q) (hot : bool)
    (paths : list (list Point3d)) (e : Q) :
  length (fst (body_lines feedrate c m hot paths e))
  = list_sum (map path_line_count paths).
Proof.
  revert e. induction paths as [| coords paths IH]; intros e; [reflexivity|].
  cbn [body_lines map list_sum].
  assert (Hp : length (fst (path_lines feedrate c m hot coords e)) = path_line_count coords).
  { destruct coords as [| p0 rest]; [reflexivity|]. cbn [path_lines path_line_count].
    pose proof (steps_length feedrate m hot rest p0 e) as Hs.
    destruct (steps feedrate m hot p0 rest e) as [ls ef]. cbn [fst] in *.
    rewrite !length_app. cbn [length]. lia. }
  destruct (path_lines feedrate c m hot coords e) as [l1 e1].
  specialize (IH e1). destruct (body_lines feedrate c m hot paths e1) as [l2 e2].
  cbn [fst] in *. rewrite length_app, IH, Hp. reflexivity.
Qed.

(** X4. The size of a program: the lines of the header (the override, or 3
    synthesized lines, 5 in Hot mode), [n + 4] lines for every path of
    [n > 0] points, and 4 footer lines, 6 in Hot mode. A program is never
    empty. *)
Theorem program_size {host : Host} (paths : list rg.Geometry) (profile : pyval)
    (base_code : option (list string)) (r : output) :
  generate_gcode (Some paths) profile base_code = Ok r ->
  exists cfg,
    read_profile profile = Ok cfg
    /\ length (out_gcode r)
       = (header_line_count cfg base_code
          + list_sum (map path_line_count (map extract_points paths))
          + (if eq_str (mode cfg) "Hot" then 6 else 4))%nat
    /\ (4 <= length (out_gcode r))%nat.
Proof.
  intros H. apply generate_gcode_inv in H.
  destruct H as [cfg [items [head [Hc [Hp [Hh Hg]]]]]].
  exists cfg. split; [exact Hc|].
  assert (Hhead : length head = header_line_count cfg base_code).
  { unfold header, header_line_count in *. clear Hg.
    destruct base_code as [[| l rest] |];
      try (injection Hh as <-; cbn [length]; now rewrite length_map);
      destruct (eq_str (mode cfg) "Hot");
      try rewrite Hp in Hh; cbn [params_get bind] in Hh;
      injection Hh as <-; reflexivity. }
  assert (Hfoot : length (footer cfg) = if eq_str (mode cfg) "Hot" then 6%nat else 4%nat).
  { unfold footer. destruct (eq_str (mode cfg) "Hot"); reflexivity. }
  assert (Hlen : length (out_gcode r)
                 = (header_line_count cfg base_code
                    + list_sum (map path_line_count (map extract_points paths))
                    + (if eq_str (mode cfg) "Hot" then 6 else 4))%nat).
  { rewrite Hg, !length_app, body_lines_length, Hhead, Hfoot. lia. }
  split; [exact Hlen|]. rewrite Hlen.
  destruct (eq_str (mode cfg) "Hot"); lia.
Qed.

(** ** The diagnostics of a run *)

(** X5. The bad points of a run are the points of all paths, in input
    order and with repetitions, that the bounds test of the printer type
    rejects; there is one text dot for each, in the same order, placed on
    the point and carrying its reason codes joined by a comma and a
    space. *)
Theorem bad_points_and_their_dots {host : Host} (paths : list rg.Geometry)
    (profile : pyval) (base_code : option (list string)) (r : output) :
  generate_gcode (Some paths) profile base_code = Ok r ->
  exists cfg,
    read_profile profile = Ok cfg
    /\ out_BadPts r = filter (outside cfg) (flat_map extract_points paths)
    /\ map snd (out_WarnDots r) = out_BadPts r
    /\ map fst (out_WarnDots r)
       = map (fun p => join ", " (snd (verdict cfg p))) (out_BadPts r)
    /\ Forall (fun dot => fst dot <> "") (out_WarnDots r).
Proof.
  intros H. apply generate_gcode_diagnostics in H.
  destruct H as [cfg [Hc [_ [Hp [_ Hw]]]]].
  exists cfg. split; [exact Hc|]. split; [exact Hp|].
  rewrite Hw, !map_map. cbn [warning fst snd]. split; [apply map_id|].
  split; [reflexivity|].
  rewrite Hp. apply Forall_map, Forall_forall. intros p Hin.
  apply filter_In in Hin. destruct Hin as [_ Hout].
  unfold warning, outside, verdict, in_bounds_delta, in_bounds_cart in *. cbn [fst snd] in *.
  destruct (eq_str (printer_type cfg) "Delta"); cbn [fst snd] in *.
  - destruct (reason_if _ "r>BedRadius" ++ reason_if _ "Z<0" ++ reason_if _ "Z>BedZ")
      as [| s1 rs] eqn:E; [discriminate|].
    unfold reason_if in E.
    repeat match type of E with
           | context [if ?b then _ else _] => destruct b
           end; cbn [app] in E; try discriminate E; injection E as <- <-;
      simpl; discriminate.
  - destruct (reason_if _ "X<0" ++ _) as [| s1 rs] eqn:E; [discriminate|].
    unfold reason_if in E.
    repeat match type of E with
           | context [if ?b then _ else _] => destruct b
           end; cbn [app] in E; try discriminate E; injection E as <- <-;
      simpl; discriminate.
Qed.

(** X6. The bad segments of a run are the pairs of consecutive points
    within one path, in input order, one of whose tested points is out of
    bounds: an end point, or on a Delta printer the midpoint. No segment
    joins two paths. On a printer that is not a Delta printer a run
    without bad points has no bad segments. *)
Theorem bad_segments_fail_a_tested_point {host : Host} (paths : list rg.Geometry)
    (profile : pyval) (base_code : option (list string)) (r : output) :
  generate_gcode (Some paths) profile base_code = Ok r ->
  exists cfg,
    read_profile profile = Ok cfg
    /\ out_BadSegs r
       = filter (fun ab => existsb (outside cfg) (segment_checks cfg (fst ab) (snd ab)))
                (flat_map (fun pl => segments (extract_points pl)) paths)
    /\ (eq_str (printer_type cfg) "Delta" = false ->
        out_BadPts r = [] -> out_BadSegs r = []).
Proof.
  intros H. apply generate_gcode_diagnostics in H.
  destruct H as [cfg [Hc [_ [Hp [Hs _]]]]].
  exists cfg. split; [exact Hc|]. split; [exact Hs|].
  intros Hcart Hnone. rewrite Hs. rewrite Hp in Hnone.
  apply (filter_none (bad_segment cfg)). apply Forall_forall.
  intros [a b] Hin. apply in_flat_map in Hin. destruct Hin as [pl [Hpl Hin]].
  apply segments_ends in Hin. destruct Hin as [Ha Hb].
  assert (Hall : forall p, In p (extract_points pl) -> outside cfg p = false).
  { intros p Hin. destruct (outside cfg p) eqn:E; [|reflexivity].
    assert (Hf : In p (filter (outside cfg) (flat_map extract_points paths))).
    { apply filter_In. split; [|exact E]. apply in_flat_map. eauto. }
    rewrite Hnone in Hf. destruct Hf. }
  unfold bad_segment, segment_checks. cbn [fst snd]. rewrite Hcart. cbn [existsb].
  now rewrite (Hall a Ha), (Hall b Hb).
Qed.

(** ** The parameters a run reads *)

Lemma foldM_ext {A S : Type} (f g : S -> A -> result S) (l : list A) (s : S) :
  (forall s' a, f s' a = g s' a) -> foldM f l s = foldM g l s.
Proof.
  intros Hfg. revert s. induction l as [| a l IH]; intros s; [reflexivity|].
  cbn [foldM]. rewrite Hfg. destruct (g s a); cbn [bind]; [apply IH | reflexivity].
Qed.

Lemma get_agree (items items' : list (string * pyval)) (key : string) (d : pyval) :
  lookup key items = lookup key items' -> get items key d = get items' key d.
Proof. unfold get. now intros ->. Qed.

(** The three phases of a run look at the parameters through these keys
    only. *)
Lemma phases_params_agree {host : Host} (m t : pyval) (items items' : list (string * pyval))
    (bx by_ bz rad : pyval) (shape : bed) (paths : list rg.Geometry)
    (base_code : option (list string)) :
  (forall key, In key (keys_read (mkConfig m t (PDict items) bx by_ bz rad shape)) ->
               lookup key items = lookup key items') ->
  safety_checks (mkConfig m t (PDict items) bx by_ bz rad shape) (Some paths)
  = safety_checks (mkConfig m t (PDict items') bx by_ bz rad shape) (Some paths)
  /\ header (mkConfig m t (PDict items) bx by_ bz rad shape) base_code
     = header (mkConfig m t (PDict items') bx by_ bz rad shape) base_code
  /\ motion_kernel (mkConfig m t (PDict items) bx by_ bz rad shape) (Some paths)
     = motion_kernel (mkConfig m t (PDict items') bx by_ bz rad shape) (Some paths).
Proof.
  intros Hkeys. unfold keys_read in Hkeys. cbn [mode] in Hkeys.
  assert (Hclr : get items "ClearanceHeight" (PInt 5) = get items' "ClearanceHeight" (PInt 5)).
  { apply get_agree, Hkeys. destruct (eq_str m "Hot"); simpl; tauto. }
  assert (Hfr : get items "FeedRate" (PInt 1500) = get items' "FeedRate" (PInt 1500)).
  { apply get_agree, Hkeys. destruct (eq_str m "Hot"); simpl; tauto. }
  split; [|split].
  - rewrite !safety_checks_fold. apply foldM_ext. intros d pl.
    unfold check_path. destruct (extract_points pl) as [| p0 rest]; reflexivity.
  - unfold header. cbn [mode params params_get].
    destruct base_code as [[| l code] |]; try reflexivity;
      destruct (eq_str m "Hot"); try reflexivity;
      rewrite (get_agree items items' "NozzleTemp") by (apply Hkeys; simpl; tauto);
      rewrite (get_agree items items' "BedTemp") by (apply Hkeys; simpl; tauto);
      reflexivity.
  - unfold motion_kernel. cbn [params params_get bind]. rewrite Hclr, Hfr.
    apply foldM_ext. intros st pl. unfold emit_path.
    destruct (extract_points pl) as [| p0 rest]; [reflexivity|].
    apply foldM_ext. intros st' [j q]. unfold emit_point. cbn [mode params params_get].
    destruct (Nat.eqb j 0); [reflexivity|].
    destruct (eq_str m "Hot"); [|reflexivity].
    rewrite (get_agree items items' "ExtrusionMultiplier") by (apply Hkeys; simpl; tauto).
    reflexivity.
Qed.

Lemma generate_gcode_params_agree {host : Host} (paths : list rg.Geometry)
    (profile profile' : pyval) (base_code : option (list string))
    (cfg cfg' : config) (items items' : list (string * pyval)) :
  read_profile profile = Ok cfg ->
  read_profile profile' = Ok cfg' ->
  same_machine cfg cfg' ->
  params cfg = PDict items ->
  params cfg' = PDict items' ->
  Forall (fun key => lookup key items = lookup key items') (keys_read cfg) ->
  generate_gcode (Some paths) profile base_code
  = generate_gcode (Some paths) profile' base_code.
Proof.
  intros Hc Hc' Hsame Hp Hp' Hkeys. unfold generate_gcode. rewrite Hc, Hc'. cbn [bind].
  destruct cfg as [m t p bx by_ bz rad shape].
  destruct cfg' as [m' t' p' bx' by_' bz' rad' shape'].
  unfold same_machine in Hsame. cbn in Hsame, Hp, Hp'.
  destruct Hsame as [<- [<- [<- [<- [<- [<- <-]]]]]]. subst p p'.
  rewrite Forall_forall in Hkeys.
  destruct (phases_params_agree m t items items' bx by_ bz rad shape paths base_code Hkeys)
    as [Hchecks [Hhead Hkernel]].
  rewrite Hchecks, Hhead, Hkernel. reflexivity.
Qed.

(** X7. A run reads the parameter mapping through five keys only, and
    outside Hot mode through [ClearanceHeight] and [FeedRate] only: two
    profiles for the same machine whose parameters agree on these keys give
    the same run, in every output and in every failure. Whatever else the
    mapping holds (the pressure, flow and pauses of a paste profile, the
    pen heights of a pen profile) has no effect. *)
Theorem only_five_parameters_are_read {host : Host} (paths : list rg.Geometry)
    (profile profile' : pyval) (base_code : option (list string))
    (cfg cfg' : config) (items items' : list (string * pyval)) :
  read_profile profile = Ok cfg ->
  read_profile profile' = Ok cfg' ->
  same_machine cfg cfg' ->
  params cfg = PDict items ->
  params cfg' = PDict items' ->
  (forall key, In key (keys_read cfg) -> lookup key items = lookup key items') ->
  generate_gcode (Some paths) profile base_code
  = generate_gcode (Some paths) profile' base_code.
Proof.
  intros Hc Hc' Hsame Hp Hp' Hkeys. unfold generate_gcode. rewrite Hc, Hc'. cbn [bind].
  destruct cfg as [m t p bx by_ bz rad shape].
  destruct cfg' as [m' t' p' bx' by_' bz' rad' shape'].
  unfold same_machine in Hsame. cbn in Hsame, Hp, Hp'.
  destruct Hsame as [<- [<- [<- [<- [<- [<- <-]]]]]]. subst p p'.
  destruct (phases_params_agree m t items items' bx by_ bz rad shape paths base_code Hkeys)
    as [Hchecks [Hhead Hkernel]].
  rewrite Hchecks, Hhead, Hkernel. reflexivity.
Qed.

(** ** Heaters *)

Lemma steps_no_heater {host : Host} (feedrate : pyval) (m : Q) (hot : bool)
    (rest : list Point3d) (prev : Point3d) (e : Q) :
  filter heater (fst (steps feedrate m hot prev rest e)) = [].
Proof.
  revert prev e. induction rest as [| p rest IH]; intros prev e; [reflexivity|].
  cbn [steps]. destruct hot.
  - specialize (IH p (fadd e (fmul (DistanceTo prev p) m))).
    destruct (steps feedrate m true p rest _) as [ls ef]. cbn [fst] in *.
    change (filter heater (extrude_to feedrate p (fadd e (fmul (DistanceTo prev p) m)) :: ls))
      with (filter heater ls). exact IH.
  - specialize (IH p e).
    destruct (steps feedrate m false p rest e) as [ls ef]. cbn [fst] in *.
    change (filter heater (move_to feedrate p :: ls)) with (filter heater ls). exact IH.
Qed.

Lemma body_no_heater {host : Host} (feedrate : pyval) (c m : Q) (hot : bool)
    (paths : list (list Point3d)) (e : Q) :
  filter heater (fst (body_lines feedrate c m hot paths e)) = [].
Proof.
  revert e. induction paths as [| coords paths IH]; intros e; [reflexivity|].
  cbn [body_lines].
  assert (Hp : filter heater (fst (path_lines feedrate c m hot coords e)) = []).
  { destruct coords as [| p0 rest]; [reflexivity|]. cbn [path_lines].
    pose proof (steps_no_heater feedrate m hot rest p0 e) as Hs.
    destruct (steps feedrate m hot p0 rest e) as [ls ef]. cbn [fst] in *.
    rewrite !filter_app, Hs. reflexivity. }
  destruct (path_lines feedrate c m hot coords e) as [l1 e1].
  specialize (IH e1). destruct (body_lines feedrate c m hot paths e1) as [l2 e2].
  cbn [fst] in *. now rewrite filter_app, Hp, IH.
Qed.

(** X8. The heaters are addressed in Hot mode only, and never by the
    motion kernel: after the header a Hot program holds exactly the two
    instructions that turn them off, any other program none. The
    synthesized header of a Hot program sets the two temperatures, to the
    parameters [NozzleTemp] and [BedTemp] or else to 210 and 30; with an
    override header the generator sets no temperature at all. *)
Theorem heaters_only_in_hot_mode {host : Host} (paths : list rg.Geometry)
    (profile : pyval) (base_code : option (list string)) (r : output) :
  generate_gcode (Some paths) profile base_code = Ok r ->
  exists cfg items head rest,
    read_profile profile = Ok cfg
    /\ params cfg = PDict items
    /\ header cfg base_code = Ok head
    /\ out_gcode r = head ++ rest
    /\ filter heater rest = (if eq_str (mode cfg) "Hot" then heaters_off else [])
    /\ (synthesized base_code ->
        filter heater head
        = if eq_str (mode cfg) "Hot"
          then set_temperatures (get items "NozzleTemp" (PInt 210))
                                (get items "BedTemp" (PInt 30))
          else [])
    /\ (~ synthesized base_code -> exists code, base_code = Some code /\ head = map text code).
Proof.
  intros H. apply generate_gcode_inv in H.
  destruct H as [cfg [items [head [Hc [Hp [Hh Hg]]]]]].
  exists cfg, items, head. eexists. split; [exact Hc|]. split; [exact Hp|].
  split; [exact Hh|]. split; [exact Hg|]. split; [|split].
  - rewrite filter_app, body_no_heater. unfold footer.
    destruct (eq_str (mode cfg) "Hot"); reflexivity.
  - intros Hs.
    assert (H' : header cfg None = Ok head) by (destruct Hs as [-> | ->]; exact Hh).
    unfold header in H'. rewrite Hp in H'. cbn [params_get bind] in H'.
    destruct (eq_str (mode cfg) "Hot"); cbn [bind] in H'; injection H' as <-; reflexivity.
  - intros Hs. unfold synthesized in Hs. unfold header in Hh.
    destruct base_code as [[| l code] |]; try tauto.
    exists (l :: code). split; [reflexivity|]. now injection Hh as <-.
Qed.

(** ** Beds of different sizes *)


(** ** The two encodings of a profile *)

(** X10. The dictionary format and the list format carry the same
    information: a dictionary that holds all eight entries, none of the
    bed sizes and not the bed shape being [None], is read as the list of
    these entries in the order
    [Mode, PrinterType, Params, BedX, BedY, BedZ, BedRadius, BedShape]. *)
Theorem dict_and_list_profiles_agree {host : Host} (items : list (string * pyval))
    (m t : pyval) (ps : list (string * pyval)) (bx by_ bz rad shape : pyval) :
  lookup "Mode" items = Some m ->
  lookup "PrinterType" items = Some t ->
  lookup "Params" items = Some (PDict ps) ->
  lookup "BedX" items = Some bx ->
  lookup "BedY" items = Some by_ ->
  lookup "BedZ" items = Some bz ->
  lookup "BedRadius" items = Some rad ->
  lookup "BedShape" items = Some shape ->
  is_None bx = false -> is_None by_ = false -> is_None bz = false ->
  is_None rad = false -> is_None shape = false ->
  read_profile (PDict items) = read_profile (PList [m; t; PDict ps; bx; by_; bz; rad; shape]).
Proof.
  intros Hm Ht Hps Hbx Hby Hbz Hrad Hshape Nbx Nby Nbz Nrad Nshape.
  unfold read_profile, decode_string.
  destruct items as [| kv items]; [discriminate|].
  cbn [truthy length Nat.eqb negb]. remember (kv :: items) as d eqn:Ed.
  unfold config_of_dict, config_of_list, get, item_or.
  rewrite Hm, Ht, Hps, Hbx, Hby, Hbz, Hrad, Hshape.
  cbn [nth nth_error is_dict]. rewrite Nbx, Nby, Nbz, Nrad, Nshape.
  destruct (eq_str t "Delta"); reflexivity.
Qed.

(** ** The builders and the generator *)

Section BuilderProofs.

Context {host : Host} {runtime : Runtime}.

(** The list a builder returns is read back as the configuration it
    stands for. *)
Lemma profile_list_built (mode : string) (t : pyval) (items : list (string * pyval))
    (bx by_ bz radius profile : pyval) :
  profile_list mode t (PDict items) bx by_ bz radius = Some profile ->
  exists cfg,
    built mode t items bx by_ bz radius = Some cfg /\ read_profile profile = Ok cfg.
Proof.
  unfold profile_list, built. destruct (eq_str t "Delta").
  - destruct (float_ radius) as [r |]; [|discriminate].
    destruct (float_ bz) as [z |]; [|discriminate].
    intros H. injection H as <-. eexists. split; reflexivity.
  - destruct (float_ bx) as [x |]; [|discriminate].
    destruct (float_ by_) as [y |]; [|discriminate].
    destruct (float_ bz) as [z |]; [|discriminate].
    intros H. injection H as <-. eexists. split; reflexivity.
Qed.

Lemma built_profile_list (mode : string) (t : pyval) (items items' : list (string * pyval))
    (bx by_ bz radius : pyval) (cfg : config) :
  built mode t items bx by_ bz radius = Some cfg ->
  exists profile' cfg',
    profile_list mode t (PDict items') bx by_ bz radius = Some profile'
    /\ read_profile profile' = Ok cfg'
    /\ same_machine cfg cfg'
    /\ params cfg' = PDict items'.
Proof.
  unfold profile_list, built, same_machine. destruct (eq_str t "Delta").
  - destruct (float_ radius) as [r |]; [|discriminate].
    destruct (float_ bz) as [z |]; [|discriminate].
    intros H. injection H as <-. eexists. eexists.
    split; [reflexivity|]. split; [reflexivity|]. cbn. auto 10.
  - destruct (float_ bx) as [x |]; [|discriminate].
    destruct (float_ by_) as [y |]; [|discriminate].
    destruct (float_ bz) as [z |]; [|discriminate].
    intros H. injection H as <-. eexists. eexists.
    split; [reflexivity|]. split; [reflexivity|]. cbn. auto 10.
Qed.

Lemma built_facts (name : string) (t : pyval) (items : list (string * pyval))
    (bx by_ bz radius : pyval) (cfg : config) :
  built name t items bx by_ bz radius = Some cfg ->
  mode cfg = PStr name /\ params cfg = PDict items /\ bed_numeric cfg.
Proof.
  unfold built, bed_numeric. destruct (eq_str t "Delta").
  - destruct (float_ radius) as [r |]; [|discriminate].
    destruct (float_ bz) as [z |]; [|discriminate].
    intros H. injection H as <-. cbn. eauto 10.
  - destruct (float_ bx) as [x |]; [|discriminate].
    destruct (float_ by_) as [y |]; [|discriminate].
    destruct (float_ bz) as [z |]; [|discriminate].
    intros H. injection H as <-. cbn. eauto 10.
Qed.

(** A run on a builder's profile, once the clearance and, in Hot mode, the
    multiplier are numbers. *)
Lemma built_runs (mode : string) (t : pyval) (items : list (string * pyval))
    (bx by_ bz radius profile : pyval) (cfg : config) (c m : Q)
    (paths : list rg.Geometry) (base_code : option (list string)) :
  built mode t items bx by_ bz radius = Some cfg ->
  read_profile profile = Ok cfg ->
  as_num (get items "ClearanceHeight" (PInt 5)) = Ok c ->
  (String.eqb mode "Hot" = true ->
   as_num (get items "ExtrusionMultiplier" (PFloat float_0_2)) = Ok m) ->
  exists r head,
    generate_gcode (Some paths) profile base_code = Ok r
    /\ header cfg base_code = Ok head
    /\ out_gcode r
       = head
           ++ fst (body_lines (get items "FeedRate" (PInt 1500)) c m
                              (String.eqb mode "Hot") (map extract_points paths) 0)
           ++ footer cfg.
Proof.
  intros Hb Hc Hclr Hm. destruct (built_facts _ _ _ _ _ _ _ _ Hb) as [Hmode [Hp Hbed]].
  assert (Ht : typed_params cfg items c m).
  { split; [exact Hp|]. split; [exact Hclr|]. rewrite Hmode. exact Hm. }
  destruct (generate_gcode_spec paths profile base_code cfg items c m Hc Ht Hbed)
    as [r [head [Hr [Hh Hg]]]].
  exists r, head. split; [exact Hr|]. split; [exact Hh|].
  rewrite Hg, Hmode. reflexivity.
Qed.

(** What the other parameters of a builder are has no effect on the run. *)
Lemma built_run_agrees (mode : string) (t : pyval) (items items' : list (string * pyval))
    (bx by_ bz radius profile : pyval) (cfg : config)
    (paths : list rg.Geometry) (base_code : option (list string)) :
  built mode t items bx by_ bz radius = Some cfg ->
  read_profile profile = Ok cfg ->
  (forall key, In key (keys_read cfg) -> lookup key items = lookup key items') ->
  exists profile',
    profile_list mode t (PDict items') bx by_ bz radius = Some profile'
    /\ generate_gcode (Some paths) profile' base_code
       = generate_gcode (Some paths) profile base_code.
Proof.
  intros Hb Hc Hkeys.
  destruct (built_profile_list mode t items items' bx by_ bz radius cfg Hb)
    as [profile' [cfg' [Hl [Hc' [Hsame Hp']]]]].
  destruct (built_facts _ _ _ _ _ _ _ _ Hb) as [_ [Hp _]].
  exists profile'. split; [exact Hl|]. symmetry.
  apply (generate_gcode_params_agree paths profile profile' base_code cfg cfg' items items'
           Hc Hc' Hsame Hp Hp').
  apply Forall_forall. exact Hkeys.
Qed.

End BuilderProofs.

Lemma body_quiet {host : Host} (feedrate : pyval) (c m : Q)
    (paths : list (list Point3d)) (e : Q) :
  extrusions (fst (body_lines feedrate c m false paths e)) = [].
Proof.
  revert e. induction paths as [| coords paths IH]; intros e; [reflexivity|].
  cbn [body_lines].
  assert (Hp : extrusions (fst (path_lines feedrate c m false coords e)) = []).
  { destruct coords as [| p0 rest]; [reflexivity|]. cbn [path_lines].
    assert (Hs : forall prev, extrusions (fst (steps feedrate m false prev rest e)) = []).
    { induction rest as [| q rest IHr]; intros prev; [reflexivity|].
      cbn [steps]. specialize (IHr q).
      destruct (steps feedrate m false q rest e) as [ls ef]. cbn [fst] in *.
      exact IHr. }
    specialize (Hs p0). destruct (steps feedrate m false p0 rest e) as [ls ef].
    cbn [fst] in *. rewrite !extrusions_app, Hs. reflexivity. }
  destruct (path_lines feedrate c m false coords e) as [l1 e1].
  specialize (IH e1). destruct (body_lines feedrate c m false paths e1) as [l2 e2].
  cbn [fst] in *. now rewrite extrusions_app, Hp, IH.
Qed.

(** X11. A profile made by [make_pen_profile] always runs: the generator
    reads it back as the configuration the builder stands for and returns
    on every list of paths. Every move is made at the builder's feed rate
    (the argument, or else 1000: the generator's own fallback of 1500 is
    never used), the approach and the lift stand 5 above the path whatever
    the pen-up height is, and the pen heights and the delay have no effect
    on the run at all. *)
Theorem pen_profile_runs {host : Host} {runtime : Runtime}
    (t bx by_ bz radius up down delay fr profile : pyval)
    (paths : list rg.Geometry) (base_code : option (list string)) :
  make_pen_profile t bx by_ bz radius up down delay fr = Some profile ->
  exists cfg r head rest,
    built "Pen" t (pen_params up down delay fr)
          (or_default bx (PInt 300)) (or_default by_ (PInt 300))
          (or_default bz (PInt 300)) (or_default radius (PInt 150)) = Some cfg
    /\ read_profile profile = Ok cfg
    /\ generate_gcode (Some paths) profile base_code = Ok r
    /\ header cfg base_code = Ok head
    /\ out_gcode r = head ++ rest
    /\ feeds rest = map (fun _ => or_default fr (PInt 1000)) (concat (map extract_points paths))
    /\ targets rest = flat_map (expected_targets 5) (map extract_points paths)
    /\ forall up' down' delay',
        exists profile',
          make_pen_profile t bx by_ bz radius up' down' delay' fr = Some profile'
          /\ generate_gcode (Some paths) profile' base_code = Ok r.
Proof.
  unfold make_pen_profile. intros H.
  change (PDict _) with (PDict (pen_params up down delay fr)) in H.
  destruct (profile_list_built _ _ _ _ _ _ _ _ H) as [cfg [Hb Hc]].
  destruct (built_runs "Pen" t _ _ _ _ _ profile cfg 5 0 paths base_code Hb Hc
              eq_refl (fun E => False_ind _ (Bool.diff_false_true E)))
    as [r [head [Hr [Hh Hg]]]].
  exists cfg, r, head. eexists.
  split; [exact Hb|]. split; [exact Hc|]. split; [exact Hr|]. split; [exact Hh|].
  split; [exact Hg|].
  destruct (footer_quiet cfg) as [Ht2 [_ [_ Hf2]]].
  rewrite !targets_app, !feeds_app, Ht2, Hf2, body_targets, body_feeds, !app_nil_r.
  split; [reflexivity|]. split; [reflexivity|].
  intros up' down' delay'.
  destruct (built_run_agrees "Pen" t (pen_params up down delay fr)
              (pen_params up' down' delay' fr) _ _ _ _ profile cfg paths base_code Hb Hc)
    as [profile' [Hl Hrun]].
  { destruct (built_facts _ _ _ _ _ _ _ _ Hb) as [Hmode _].
    unfold keys_read. rewrite Hmode. intros key [<- | [<- | []]]; reflexivity. }
  exists profile'. split; [exact Hl|]. now rewrite Hrun.
Qed.

(** X12. A profile made by [make_clay_profile] runs whenever the
    clearance handed to the builder is absent or a number: the generator
    returns on every list of paths, every move is made at the builder's
    feed rate (the argument, or else 800), the approach and the lift stand
    the builder's clearance (the argument, or else 5) above the path, no
    instruction after the header extrudes, and the pressure, the flow
    rate, the retraction delay and the cure pause have no effect on the
    run at all. *)
Theorem clay_profile_runs {host : Host} {runtime : Runtime}
    (t bx by_ bz radius pressure flow retract cure fr clr profile : pyval) (c : Q)
    (paths : list rg.Geometry) (base_code : option (list string)) :
  make_clay_profile t bx by_ bz radius pressure flow retract cure fr clr = Some profile ->
  as_num (or_default clr (PInt 5)) = Ok c ->
  exists cfg r head rest,
    built "Clay" t (clay_params pressure flow retract cure fr clr)
          (or_default bx (PInt 300)) (or_default by_ (PInt 300))
          (or_default bz (PInt 300)) (or_default radius (PInt 150)) = Some cfg
    /\ read_profile profile = Ok cfg
    /\ generate_gcode (Some paths) profile base_code = Ok r
    /\ header cfg base_code = Ok head
    /\ out_gcode r = head ++ rest
    /\ feeds rest = map (fun _ => or_default fr (PInt 800)) (concat (map extract_points paths))
    /\ targets rest = flat_map (expected_targets c) (map extract_points paths)
    /\ extrusions rest = []
    /\ forall pressure' flow' retract' cure',
        exists profile',
          make_clay_profile t bx by_ bz radius pressure' flow' retract' cure' fr clr
          = Some profile'
          /\ generate_gcode (Some paths) profile' base_code = Ok r.
Proof.
  unfold make_clay_profile. intros H Hclr.
  change (PDict _) with (PDict (clay_params pressure flow retract cure fr clr)) in H.
  destruct (profile_list_built _ _ _ _ _ _ _ _ H) as [cfg [Hb Hc]].
  destruct (built_runs "Clay" t _ _ _ _ _ profile cfg c 0 paths base_code Hb Hc
              Hclr (fun E => False_ind _ (Bool.diff_false_true E)))
    as [r [head [Hr [Hh Hg]]]].
  exists cfg, r, head. eexists.
  split; [exact Hb|]. split; [exact Hc|]. split; [exact Hr|]. split; [exact Hh|].
  split; [exact Hg|].
  destruct (footer_quiet cfg) as [Ht2 [_ [He2 Hf2]]].
  rewrite !targets_app, !feeds_app, !extrusions_app, Ht2, Hf2, He2,
    body_targets, body_feeds, !app_nil_r.
  split; [reflexivity|]. split; [reflexivity|]. split.
  - apply body_quiet.
  - intros pressure' flow' retract' cure'.
    destruct (built_run_agrees "Clay" t (clay_params pressure flow retract cure fr clr)
                (clay_params pressure' flow' retract' cure' fr clr) _ _ _ _ profile cfg
                paths base_code Hb Hc)
      as [profile' [Hl Hrun]].
    { destruct (built_facts _ _ _ _ _ _ _ _ Hb) as [Hmode _].
      unfold keys_read. rewrite Hmode. intros key [<- | [<- | []]]; reflexivity. }
    exists profile'. split; [exact Hl|]. now rewrite Hrun.
Qed.

(** X13. A profile made by [make_hot_profile] runs whenever the clearance
    and the extrusion multiplier handed to the builder are absent or
    numbers: the generator returns on every list of paths, the synthesized
    header sets the builder's temperatures (the arguments, or else 210 and
    30), every move is made at the builder's feed rate (the argument, or
    else 1500), the approach and the lift stand the builder's clearance
    above the path, and the extrusion values are the running sums of the
    segment lengths times the builder's multiplier (the argument, or else
    0.2), added up as the code adds them. *)
Theorem hot_profile_runs {host : Host} {runtime : Runtime}
    (t bx by_ bz radius nozzle bed_ mult fr clr profile : pyval) (c m : Q)
    (paths : list rg.Geometry) (base_code : option (list string)) :
  make_hot_profile t bx by_ bz radius nozzle bed_ mult fr clr = Some profile ->
  as_num (or_default clr (PInt 5)) = Ok c ->
  as_num (or_default mult (PFloat float_0_2)) = Ok m ->
  exists cfg r head rest,
    built "Hot" t (hot_params nozzle bed_ mult fr clr)
          (or_default bx (PInt 300)) (or_default by_ (PInt 300))
          (or_default bz (PInt 300)) (or_default radius (PInt 150)) = Some cfg
    /\ read_profile profile = Ok cfg
    /\ generate_gcode (Some paths) profile base_code = Ok r
    /\ header cfg base_code = Ok head
    /\ out_gcode r = head ++ rest
    /\ (synthesized base_code ->
        filter heater head
        = set_temperatures (or_default nozzle (PInt 210)) (or_default bed_ (PInt 30)))
    /\ feeds rest = map (fun _ => or_default fr (PInt 1500)) (concat (map extract_points paths))
    /\ targets rest = flat_map (expected_targets c) (map extract_points paths)
    /\ extrusions rest
       = running 0 (map (fun d => fmul d m)
                        (flat_map segment_lengths (map extract_points paths))).
Proof.
  unfold make_hot_profile. intros H Hclr Hmult.
  change (PDict _) with (PDict (hot_params nozzle bed_ mult fr clr)) in H.
  destruct (profile_list_built _ _ _ _ _ _ _ _ H) as [cfg [Hb Hc]].
  destruct (built_runs "Hot" t _ _ _ _ _ profile cfg c m paths base_code Hb Hc
              Hclr (fun _ => Hmult))
    as [r [head [Hr [Hh Hg]]]].
  destruct (built_facts _ _ _ _ _ _ _ _ Hb) as [Hmode [Hp _]].
  exists cfg, r, head. eexists.
  split; [exact Hb|]. split; [exact Hc|]. split; [exact Hr|]. split; [exact Hh|].
  split; [exact Hg|]. split.
  - intros Hs.
    assert (H' : header cfg None = Ok head) by (destruct Hs as [-> | ->]; exact Hh).
    unfold header in H'. rewrite Hmode, Hp in H'. cbn in H'. injection H' as <-. reflexivity.
  - destruct (footer_quiet cfg) as [Ht2 [_ [He2 Hf2]]].
    rewrite !targets_app, !feeds_app, !extrusions_app, Ht2, Hf2, He2,
      body_targets, body_feeds, !app_nil_r.
    split; [reflexivity|]. split; [reflexivity|].
    change (String.eqb "Hot" "Hot") with true.
    now rewrite body_extrusions, increments_flat_map.
Qed.

(** ** The toggles of the builder scripts *)

Lemma profile_list_type {runtime : Runtime} (name : string) (t params : pyval)
    (bx by_ bz radius profile : pyval) :
  profile_list name t params bx by_ bz radius = Some profile ->
  exists items,
    profile = PList items
    /\ length items = 8%nat
    /\ nth 0 items PNone = PStr name
    /\ nth 1 items PNone = PStr (if eq_str t "Delta" then "Delta" else "Cartesian").
Proof.
  unfold profile_list. destruct (eq_str t "Delta").
  - destruct (float_ radius) as [r |]; [|discriminate].
    destruct (float_ bz) as [z |]; [|discriminate].
    intros H. injection H as <-. eexists. repeat split; reflexivity.
  - destruct (float_ bx) as [x |]; [|discriminate].
    destruct (float_ by_) as [y |]; [|discriminate].
    destruct (float_ bz) as [z |]; [|discriminate].
    intros H. injection H as <-. eexists. repeat split; reflexivity.
Qed.

Lemma toggle_Delta (P : pyval) :
  eq_str (toggle P) "Delta" = eq_int P 1 || eq_str P "Delta".
Proof.
  unfold toggle. destruct (eq_int P 1) eqn:E1; [reflexivity|].
  destruct (eq_int P 0) eqn:E0; [|reflexivity].
  destruct P; try discriminate; reflexivity.
Qed.

(** X14. The printer type a builder script settles on. The Hot and the
    Clay script make a Delta profile exactly when the toggle equals 1 or
    is the string "Delta", and a Cartesian profile on every other value.
    The Pen script converts the toggle with [int] first: it makes a Delta
    profile exactly when the integer is 1, and it fails on a toggle that
    is missing or that is a string which is no integer, "Delta" and
    "Cartesian" included. *)
Theorem printer_type_toggles {runtime : Runtime} :
  (forall P bx by_ bz radius nozzle bed_ mult fr clr profile,
     PrinterSetupHot P bx by_ bz radius nozzle bed_ mult fr clr = Some profile ->
     exists items,
       profile = PList items
       /\ nth 0 items PNone = PStr "Hot"
       /\ nth 1 items PNone
          = PStr (if eq_int P 1 || eq_str P "Delta" then "Delta" else "Cartesian"))
  /\ (forall P bx by_ bz radius pressure flow retract cure fr clr profile,
        PrinterSetupClay P bx by_ bz radius pressure flow retract cure fr clr = Some profile ->
        exists items,
          profile = PList items
          /\ nth 0 items PNone = PStr "Clay"
          /\ nth 1 items PNone
             = PStr (if eq_int P 1 || eq_str P "Delta" then "Delta" else "Cartesian"))
  /\ (forall P bx by_ bz radius up down delay fr profile,
        PrinterSetupPen P bx by_ bz radius up down delay fr = Some profile ->
        exists n items,
          int_ P = Some n
          /\ profile = PList items
          /\ nth 0 items PNone = PStr "Pen"
          /\ nth 1 items PNone = PStr (if Z.eqb n 1 then "Delta" else "Cartesian"))
  /\ (forall s bx by_ bz radius up down delay fr,
        int_of_string s = None ->
        PrinterSetupPen (PStr s) bx by_ bz radius up down delay fr = None)
  /\ (forall bx by_ bz radius up down delay fr,
        PrinterSetupPen PNone bx by_ bz radius up down delay fr = None).
Proof.
  split; [|split; [|split; [|split]]].
  - intros P bx by_ bz radius nozzle bed_ mult fr clr profile H.
    unfold PrinterSetupHot, make_hot_profile in H.
    apply profile_list_type in H. destruct H as [items [-> [_ [H0 H1]]]].
    exists items. rewrite <- toggle_Delta. auto.
  - intros P bx by_ bz radius pressure flow retract cure fr clr profile H.
    unfold PrinterSetupClay, make_clay_profile in H.
    apply profile_list_type in H. destruct H as [items [-> [_ [H0 H1]]]].
    exists items. rewrite <- toggle_Delta. auto.
  - intros P bx by_ bz radius up down delay fr profile H.
    unfold PrinterSetupPen in H. destruct (int_ P) as [n |]; [|discriminate].
    unfold make_pen_profile in H.
    apply profile_list_type in H. destruct H as [items [-> [_ [H0 H1]]]].
    exists n, items. rewrite toggle_Delta in H1. cbn [eq_int eq_str orb] in H1.
    rewrite orb_false_r in H1. auto.
  - intros s bx by_ bz radius up down delay fr Hs.
    unfold PrinterSetupPen. cbn [int_]. now rewrite Hs.
  - reflexivity.
Qed.

(** ** The generator script *)

(** X15. The script around the generator fails exactly when the generator
    does, a file that cannot be written included. When it returns, the
    generator was given a list of paths, the program is not empty, so the
    preview text is never the "No G-code generated" notice: it is the
    first 30 lines at most, and the total; there are no more preview
    polylines than geometry items; and the file path has no effect on any
    output but the report. *)
Theorem generator_script {host : Host} {runtime : Runtime}
    (Geometry : option (list rg.Geometry)) (Profile : pyval)
    (BaseCode : option (list string)) (FilePath : option string) :
  (forall e, GcodeGenerator Geometry Profile BaseCode FilePath = Raise e
             <-> generate_gcode Geometry Profile BaseCode = Raise e)
  /\ (forall p, GcodeGenerator Geometry Profile BaseCode FilePath = Ok p ->
        (exists paths, Geometry = Some paths /\ (length (Preview p) <= length paths)%nat)
        /\ Gcode p <> []
        /\ PreviewText p
           = (join newline (map render (firstn 30 (Gcode p)))
                ++ newline ++ "... (" ++ str_nat (length (Gcode p)) ++ " lines total)")%string
        /\ forall FilePath',
            exists p',
              GcodeGenerator Geometry Profile BaseCode FilePath' = Ok p'
              /\ Gcode p' = Gcode p /\ PreviewText p' = PreviewText p
              /\ Preview p' = Preview p /\ panel_Bed p' = panel_Bed p
              /\ panel_BadPts p' = panel_BadPts p /\ panel_BadSegs p' = panel_BadSegs p
              /\ panel_WarnDots p' = panel_WarnDots p).
Proof.
  unfold GcodeGenerator. split.
  - intros e. destruct (generate_gcode Geometry Profile BaseCode) as [r | e'];
      cbn [bind]; split; intros H; try discriminate; injection H as ->; reflexivity.
  - intros p H. apply bind_Ok in H. destruct H as [r [Hr H]]. rewrite Hr. cbn [bind].
    injection H as <-. cbn [Gcode PreviewText Preview panel_Bed panel_BadPts
                             panel_BadSegs panel_WarnDots].
    destruct (generate_gcode_paths _ _ _ _ Hr) as [paths [-> Hne]].
    split; [|split; [exact Hne|split]].
    + exists paths. split; [reflexivity|].
      apply generate_gcode_phases in Hr.
      destruct Hr as [cfg [diag [head [kernel [_ [_ [_ [Hk ->]]]]]]]].
      cbn [out_preview]. rewrite (motion_kernel_preview _ _ _ Hk).
      rewrite <- (length_map extract_points paths). apply filter_length_le.
    + destruct (out_gcode r) as [| l ls]; [congruence | reflexivity].
    + intros FilePath'. eexists. split; [reflexivity|].
      cbn [Gcode PreviewText Preview panel_Bed panel_BadPts panel_BadSegs panel_WarnDots].
      repeat split; reflexivity.
Qed.

(** ** What the safety checks leave alone *)

Lemma header_ext (cfg cfg' : config) (base_code : option (list string)) :
  mode cfg = mode cfg' -> params cfg = params cfg' ->
  header cfg base_code = header cfg' base_code.
Proof. unfold header. now intros -> ->. Qed.

(** X16. The safety checks only report. The program and the preview of a
    run do not depend on the printer type, the bed sizes or the bed shape:
    two profiles with the same mode and the same parameters give the same
    program, move for move, however many of its points are out of bounds
    on either bed. *)
Theorem bounds_never_alter_the_program {host : Host} (paths : list rg.Geometry)
    (profile profile' : pyval) (base_code : option (list string))
    (cfg cfg' : config) (r r' : output) :
  read_profile profile = Ok cfg ->
  read_profile profile' = Ok cfg' ->
  mode cfg = mode cfg' ->
  params cfg = params cfg' ->
  generate_gcode (Some paths) profile base_code = Ok r ->
  generate_gcode (Some paths) profile' base_code = Ok r' ->
  out_gcode r = out_gcode r' /\ out_preview r = out_preview r'.
Proof.
  intros Hc Hc' Hmode Hparams H H'. split.
  - apply generate_gcode_inv in H, H'.
    destruct H as [cfg0 [items [head [Hc0 [Hp [Hh Hg]]]]]].
    destruct H' as [cfg0' [items' [head' [Hc0' [Hp' [Hh' Hg']]]]]].
    assert (cfg0 = cfg) by congruence. assert (cfg0' = cfg') by congruence.
    subst cfg0 cfg0'.
    assert (items' = items) by congruence. subst items'.
    rewrite (header_ext cfg cfg' base_code Hmode Hparams) in Hh.
    assert (head' = head) by congruence. subst head'.
    rewrite Hg, Hg'. unfold footer. now rewrite Hmode.
  - apply generate_gcode_phases in H, H'.
    destruct H as [cfg0 [diag [head [kernel [_ [_ [_ [Hk ->]]]]]]]].
    destruct H' as [cfg0' [diag' [head' [kernel' [_ [_ [_ [Hk' ->]]]]]]]].
    cbn [out_preview].
    now rewrite (motion_kernel_preview _ _ _ Hk), (motion_kernel_preview _ _ _ Hk').
Qed.

(** ** Parameters that are no mapping *)

Lemma config_of_dict_params (items : list (string * pyval)) (cfg : config) :
  config_of_dict items = Ok cfg -> params cfg = get items "Params" (PDict []).
Proof.
  unfold config_of_dict. intros H.
  destruct (eq_str (get items "PrinterType" (PStr "Cartesian")) "Delta");
    apply bind_Ok in H; destruct H as [shape [_ H]]; now injection H as <-.
Qed.

(** X17. Parameters that are not a dictionary. In the list format they
    are replaced by the empty mapping, so the run is the run on the
    defaults of every parameter; in the dictionary format they are kept,
    and no run on a list of paths returns. *)
Theorem parameters_that_are_no_mapping {host : Host} (v : pyval) :
  is_dict v = false ->
  (forall m t rest paths base_code,
     generate_gcode (Some paths) (PList (m :: t :: v :: rest)) base_code
     = generate_gcode (Some paths) (PList (m :: t :: PDict [] :: rest)) base_code)
  /\ (forall items paths base_code,
        lookup "Params" items = Some v ->
        exists e, generate_gcode (Some paths) (PDict items) base_code = Raise e).
Proof.
  intros Hv. split.
  - intros m t rest paths base_code.
    assert (E : read_profile (PList (m :: t :: v :: rest))
                = read_profile (PList (m :: t :: PDict [] :: rest))).
    { unfold read_profile, decode_string. cbn [truthy length Nat.eqb negb].
      unfold config_of_list, item_or. cbn [nth nth_error is_dict]. now rewrite Hv. }
    unfold generate_gcode. now rewrite E.
  - intros items paths base_code Hl. unfold generate_gcode.
    destruct (read_profile (PDict items)) as [cfg |] eqn:Hc; cbn [bind]; [|eauto].
    assert (Hp : params cfg = v).
    { unfold read_profile, decode_string in Hc.
      destruct items as [| kv items]; [discriminate|].
      cbn [truthy length Nat.eqb negb] in Hc.
      apply config_of_dict_params in Hc. unfold get in Hc. now rewrite Hl in Hc. }
    destruct (safety_checks cfg (Some paths)) as [diag |]; cbn [bind]; [|eauto].
    destruct (header cfg base_code) as [head |]; cbn [bind]; [|eauto].
    unfold motion_kernel. rewrite Hp.
    destruct v; try discriminate Hv; cbn [params_get bind]; eauto.
Qed.

(** * Part V: the theorems at work *)

(** ** The claims *)

#[local] Existing Instance binary64_host.

Lemma C1_validateSegment_witness :
  (segment_checks default_config (pt 350 10 10) (pt 10 10 10)
   = [pt 350 10 10; pt 10 10 10]
   /\ segment_ok default_config (pt 350 10 10) (pt 10 10 10) = Ok (false && true))
  /\ (segment_checks wide_delta_config corner_a corner_b
      = [corner_a; corner_b; midpoint corner_a corner_b]
      /\ segment_ok wide_delta_config corner_a corner_b = Ok (true && true && false)).
Proof.
  split.
  - assert (Ha : in_bounds default_config (pt 350 10 10) = Ok (false, ["X>BedX"]))
      by (vm_compute; reflexivity).
    assert (Hb : in_bounds default_config (pt 10 10 10) = Ok (true, []))
      by (vm_compute; reflexivity).
    destruct (@C1_validateSegment binary64_host default_config (pt 350 10 10) (pt 10 10 10)
                false true ["X>BedX"] [] Ha Hb) as [Hcart _].
    apply Hcart. reflexivity.
  - assert (Ha : in_bounds wide_delta_config corner_a = Ok (true, []))
      by (vm_compute; reflexivity).
    assert (Hb : in_bounds wide_delta_config corner_b = Ok (true, []))
      by (vm_compute; reflexivity).
    assert (Hm : in_bounds wide_delta_config (midpoint corner_a corner_b)
                 = Ok (false, ["r>BedRadius"]))
      by (vm_compute; reflexivity).
    destruct (@C1_validateSegment binary64_host wide_delta_config corner_a corner_b
                true true [] [] Ha Hb) as [_ Hdelta].
    destruct (Hdelta eq_refl) as [Hchecks [okM [rm [Hm' Hok]]]].
    rewrite Hm in Hm'. injection Hm' as <- <-.
    split; [exact Hchecks | exact Hok].
Defined.


Lemma C3_cumulative_extrusion_witness :
  exists r head rest,
    generate_gcode (Some two_paths) hot_profile None = Ok r
    /\ header hot_config None = Ok head
    /\ out_gcode r = head ++ rest
    /\ extrusions rest
       = running 0 (map (fun d => fmul d float_0_2)
                        (flat_map segment_lengths (map extract_points two_paths)))
    /\ StronglySorted Qle (0 :: extrusions rest)
    /\ extrusions (out_gcode r) = extrusions rest
    /\ map format_4f (extrusions (out_gcode r)) = ["1.0000"; "3.4000"; "4.4000"].
Proof.
  destruct (@C3_cumulative_extrusion binary64_host) as [General _].
  assert (Run : exists r, generate_gcode (Some two_paths) hot_profile None = Ok r
                          /\ map format_4f (extrusions (out_gcode r))
                             = ["1.0000"; "3.4000"; "4.4000"])
    by (eexists; split; vm_compute; reflexivity).
  destruct Run as [r [Hr Hfmt]].
  destruct (General two_paths hot_profile None hot_config
              [("ExtrusionMultiplier", PFloat float_0_2)] float_0_2 r
              eq_refl eq_refl eq_refl eq_refl Hr)
    as [head [rest [Hh [Hg [Hsum [Hsorted Hwhole]]]]]].
  exists r, head, rest. split; [exact Hr|]. split; [exact Hh|]. split; [exact Hg|].
  split; [exact Hsum|]. split; [|split; [|exact Hfmt]].
  - apply Hsorted; [exact binary64_keeps_order | exact binary64_distance_nonneg | discriminate].
  - apply Hwhole. now left.
Defined.

Lemma C4_status_counts_points_only_witness :
  (exists r,
     generate_gcode (Some [rg.Polyline [pt 350 10 10; pt 10 10 10]]) PNone None = Ok r
     /\ length (out_BadSegs r) = 1%nat
     /\ out_status r = "⚠ Out of bounds: 1 point(s)")
  /\ (exists r,
        generate_gcode (Some [rg.Polyline [corner_a; corner_b]]) wide_delta_profile None
        = Ok r
        /\ length (out_BadSegs r) = 1%nat
        /\ out_status r = "OK").
Proof.
  split.
  - assert (Run : exists r,
               generate_gcode (Some [rg.Polyline [pt 350 10 10; pt 10 10 10]]) PNone None
               = Ok r /\ length (out_BadSegs r) = 1%nat)
      by (eexists; split; vm_compute; reflexivity).
    destruct Run as [r [Hr Hsegs]]. exists r. split; [exact Hr|]. split; [exact Hsegs|].
    destruct (@C4_status_counts_points_only binary64_host _ _ _ _ Hr)
      as [cfg [paths [Hc [Hg [_ [_ Hbad]]]]]].
    change (Ok default_config = Ok cfg) in Hc. injection Hc as <-. injection Hg as <-.
    apply (Hbad 0%nat). vm_compute. reflexivity.
  - assert (Run : exists r,
               generate_gcode (Some [rg.Polyline [corner_a; corner_b]]) wide_delta_profile None
               = Ok r /\ length (out_BadSegs r) = 1%nat)
      by (eexists; split; vm_compute; reflexivity).
    destruct Run as [r [Hr Hsegs]]. exists r. split; [exact Hr|]. split; [exact Hsegs|].
    destruct (@C4_status_counts_points_only binary64_host _ _ _ _ Hr)
      as [cfg [paths [Hc [Hg [_ [Hok _]]]]]].
    change (Ok wide_delta_config = Ok cfg) in Hc. injection Hc as <-. injection Hg as <-.
    apply Hok. repeat constructor; vm_compute; reflexivity.
Defined.

Lemma C5_kernel_defaults_witness :
  (exists r rest,
     generate_gcode (Some two_paths)
       (PList [PStr "Clay"; PStr "Cartesian"; PDict [("ClearanceHeight", PInt 3)]]) None
     = Ok r
     /\ feeds rest = map (fun _ => PInt 1500) (concat (map extract_points two_paths))
     /\ feeds (out_gcode r) = feeds rest)
  /\ (exists r rest,
        generate_gcode (Some two_paths)
          (PList [PStr "Pen"; PStr "Cartesian"; PDict [("FeedRate", PInt 900)]]) None
        = Ok r
        /\ targets rest = flat_map (expected_targets 5) (map extract_points two_paths)
        /\ targets (out_gcode r) = targets rest).
Proof.
  split.
  - assert (Run : exists r,
               generate_gcode (Some two_paths)
                 (PList [PStr "Clay"; PStr "Cartesian"; PDict [("ClearanceHeight", PInt 3)]])
                 None = Ok r)
      by (eexists; vm_compute; reflexivity).
    destruct Run as [r Hr].
    destruct (@C5_kernel_defaults binary64_host two_paths
                (PList [PStr "Clay"; PStr "Cartesian"; PDict [("ClearanceHeight", PInt 3)]])
                None
                (mkConfig (PStr "Clay") (PStr "Cartesian") (PDict [("ClearanceHeight", PInt 3)])
                          (PInt 300) (PInt 300) (PInt 300) (PInt 150) (Rectangle3d 300 300))
                [("ClearanceHeight", PInt 3)] r eq_refl eq_refl Hr)
      as [head [rest [_ [_ [Hfeed _]]]]].
    destruct (Hfeed eq_refl) as [Hf Hwhole].
    exists r, rest. split; [exact Hr|]. split; [exact Hf|]. apply Hwhole. now left.
  - assert (Run : exists r,
               generate_gcode (Some two_paths)
                 (PList [PStr "Pen"; PStr "Cartesian"; PDict [("FeedRate", PInt 900)]])
                 None = Ok r)
      by (eexists; vm_compute; reflexivity).
    destruct Run as [r Hr].
    destruct (@C5_kernel_defaults binary64_host two_paths
                (PList [PStr "Pen"; PStr "Cartesian"; PDict [("FeedRate", PInt 900)]])
                None
                (mkConfig (PStr "Pen") (PStr "Cartesian") (PDict [("FeedRate", PInt 900)])
                          (PInt 300) (PInt 300) (PInt 300) (PInt 150) (Rectangle3d 300 300))
                [("FeedRate", PInt 900)] r eq_refl eq_refl Hr)
      as [head [rest [_ [_ [_ Hclr]]]]].
    destruct (Hclr eq_refl) as [Ht Hwhole].
    exists r, rest. split; [exact Hr|]. split; [exact Ht|]. apply Hwhole. now left.
Defined.


Lemma C7_override_header_keeps_footer_witness :
  exists r,
    generate_gcode (Some two_paths) clay_profile
                    (Some ["G21 ; millimetres"; "G90 ; absolute"]) = Ok r
    /\ exists cfg kernel,
        read_profile clay_profile = Ok cfg
        /\ motion_kernel cfg (Some two_paths) = Ok kernel
        /\ out_gcode r
           = map text ["G21 ; millimetres"; "G90 ; absolute"] ++ gcode kernel ++ footer cfg
        /\ firstn 2 (out_gcode r) = map text ["G21 ; millimetres"; "G90 ; absolute"]
        /\ exists before,
            out_gcode r
            = before ++ [text "M107 ; fans off"; text "G28 X0 ; home X";
                         text "M84 ; disable motors"].
Proof.
  eexists. split; [vm_compute; reflexivity|].
  apply (@C7_override_header_keeps_footer binary64_host (Some two_paths) clay_profile
           ["G21 ; millimetres"; "G90 ; absolute"]).
  - discriminate.
  - vm_compute. reflexivity.
Defined.

Lemma C8_undecodable_profile_falls_back_witness :
  @read_profile binary64_host (PStr "{'Mode': 'Hot'")
  = Ok (mkConfig (PStr "Pen") (PStr "Cartesian") (PDict [])
                 (PInt 300) (PInt 300) (PInt 300) (PInt 150) (Supplied PNone))
  /\ exists r,
      generate_gcode (Some two_paths) (PStr "{'Mode': 'Hot'") None = Ok r
      /\ generate_gcode (Some two_paths) PNone None = Ok r.
Proof.
  apply (@C8_undecodable_profile_falls_back binary64_host). reflexivity.
Defined.

Lemma C9_no_extrusion_outside_hot_witness :
  exists r,
    generate_gcode (Some two_paths) clay_profile None = Ok r
    /\ exists cfg head rest,
        read_profile clay_profile = Ok cfg
        /\ header cfg None = Ok head
        /\ out_gcode r = head ++ rest
        /\ (eq_str (mode cfg) "Hot" = false ->
            Forall no_E rest
            /\ (synthesized None ->
                filter (has_field "E") (out_gcode r) = [text "G92 E0 ; Reset extrusion"])).
Proof.
  eexists. split; [vm_compute; reflexivity|].
  apply (@C9_no_extrusion_outside_hot binary64_host (Some two_paths) clay_profile None).
  vm_compute. reflexivity.
Defined.

(** ** The further properties *)

#[local] Existing Instance sample_runtime.

Lemma degenerate_paths_are_skipped_witness :
  generate_gcode
    (Some ([rg.Polyline [pt 0 0 0; pt 3 4 0]]
             ++ rg.PolylineCurve None :: [rg.Polyline [pt 1 1 1]]))
    hot_profile None
  = generate_gcode
      (Some ([rg.Polyline [pt 0 0 0; pt 3 4 0]] ++ [rg.Polyline [pt 1 1 1]]))
      hot_profile None.
Proof.
  apply (@degenerate_paths_are_skipped binary64_host). reflexivity.
Defined.

Lemma preview_is_the_paths_with_points_witness :
  exists r,
    generate_gcode (Some two_paths) hot_profile None = Ok r
    /\ out_preview r = filter nonempty (map extract_points two_paths)
    /\ (length (out_preview r) <= length two_paths)%nat
    /\ (length (out_preview r) = length two_paths
        <-> Forall (fun pl => extract_points pl <> []) two_paths).
Proof.
  eexists. split; [vm_compute; reflexivity|].
  apply (@preview_is_the_paths_with_points binary64_host two_paths hot_profile None).
  vm_compute. reflexivity.
Defined.

Lemma program_size_witness :
  exists r,
    generate_gcode (Some two_paths) hot_profile None = Ok r
    /\ exists cfg,
        read_profile hot_profile = Ok cfg
        /\ length (out_gcode r)
           = (header_line_count cfg None
              + list_sum (map path_line_count (map extract_points two_paths))
              + (if eq_str (mode cfg) "Hot" then 6 else 4))%nat
        /\ (4 <= length (out_gcode r))%nat.
Proof.
  eexists. split; [vm_compute; reflexivity|].
  apply (@program_size binary64_host two_paths hot_profile None).
  vm_compute. reflexivity.
Defined.

Lemma bad_points_and_their_dots_witness :
  exists r,
    generate_gcode (Some [rg.Polyline [pt 350 10 (-1); pt 10 10 10]]) PNone None = Ok r
    /\ exists cfg,
        read_profile PNone = Ok cfg
        /\ out_BadPts r
           = filter (outside cfg)
                    (flat_map extract_points [rg.Polyline [pt 350 10 (-1); pt 10 10 10]])
        /\ map snd (out_WarnDots r) = out_BadPts r
        /\ map fst (out_WarnDots r)
           = map (fun p => join ", " (snd (verdict cfg p))) (out_BadPts r)
        /\ Forall (fun dot => fst dot <> "") (out_WarnDots r).
Proof.
  eexists. split; [vm_compute; reflexivity|].
  apply (@bad_points_and_their_dots binary64_host
           [rg.Polyline [pt 350 10 (-1); pt 10 10 10]] PNone None).
  vm_compute. reflexivity.
Defined.

Lemma bad_segments_fail_a_tested_point_witness :
  exists r,
    generate_gcode (Some [rg.Polyline [corner_a; corner_b]; rg.Polyline [pt 10 10 10]])
                   wide_delta_profile None = Ok r
    /\ length (out_BadPts r) = 0%nat
    /\ length (out_BadSegs r) = 1%nat
    /\ exists cfg,
        read_profile wide_delta_profile = Ok cfg
        /\ out_BadSegs r
           = filter (fun ab => existsb (outside cfg) (segment_checks cfg (fst ab) (snd ab)))
                    (flat_map (fun pl => segments (extract_points pl))
                              [rg.Polyline [corner_a; corner_b]; rg.Polyline [pt 10 10 10]])
        /\ (eq_str (printer_type cfg) "Delta" = false ->
            out_BadPts r = [] -> out_BadSegs r = []).
Proof.
  eexists. split; [vm_compute; reflexivity|].
  split; [reflexivity|]. split; [reflexivity|].
  apply (@bad_segments_fail_a_tested_point binary64_host
           [rg.Polyline [corner_a; corner_b]; rg.Polyline [pt 10 10 10]]
           wide_delta_profile None).
  vm_compute. reflexivity.
Defined.

Lemma only_five_parameters_are_read_witness :
  generate_gcode (Some two_paths)
                 (PList [PStr "Clay"; PStr "Cartesian";
                         PDict [("FlowRate", PInt 3); ("NozzleTemp", PInt 200)]]) None
  = generate_gcode (Some two_paths) clay_profile None.
Proof.
  apply (@only_five_parameters_are_read binary64_host two_paths
           (PList [PStr "Clay"; PStr "Cartesian";
                   PDict [("FlowRate", PInt 3); ("NozzleTemp", PInt 200)]])
           clay_profile None
           (mkConfig (PStr "Clay") (PStr "Cartesian")
                     (PDict [("FlowRate", PInt 3); ("NozzleTemp", PInt 200)])
                     (PInt 300) (PInt 300) (PInt 300) (PInt 150) (Rectangle3d 300 300))
           clay_config
           [("FlowRate", PInt 3); ("NozzleTemp", PInt 200)] []).
  - reflexivity.
  - reflexivity.
  - unfold same_machine. simpl. tauto.
  - reflexivity.
  - reflexivity.
  - intros key [<- | [<- | []]]; reflexivity.
Defined.

Lemma heaters_only_in_hot_mode_witness :
  exists r,
    generate_gcode (Some two_paths) hot_profile None = Ok r
    /\ exists cfg items head rest,
        read_profile hot_profile = Ok cfg
        /\ params cfg = PDict items
        /\ header cfg None = Ok head
        /\ out_gcode r = head ++ rest
        /\ filter heater rest = (if eq_str (mode cfg) "Hot" then heaters_off else [])
        /\ (synthesized None ->
            filter heater head
            = if eq_str (mode cfg) "Hot"
              then set_temperatures (get items "NozzleTemp" (PInt 210))
                                    (get items "BedTemp" (PInt 30))
              else [])
        /\ (~ synthesized None -> exists code, None = Some code /\ head = map text code).
Proof.
  eexists. split; [vm_compute; reflexivity|].
  apply (@heaters_only_in_hot_mode binary64_host two_paths hot_profile None).
  vm_compute. reflexivity.
Defined.


Lemma dict_and_list_profiles_agree_witness :
  read_profile
    (PDict [("BedShape", PObj 7); ("BedRadius", PInt 90); ("BedZ", PInt 250);
            ("BedY", PInt 200); ("BedX", PInt 220); ("Params", PDict [("FeedRate", PInt 900)]);
            ("PrinterType", PStr "Delta"); ("Mode", PStr "Clay")])
  = read_profile
      (PList [PStr "Clay"; PStr "Delta"; PDict [("FeedRate", PInt 900)];
              PInt 220; PInt 200; PInt 250; PInt 90; PObj 7]).
Proof.
  apply (@dict_and_list_profiles_agree binary64_host); reflexivity.
Defined.

Lemma pen_profile_runs_witness :
  exists profile,
    make_pen_profile (PStr "Delta") PNone PNone (PInt 200) (PInt 100)
                     (PInt 12) PNone PNone PNone = Some profile
    /\ exists r rest,
        generate_gcode (Some two_paths) profile None = Ok r
        /\ feeds rest = map (fun _ => PInt 1000) (concat (map extract_points two_paths))
        /\ targets rest = flat_map (expected_targets 5) (map extract_points two_paths)
        /\ exists profile',
            make_pen_profile (PStr "Delta") PNone PNone (PInt 200) (PInt 100)
                             (PInt 1) (PInt 2) (PInt 3) PNone = Some profile'
            /\ generate_gcode (Some two_paths) profile' None = Ok r.
Proof.
  eexists. split; [reflexivity|].
  destruct (@pen_profile_runs binary64_host sample_runtime
              (PStr "Delta") PNone PNone (PInt 200) (PInt 100) (PInt 12) PNone PNone PNone
              _ two_paths None eq_refl)
    as [cfg [r [head [rest [_ [_ [Hr [_ [_ [Hf [Ht Hany]]]]]]]]]]].
  exists r, rest. split; [exact Hr|]. split; [exact Hf|]. split; [exact Ht|].
  exact (Hany (PInt 1) (PInt 2) (PInt 3)).
Defined.

Lemma clay_profile_runs_witness :
  exists profile,
    make_clay_profile (PStr "Cartesian") (PInt 200) PNone PNone PNone
                      (PInt 6) PNone PNone PNone PNone (PFloat (5 # 2)) = Some profile
    /\ exists r rest,
        generate_gcode (Some two_paths) profile None = Ok r
        /\ feeds rest = map (fun _ => PInt 800) (concat (map extract_points two_paths))
        /\ targets rest = flat_map (expected_targets (5 # 2)) (map extract_points two_paths)
        /\ extrusions rest = []
        /\ exists profile',
            make_clay_profile (PStr "Cartesian") (PInt 200) PNone PNone PNone
                              PNone (PInt 1) (PInt 2) (PInt 3) PNone (PFloat (5 # 2))
            = Some profile'
            /\ generate_gcode (Some two_paths) profile' None = Ok r.
Proof.
  eexists. split; [reflexivity|].
  destruct (@clay_profile_runs binary64_host sample_runtime
              (PStr "Cartesian") (PInt 200) PNone PNone PNone
              (PInt 6) PNone PNone PNone PNone (PFloat (5 # 2)) _ (5 # 2)
              two_paths None eq_refl eq_refl)
    as [cfg [r [head [rest [_ [_ [Hr [_ [_ [Hf [Ht [He Hany]]]]]]]]]]]].
  exists r, rest. split; [exact Hr|]. split; [exact Hf|]. split; [exact Ht|].
  split; [exact He|].
  exact (Hany PNone (PInt 1) (PInt 2) (PInt 3)).
Defined.

Lemma hot_profile_runs_witness :
  exists profile,
    make_hot_profile (PStr "Cartesian") PNone PNone PNone PNone
                     (PInt 195) PNone (PFloat (double 0.1)) (PInt 1200) PNone = Some profile
    /\ exists r head rest,
        generate_gcode (Some two_paths) profile None = Ok r
        /\ out_gcode r = head ++ rest
        /\ filter heater head = set_temperatures (PInt 195) (PInt 30)
        /\ feeds rest = map (fun _ => PInt 1200) (concat (map extract_points two_paths))
        /\ targets rest = flat_map (expected_targets 5) (map extract_points two_paths)
        /\ extrusions rest
           = running 0 (map (fun d => fmul d (double 0.1))
                            (flat_map segment_lengths (map extract_points two_paths))).
Proof.
  eexists. split; [reflexivity|].
  destruct (@hot_profile_runs binary64_host sample_runtime
              (PStr "Cartesian") PNone PNone PNone PNone
              (PInt 195) PNone (PFloat (double 0.1)) (PInt 1200) PNone _ 5 (double 0.1)
              two_paths None eq_refl eq_refl eq_refl)
    as [cfg [r [head [rest [_ [_ [Hr [_ [Hg [Hh [Hf [Ht He]]]]]]]]]]]].
  exists r, head, rest. split; [exact Hr|]. split; [exact Hg|].
  split; [apply Hh; now left|]. split; [exact Hf|]. split; [exact Ht | exact He].
Defined.

Lemma printer_type_toggles_witness :
  (exists items,
     PrinterSetupHot (PFloat 1) PNone PNone PNone PNone PNone PNone PNone PNone PNone
     = Some (PList items)
     /\ nth 1 items PNone = PStr "Delta")
  /\ (exists items,
        PrinterSetupClay (PStr "delta") PNone PNone PNone PNone
                         PNone PNone PNone PNone PNone PNone
        = Some (PList items)
        /\ nth 1 items PNone = PStr "Cartesian")
  /\ (exists items,
        PrinterSetupPen (PFloat (3 # 2)) PNone PNone PNone PNone PNone PNone PNone PNone
        = Some (PList items)
        /\ nth 1 items PNone = PStr "Delta")
  /\ PrinterSetupPen (PStr "Delta") PNone PNone PNone PNone PNone PNone PNone PNone = None.
Proof.
  destruct (@printer_type_toggles sample_runtime) as [Hhot [Hclay [Hpen [Hstr _]]]].
  split; [|split; [|split]].
  - destruct (Hhot (PFloat 1) PNone PNone PNone PNone PNone PNone PNone PNone PNone
                   _ eq_refl) as [items [E [_ H1]]].
    exists items. split; [now rewrite <- E | exact H1].
  - destruct (Hclay (PStr "delta") PNone PNone PNone PNone PNone PNone PNone PNone PNone
                    PNone _ eq_refl) as [items [E [_ H1]]].
    exists items. split; [now rewrite <- E | exact H1].
  - destruct (Hpen (PFloat (3 # 2)) PNone PNone PNone PNone PNone PNone PNone PNone
                   _ eq_refl) as [n [items [Hn [E [_ H1]]]]].
    exists items. split; [now rewrite <- E|].
    injection Hn as <-. exact H1.
  - apply Hstr. reflexivity.
Defined.

Lemma generator_script_witness :
  exists p,
    GcodeGenerator (Some two_paths) hot_profile None (Some "out.gcode") = Ok p
    /\ Gcode p <> []
    /\ PreviewText p
       = (join newline (map render (firstn 30 (Gcode p)))
            ++ newline ++ "... (" ++ str_nat (length (Gcode p)) ++ " lines total)")%string
    /\ exists p',
        GcodeGenerator (Some two_paths) hot_profile None None = Ok p'
        /\ Gcode p' = Gcode p.
Proof.
  eexists. split; [vm_compute; reflexivity|].
  destruct (proj2 (@generator_script binary64_host sample_runtime
                     (Some two_paths) hot_profile None (Some "out.gcode")) _
                  ltac:(vm_compute; reflexivity))
    as [_ [Hne [Htext Hany]]].
  split; [exact Hne|]. split; [exact Htext|].
  destruct (Hany None) as [p' [Hp' [Hg _]]]. exists p'. split; [exact Hp' | exact Hg].
Defined.

Lemma bounds_never_alter_the_program_witness :
  exists r r',
    generate_gcode (Some [rg.Polyline [pt 200 200 10; pt 10 10 10]]) PNone None = Ok r
    /\ generate_gcode (Some [rg.Polyline [pt 200 200 10; pt 10 10 10]])
                      (PList [PStr "Pen"; PStr "Delta"]) None = Ok r'
    /\ length (out_BadPts r) = 0%nat /\ length (out_BadPts r') = 1%nat
    /\ out_gcode r = out_gcode r' /\ out_preview r = out_preview r'.
Proof.
  eexists. eexists. split; [vm_compute; reflexivity|]. split; [vm_compute; reflexivity|].
  split; [reflexivity|]. split; [reflexivity|].
  apply (@bounds_never_alter_the_program binary64_host
           [rg.Polyline [pt 200 200 10; pt 10 10 10]] PNone
           (PList [PStr "Pen"; PStr "Delta"]) None
           default_config delta_config).
  - reflexivity.
  - reflexivity.
  - reflexivity.
  - reflexivity.
  - vm_compute. reflexivity.
  - vm_compute. reflexivity.
Defined.

Lemma parameters_that_are_no_mapping_witness :
  generate_gcode (Some two_paths) (PList [PStr "Clay"; PStr "Cartesian"; PInt 3]) None
  = generate_gcode (Some two_paths) (PList [PStr "Clay"; PStr "Cartesian"; PDict []]) None
  /\ exists e,
      generate_gcode (Some two_paths)
                     (PDict [("Mode", PStr "Clay"); ("Params", PInt 3)]) None = Raise e.
Proof.
  destruct (@parameters_that_are_no_mapping binary64_host (PInt 3) eq_refl) as [Hlist Hdict].
  split; [apply Hlist | apply Hdict; reflexivity].
Defined.
